(** * rest-hapi: the registration and generation orchestrator

    A shallow embedding of [rest-hapi.js]: the module-level state
    ([internals], the exported surface, the shared configuration object),
    the per-request connection map with its lazily filled model caches, and
    the registration pipeline.  Objects that the JavaScript code compares or
    mutates by reference live in a heap of locations; the collaborators the
    module only calls (schema builder, database driver, host server, path
    and colour helpers) are the fields of a record the development is
    parametrised by, and every call to one of them is recorded in a trace. *)

From Stdlib Require Import String Ascii List Bool ZArith DecimalString.
From stdpp Require Import gmap strings list fin_maps.

Open Scope string_scope.

(** ** JavaScript values

    The configuration fragment of the value universe: primitives, plain
    objects and arrays.  An array is an object whose keys are its indices;
    [for ... in], property reads and writes treat both kinds alike, which is
    also how [extend] walks them.  Properties are own properties, in
    insertion order. *)

Inductive ObjKind := Plain | Array.

Inductive JsVal :=
| VUndef
| VNull
| VBool (b : bool)
| VNum (n : Z)
| VStr (s : string)
| VObj (kind : ObjKind) (props : JsObj)
with JsObj :=
| ONil
| OCons (key : string) (val : JsVal) (rest : JsObj).

Scheme JsVal_mut := Induction for JsVal Sort Prop
with JsObj_mut := Induction for JsObj Sort Prop.

#[global] Instance ObjKind_eq_dec : EqDecision ObjKind.
Proof. solve_decision. Defined.

Fixpoint JsVal_eqb (a b : JsVal) {struct a} : bool :=
  match a, b with
  | VUndef, VUndef => true
  | VNull, VNull => true
  | VBool x, VBool y => Bool.eqb x y
  | VNum x, VNum y => Z.eqb x y
  | VStr x, VStr y => String.eqb x y
  | VObj k1 o1, VObj k2 o2 => bool_decide (k1 = k2) && JsObj_eqb o1 o2
  | _, _ => false
  end
with JsObj_eqb (a b : JsObj) {struct a} : bool :=
  match a, b with
  | ONil, ONil => true
  | OCons k1 v1 r1, OCons k2 v2 r2 =>
      String.eqb k1 k2 && JsVal_eqb v1 v2 && JsObj_eqb r1 r2
  | _, _ => false
  end.

(** Object literals. *)
Fixpoint obj_of_list (l : list (string * JsVal)) : JsObj :=
  match l with
  | [] => ONil
  | (k, v) :: r => OCons k v (obj_of_list r)
  end.

Fixpoint keys (o : JsObj) : list string :=
  match o with
  | ONil => []
  | OCons k _ r => k :: keys r
  end.

Fixpoint values (o : JsObj) : list JsVal :=
  match o with
  | ONil => []
  | OCons _ v r => v :: values r
  end.

Definition literal (l : list (string * JsVal)) : JsVal := VObj Plain (obj_of_list l).

(** [o[k]] on an object: the value, or [undefined] when [k] is absent. *)
Fixpoint getProperty (o : JsObj) (k : string) : JsVal :=
  match o with
  | ONil => VUndef
  | OCons k' v r => if String.eqb k' k then v else getProperty r k
  end.

(** [o[k] = v]: overwrite in place, or append a new property. *)
Fixpoint setProperty (o : JsObj) (k : string) (v : JsVal) : JsObj :=
  match o with
  | ONil => OCons k v ONil
  | OCons k' v' r =>
      if String.eqb k' k then OCons k' v r else OCons k' v' (setProperty r k v)
  end.

(** [delete o[k]], as [_.omit(o, [k])] does on its copy. *)
Fixpoint omitProperty (o : JsObj) (k : string) : JsObj :=
  match o with
  | ONil => ONil
  | OCons k' v r =>
      if String.eqb k' k then omitProperty r k else OCons k' v (omitProperty r k)
  end.

(** JavaScript truthiness. *)
Definition truthy (v : JsVal) : bool :=
  match v with
  | VUndef | VNull => false
  | VBool b => b
  | VNum n => negb (Z.eqb n 0)
  | VStr s => negb (String.eqb s "")
  | VObj _ _ => true
  end.

(** [a === b] on configuration values.  Primitives compare by value.
    Objects compare by identity, which the trees of this embedding do not
    carry: they are the contents of configuration objects, which [extend]
    clones, and two object operands are taken to be different objects. *)
Definition strictEq (a b : JsVal) : bool :=
  match a, b with
  | VObj _ _, _ | _, VObj _ _ => false
  | _, _ => JsVal_eqb a b
  end.

(** Conversion to a property key or a template-literal segment. *)
Definition toStr (v : JsVal) : string :=
  match v with
  | VUndef => "undefined"
  | VNull => "null"
  | VBool true => "true"
  | VBool false => "false"
  | VNum n => NilZero.string_of_int (Z.to_int n)
  | VStr s => s
  | VObj Plain _ => "[object Object]"
  | VObj Array o => String.concat "," (map (fun v =>
        match v with
        | VStr s => s | VBool true => "true" | VBool false => "false"
        | VNum n => NilZero.string_of_int (Z.to_int n)
        | VObj Plain _ => "[object Object]"
        | _ => ""
        end) (values o))
  end.

(** ** The [extend] library, deep mode

    [extend(true, target, src)] for one source: every enumerable property of
    the source is merged into the target.  A plain-object or array value is
    merged recursively into the target's value of the same kind (or into an
    empty one), so source objects are cloned, never shared; [undefined]
    values are skipped; every other value overwrites. *)

Definition cloneBase (kind : ObjKind) (src : JsVal) : JsObj :=
  match src with
  | VObj k o => if bool_decide (k = kind) then o else ONil
  | _ => ONil
  end.

Fixpoint extend_obj (target options : JsObj) {struct options} : JsObj :=
  match options with
  | ONil => target
  | OCons name copy rest =>
      extend_obj
        match copy with
        | VObj kind cf =>
            setProperty target name
              (VObj kind (extend_obj (cloneBase kind (getProperty target name)) cf))
        | VUndef => target
        | _ => setProperty target name copy
        end
        rest
  end.

(** The properties a [for ... in] loop visits: those of an object or array,
    the indexed characters of a string, none for the other primitives. *)
Fixpoint string_props (i : nat) (s : string) : JsObj :=
  match s with
  | EmptyString => ONil
  | String c r =>
      OCons (NilZero.string_of_uint (Nat.to_uint i)) (VStr (String c EmptyString))
            (string_props (S i) r)
  end.

Definition enumerable (v : JsVal) : JsObj :=
  match v with
  | VObj _ o => o
  | VStr s => string_props 0 s
  | _ => ONil
  end.

(** One source argument: [null] and [undefined] sources are skipped. *)
Definition extend_src (target : JsObj) (src : JsVal) : JsObj :=
  extend_obj target (enumerable src).

(** [extend(true, target, src1, ..., srcn)]. *)
Definition extend (target : JsObj) (srcs : list JsVal) : JsObj :=
  fold_left extend_src srcs target.

(** [Object.assign(target, src)]: a shallow copy of the source's own
    properties, [undefined] values included. *)
Fixpoint assign_obj (target src : JsObj) : JsObj :=
  match src with
  | ONil => target
  | OCons k v r => assign_obj (setProperty target k v) r
  end.

Definition assign (target : JsObj) (src : JsVal) : JsObj :=
  assign_obj target (enumerable src).

(** ** Errors and results *)

Inductive JsError :=
| TypeError (message : string)
| Error (message : string).

Definition message (e : JsError) : string :=
  match e with TypeError m | Error m => m end.

Inductive Res (A : Type) :=
| Ok (a : A)
| Throw (e : JsError).
Arguments Ok {A} a.
Arguments Throw {A} e.

(** [v.k] and [v[k]]: reading a property of [undefined] or [null] throws. *)
Definition member (v : JsVal) (k : string) : Res JsVal :=
  match v with
  | VUndef => Throw (TypeError ("Cannot read property '" +:+ k +:+ "' of undefined"))
  | VNull => Throw (TypeError ("Cannot read property '" +:+ k +:+ "' of null"))
  | _ => Ok (getProperty (enumerable v) k)
  end.

(** [s.includes(t)]. *)
Definition includes (s t : string) : bool :=
  match index 0 t s with Some _ => true | None => false end.

(** [s.replace(pat, by)] with a string pattern: the first occurrence only. *)
Definition replace (s pat by_ : string) : string :=
  match index 0 pat s with
  | Some i => substring 0 i s +:+ by_ +:+
              substring (i + String.length pat) (String.length s - (i + String.length pat)) s
  | None => s
  end.

(** ** Loggers, drivers, options *)

Inductive Level := LLog | LInfo | LWarn | LError.

(** A logger made by [getLogger(label)] and its [bind]-children. *)
Record Logger := mkLogger { labels : list JsVal; logLevel : JsVal }.

Definition bind (l : Logger) (label : JsVal) : Logger :=
  {| labels := labels l ++ [label]; logLevel := logLevel l |}.

(** The database driver object handed in as [options.mongoose]. *)
Inductive Mongoose := Driver (id : nat).

(** The hapi server handed to [register] as [server]. *)
Inductive Server := Host (id : nat).

Definition loc := positive.

(** The [options] argument of [register]: [options.config] is a reference
    to the caller's configuration object, when there is one. *)
Record Options := mkOptions {
  opt_config : option loc;
  opt_mongoose : Mongoose;
  opt_pre : JsVal
}.

(** The function attached to a model as [with]: it closes over the schema
    name and the request. *)
Record WithClosure := mkWith { with_name : string; with_request : loc }.

(** ** Heap objects *)

Inductive Obj :=
| OData (o : JsObj)
    (* a configuration object *)
| ORequest (connections : gmap string loc) (env : Options) (logger : Logger)
    (* a request after the onRequest hook: its connection map, and the
       environment of its connect closure *)
| OHandle (driver : Mongoose) (uri options : JsVal)
    (* a live connection handle made by the driver *)
| OConnection (name : JsVal) (models : gmap string loc) (connection : option loc)
    (* the value stored in request.connections: name, models, connection *)
| OModel (name : string) (schema : JsVal) (collection : string) (db : loc)
         (with_ : option WithClosure).
    (* a model bound to a handle by handle.model(name, schema, collection) *)

(** What [connection.models[name]] can be.  The model cache is a plain
    object ([models: {}] in [mongooseInit]), so besides the models stored
    in it, it has the members of [Object.prototype]: under [constructor]
    the function [Object], under [__proto__] the prototype itself, under
    the other names its methods. *)
Inductive ModelRef :=
| Bound (model : loc)
    (* a model made by the driver *)
| Inherited (member : string).
    (* the member of Object.prototype of that name *)

(** ** Calls to collaborators, in the order they happen *)

Inductive Validator := Joi | HostValidator (id : nat).

Inductive Event :=
| EvValidator (server : Server) (v : Validator)
| EvExt (server : Server) (point : string) (env : Options)
| EvMethod (server : Server) (name : string)
| EvActionStart (logger : Logger) (msg : string) (data : option JsVal)
| EvLog (level : Level) (logger : Logger) (msg : string)
| EvModelGenerator (driver : Mongoose) (logger : Logger) (config : JsVal)
| EvCreateConnection (driver : Mongoose) (uri options : JsVal)
| EvModel (handle : loc) (name : string) (schema : JsVal) (collection : string)
| EvServerRegister (server : Server) (plugins : list (string * option JsVal))
| EvLoadPolicies (server : Server) (options : JsVal)
| EvRestHelperFactory (logger : Logger) (driver : Mongoose) (server : Server)
| EvGenerateRoutes (server : Server) (model : JsVal) (models : JsVal)
| EvApiGenerator (server : Server) (driver : Mongoose) (logger : Logger) (config : JsVal)
| EvAssignWith (member : string) (f : WithClosure).
    (* Object.assign(target, { with: f }), the target being the member of
       Object.prototype of that name *)

Definition is_build (e : Event) : bool :=
  match e with EvModelGenerator _ _ _ => true | _ => false end.

Definition is_warning (e : Event) : bool :=
  match e with EvLog LWarn _ _ => true | _ => false end.

Definition is_error_log (e : Event) : bool :=
  match e with EvLog LError _ _ => true | _ => false end.

(** How often the schema-build collaborator was invoked. *)
Definition builds (t : list Event) : nat := length (List.filter is_build t).

(** How many warnings were logged. *)
Definition warnings (t : list Event) : nat := length (List.filter is_warning t).

(** ** The collaborators

    What the module does not define: each function may look at the calls
    made so far, so a collaborator may answer differently from call to
    call.  A call that hands nothing back answers [None] when it returns
    and [Some err] when it throws. *)

Record Collaborators := mkCollaborators {
  (* the host: server.realm.validator, server.validator, server.ext,
     server.method, server.register *)
  realmValidator : list Event -> Server -> option Validator;
  serverValidator : list Event -> Server -> Validator -> option JsError;
  serverExt : list Event -> Server -> string -> option JsError;
  serverMethod : list Event -> Server -> string -> option JsError;
  serverRegister : list Event -> Server -> list (string * option JsVal) -> option JsError;
  (* server.plugins.mrhorse.loadPolicies *)
  loadPolicies : list Event -> Server -> JsVal -> option JsError;
  (* ./utilities *)
  modelGenerator : list Event -> Mongoose -> JsVal -> Res JsVal;
  restHelperFactory : list Event -> Mongoose -> Server -> option JsError;
  restGenerateRoutes : list Event -> Server -> JsVal -> option JsError;
  apiGenerator : list Event -> Server -> Mongoose -> JsVal -> option JsError;
  (* the driver *)
  createConnection : list Event -> Mongoose -> JsVal -> JsVal -> option JsError;
  connectionModel : list Event -> loc -> string -> JsVal -> string -> option JsError;
  (* __dirname, path, chalk *)
  dirname : string;
  path_join : string -> string -> string;
  chalk_gray : JsVal -> string;
  chalk_yellow : JsVal -> string
}.

(** ** Module state *)

Record World := mkWorld {
  heap : gmap loc Obj;
  (* const internals *)
  modelsGenerated : bool;
  globalSchemas : JsVal;
  pre : JsVal;
  (* const defaultConfig = require('./config') *)
  defaultConfig : loc;
  (* module.exports *)
  exported_config : loc;
  exported_schema : JsVal;
  exported_logger : option Logger;
  exported_joi : option Validator;
  exported_server : option Server;
  (* require('./globals') *)
  globals_mongoose : option Mongoose;
  trace : list Event
}.

Definition set_heap (h : gmap loc Obj) (w : World) : World :=
  mkWorld h (modelsGenerated w) (globalSchemas w) (pre w) (defaultConfig w)
          (exported_config w) (exported_schema w) (exported_logger w) (exported_joi w)
          (exported_server w) (globals_mongoose w) (trace w).

Definition set_modelsGenerated (b : bool) (w : World) : World :=
  mkWorld (heap w) b (globalSchemas w) (pre w) (defaultConfig w)
          (exported_config w) (exported_schema w) (exported_logger w) (exported_joi w)
          (exported_server w) (globals_mongoose w) (trace w).

Definition set_globalSchemas (v : JsVal) (w : World) : World :=
  mkWorld (heap w) (modelsGenerated w) v (pre w) (defaultConfig w)
          (exported_config w) (exported_schema w) (exported_logger w) (exported_joi w)
          (exported_server w) (globals_mongoose w) (trace w).

Definition set_pre (v : JsVal) (w : World) : World :=
  mkWorld (heap w) (modelsGenerated w) (globalSchemas w) v (defaultConfig w)
          (exported_config w) (exported_schema w) (exported_logger w) (exported_joi w)
          (exported_server w) (globals_mongoose w) (trace w).

Definition set_exported_config (l : loc) (w : World) : World :=
  mkWorld (heap w) (modelsGenerated w) (globalSchemas w) (pre w) (defaultConfig w)
          l (exported_schema w) (exported_logger w) (exported_joi w)
          (exported_server w) (globals_mongoose w) (trace w).

Definition set_exported_schema (v : JsVal) (w : World) : World :=
  mkWorld (heap w) (modelsGenerated w) (globalSchemas w) (pre w) (defaultConfig w)
          (exported_config w) v (exported_logger w) (exported_joi w)
          (exported_server w) (globals_mongoose w) (trace w).

Definition set_exported_logger (l : Logger) (w : World) : World :=
  mkWorld (heap w) (modelsGenerated w) (globalSchemas w) (pre w) (defaultConfig w)
          (exported_config w) (exported_schema w) (Some l) (exported_joi w)
          (exported_server w) (globals_mongoose w) (trace w).

Definition set_exported_joi (v : Validator) (w : World) : World :=
  mkWorld (heap w) (modelsGenerated w) (globalSchemas w) (pre w) (defaultConfig w)
          (exported_config w) (exported_schema w) (exported_logger w) (Some v)
          (exported_server w) (globals_mongoose w) (trace w).

Definition set_exported_server (s : Server) (w : World) : World :=
  mkWorld (heap w) (modelsGenerated w) (globalSchemas w) (pre w) (defaultConfig w)
          (exported_config w) (exported_schema w) (exported_logger w) (exported_joi w)
          (Some s) (globals_mongoose w) (trace w).

Definition set_globals_mongoose (m : Mongoose) (w : World) : World :=
  mkWorld (heap w) (modelsGenerated w) (globalSchemas w) (pre w) (defaultConfig w)
          (exported_config w) (exported_schema w) (exported_logger w) (exported_joi w)
          (exported_server w) (Some m) (trace w).

Definition set_trace (t : list Event) (w : World) : World :=
  mkWorld (heap w) (modelsGenerated w) (globalSchemas w) (pre w) (defaultConfig w)
          (exported_config w) (exported_schema w) (exported_logger w) (exported_joi w)
          (exported_server w) (globals_mongoose w) t.

(** ** Computations: state, with exceptions that keep the state reached *)

Definition M (A : Type) : Type := World -> Res A * World.

Definition ret {A} (a : A) : M A := fun w => (Ok a, w).

Definition throw {A} (e : JsError) : M A := fun w => (Throw e, w).

Definition bindM {A B} (m : M A) (f : A -> M B) : M B :=
  fun w => match m w with
           | (Ok a, w') => f a w'
           | (Throw e, w') => (Throw e, w')
           end.

(** [try { m } catch (err) { h err }]. *)
Definition tryCatch {A} (m : M A) (h : JsError -> M A) : M A :=
  fun w => match m w with
           | (Ok a, w') => (Ok a, w')
           | (Throw e, w') => h e w'
           end.

Definition gets {A} (f : World -> A) : M A := fun w => (Ok (f w), w).

Definition modify (f : World -> World) : M unit := fun w => (Ok tt, f w).

Definition liftRes {A} (r : Res A) : M A := fun w => (r, w).

Declare Scope js_scope.
Delimit Scope js_scope with js.
Notation "x <- m ;; k" := (bindM m (fun x => k))
  (at level 100, m at next level, right associativity) : js_scope.
Notation "m ;; k" := (bindM m (fun _ => k))
  (at level 100, right associativity) : js_scope.
Open Scope js_scope.

Definition emit (e : Event) : M unit :=
  modify (fun w => set_trace (trace w ++ [e]) w).

(** A call that hands nothing back: it is recorded, then it returns or
    throws as the collaborator answers. *)
Definition call (e : Event) (answer : list Event -> option JsError) : M unit :=
  emit e ;;
  t <- gets trace ;;
  match answer t with
  | None => ret tt
  | Some err => throw err
  end.

(** A fresh object: its location is new to the heap. *)
Definition alloc (o : Obj) : M loc :=
  fun w => let l := fresh (dom (heap w)) in (Ok l, set_heap (<[l := o]> (heap w)) w).

Definition store (l : loc) (o : Obj) : M unit :=
  modify (fun w => set_heap (<[l := o]> (heap w)) w).

(** Reading a configuration object through a reference. *)
Definition readData (l : loc) : M JsObj :=
  fun w => match heap w !! l with
           | Some (OData o) => (Ok o, w)
           | _ => (Throw (TypeError "not a configuration object"), w)
           end.

(** [request.connections]. *)
Definition readConnections (request : loc) : M (gmap string loc) :=
  fun w => match heap w !! request with
           | Some (ORequest conns _ _) => (Ok conns, w)
           | _ => (Throw (TypeError "Cannot read property 'connections' of undefined"), w)
           end.

(** [request.connections[key] = l]. *)
Definition writeConnection (request : loc) (key : string) (l : loc) : M unit :=
  fun w => match heap w !! request with
           | Some (ORequest conns env lg) =>
               (Ok tt, set_heap (<[request := ORequest (<[key := l]> conns) env lg]> (heap w)) w)
           | _ => (Throw (TypeError "Cannot read property 'connections' of undefined"), w)
           end.

(** ** The module's functions *)

Section RestHapi.

Variable C : Collaborators.

(** [extend(true, target, source)] on two configuration objects given by
    reference.  Merging an object into itself changes nothing: every
    property is overwritten with its own value. *)
Definition extendConfig (target source : loc) : M unit :=
  if bool_decide (target = source) then ret tt
  else
    t <- readData target ;;
    s <- readData source ;;
    store target (OData (extend t [VObj Plain s])).

(** [exported.config.mongo.defaultConnection]. *)
Definition defaultConnection : M JsVal :=
  l <- gets exported_config ;;
  config <- readData l ;;
  liftRes (member (getProperty config "mongo") "defaultConnection").

Definition getLogger (label : JsVal) : M Logger :=
  config <- gets defaultConfig ;;
  exported <- gets exported_config ;;
  extendConfig config exported ;;
  cfg <- readData config ;;
  ret {| labels := [VStr (chalk_gray C label)]; logLevel := getProperty cfg "loglevel" |}.

(** The call [modelGenerator(mongoose, Log, config)], as the promise it
    returns: fulfilled with the schema map, or rejected. *)
Definition callModelGenerator (mongoose : Mongoose) (Log : Logger) (config : loc)
  : M (Res JsVal) :=
  cfg <- readData config ;;
  emit (EvModelGenerator mongoose Log (VObj Plain cfg)) ;;
  t <- gets trace ;;
  ret (modelGenerator C t mongoose (VObj Plain cfg)).

(** [await p]. *)
Definition await {A} (p : Res A) : M A := liftRes p.

(** [server.register(plugins)]. *)
Definition callServerRegister (server : Server) (plugins : list (string * option JsVal))
  : M unit :=
  call (EvServerRegister server plugins) (fun t => serverRegister C t server plugins).

(** [connection && connection.connection]: the stored connection, when
    there is one and its handle is set. *)
Definition liveIn (h : gmap loc Obj) (connection : option loc) : option loc :=
  match connection with
  | Some l =>
      match h !! l with
      | Some (OConnection _ _ (Some _)) => Some l
      | _ => None
      end
  | None => None
  end.

Definition live (connection : option loc) : M (option loc) :=
  gets (fun w => liveIn (heap w) connection).

Definition getConnection (name : JsVal) (request : loc) : M loc :=
  let name := match name with VUndef => VStr "default" | _ => name end in
  conns <- readConnections request ;;
  dflt <- defaultConnection ;;
  let connection := conns !! toStr dflt in
  let connection :=
    if negb (strictEq name dflt) then conns !! toStr name else connection in
  found <- live connection ;;
  match found with
  | Some l => ret l
  | None =>
      if strictEq name dflt then throw (Error "No database connections found.")
      else throw (Error ("Connection '" +:+ toStr name +:+ "' does not exists."))
  end.

(** [connection.models] and [connection.connection] of a stored connection. *)
Definition readConnection (l : loc) : M (JsVal * gmap string loc * option loc) :=
  fun w => match heap w !! l with
           | Some (OConnection n ms h) => (Ok (n, ms, h), w)
           | _ => (Throw (TypeError "Cannot read property 'models' of undefined"), w)
           end.

(** [handle.model(name, schema, collection)]: the driver binds a new model
    to the handle, or fails. *)
Definition callModel (handle : loc) (name : string) (schema : JsVal) (collection : string)
  : M loc :=
  emit (EvModel handle name schema collection) ;;
  t <- gets trace ;;
  match connectionModel C t handle name schema collection with
  | None => alloc (OModel name schema collection handle None)
  | Some e => throw e
  end.

(** The names of the members of [Object.prototype]. *)
Definition objectPrototype : list string :=
  ["constructor"; "__defineGetter__"; "__defineSetter__"; "hasOwnProperty";
   "__lookupGetter__"; "__lookupSetter__"; "isPrototypeOf"; "propertyIsEnumerable";
   "toString"; "valueOf"; "__proto__"; "toLocaleString"].

(** [Object.assign] has written [with] to [Object.prototype] itself. *)
Definition extendsPrototype (e : Event) : bool :=
  match e with
  | EvAssignWith member _ => String.eqb member "__proto__"
  | _ => false
  end.

(** Whether a plain object inherits a property of that name, after the
    calls [t]: the name of a member of [Object.prototype], or [with] once
    that has been assigned to the prototype. *)
Definition inherits (t : list Event) (name : string) : bool :=
  existsb (String.eqb name) objectPrototype
  || (String.eqb name "with" && existsb extendsPrototype t).

Definition spawnModel (name : string) (connectionName : JsVal) (request : loc)
  : M ModelRef :=
  connection <- getConnection connectionName request ;;
  c <- readConnection connection ;;
  let '(cname, models, handle) := c in
  match models !! name with
  | Some m => ret (Bound m)
  | None =>
      t <- gets trace ;;
      if inherits t name
      then (* connection.models[name] is the inherited member, and truthy *)
        ret (Inherited name)
      else
        match handle with
        | None => throw (TypeError "Cannot read property 'model' of undefined")
        | Some h =>
            schemas <- gets globalSchemas ;;
            entry <- liftRes (member schemas name) ;;
            schema <- liftRes (member entry "Schema") ;;
            m <- callModel h name schema name ;;
            store connection (OConnection cname (<[name := m]> models) handle) ;;
            ret (Bound m)
        end
  end.

(** [Object.assign(model, { with: conn => getModel(name, conn, request) })]:
    the property is written to the model, or to the inherited member that
    [spawnModel] returned. *)
Definition assignWith (model : ModelRef) (f : WithClosure) : M unit :=
  match model with
  | Bound m =>
      fun w => match heap w !! m with
               | Some (OModel n s c db _) =>
                   (Ok tt, set_heap (<[m := OModel n s c db (Some f)]> (heap w)) w)
               | _ => (Throw (TypeError "Cannot convert undefined or null to object"), w)
               end
  | Inherited member => emit (EvAssignWith member f)
  end.

Definition getModel (name : string) (connectionName : JsVal) (request : loc)
  : M ModelRef :=
  dflt <- match connectionName with
          | VUndef => d <- defaultConnection ;; ret (Some d)
          | _ => ret None
          end ;;
  let connectionName := match dflt with Some d => d | None => connectionName end in
  model <- spawnModel name connectionName request ;;
  current <- defaultConnection ;;
  (* an omitted argument is the configured value itself *)
  (if match dflt with Some _ => true | None => strictEq connectionName current end
   then assignWith model (mkWith name request)
   else ret tt) ;;
  ret model.

(** Calling the function stored as [model.with]. *)
Definition callWith (f : WithClosure) (conn : JsVal) : M ModelRef :=
  getModel (with_name f) conn (with_request f).

(** [_.omit(config, ['pass'])]. *)
Definition omitPass (config : JsVal) : JsVal :=
  VObj Plain (omitProperty (enumerable config) "pass").

(** [mongoose.createConnection(uri, options)]: a new handle, or a failure. *)
Definition callCreateConnection (mongoose : Mongoose) (uri options : JsVal) : M loc :=
  emit (EvCreateConnection mongoose uri options) ;;
  t <- gets trace ;;
  match createConnection C t mongoose uri options with
  | None => alloc (OHandle mongoose uri options)
  | Some e => throw e
  end.

Definition mongooseInit (mongoose : Mongoose) (logger : Logger) (config : JsVal)
                        (request : loc) : M loc :=
  let Log := bind logger (VStr "mongoose-init") in
  (* mongoose.Promise = Promise *)
  emit (EvActionStart Log "Connecting to Database" (Some (omitPass config))) ;;
  configOptions <- liftRes (member config "options") ;;
  let options :=
    VObj Plain (assign (obj_of_list [("useNewUrlParser", VBool true);
                                     ("useUnifiedTopology", VBool true)])
                       configOptions) in
  conns <- readConnections request ;;
  name <- liftRes (member config "name") ;;
  existing <- live (conns !! toStr name) ;;
  match existing with
  | Some l =>
      emit (EvLog LWarn Log
              ("Connection " +:+ chalk_yellow C name +:+ " already exists. Skipping...")) ;;
      ret l
  | None =>
      uri <- liftRes (member config "URI") ;;
      connection <- callCreateConnection mongoose uri options ;;
      entry <- alloc (OConnection name ∅ (Some connection)) ;;
      writeConnection request (toStr name) entry ;;
      modify (set_globals_mongoose mongoose) ;;
      emit (EvLog LLog Log "mongoose connected") ;;
      ret connection
  end.

(** [extend(true, dbConfig, { name: 'default' }, defaultDbConfig)]: what
    [dbConfig] holds afterwards. *)
Definition resolveDbConfig (dbConfig : JsObj) (defaultDbConfig : JsVal) : JsObj :=
  extend dbConfig [literal [("name", VStr "default")]; defaultDbConfig].

(** The closure [dbConnect] made by [register(server, options)]; [Log] is
    the logger of that registration. *)
Definition dbConnect (options : Options) (Log : Logger)
                     (defaultDbConfig : JsVal) (request : loc) : M loc :=
  let defaultDbConfig :=
    match defaultDbConfig with VUndef => literal [] | _ => defaultDbConfig end in
  match opt_config options with
  | None => throw (TypeError "Cannot read property 'mongo' of undefined")
  | Some c =>
      config <- readData c ;;
      match getProperty config "mongo" with
      | VObj kind dbConfig =>
          let merged := resolveDbConfig dbConfig defaultDbConfig in
          store c (OData (setProperty config "mongo" (VObj kind merged))) ;;
          mongooseInit (opt_mongoose options) Log (VObj kind merged) request
      | dbConfig =>
          (* extend merges into a throw-away object *)
          mongooseInit (opt_mongoose options) Log dbConfig request
      end
  end.

(** The [onRequest] hook installed by [register(server, options)]. *)
Definition onRequest (options : Options) (Log : Logger) : M loc :=
  alloc (ORequest ∅ options Log).

(** [request.connect(config)] and [request.model(name, connectionName)]. *)
Definition request_connect (request : loc) (config : JsVal) : M loc :=
  fun w => match heap w !! request with
           | Some (ORequest _ options Log) => dbConnect options Log config request w
           | _ => (Throw (TypeError "request.connect is not a function"), w)
           end.

Definition request_model (request : loc) (name : string) (connectionName : JsVal)
  : M ModelRef :=
  getModel name connectionName request.

(** [path.join(__dirname, '/policies')]: the policies shipped with the
    module. *)
Definition builtinPolicies : string := path_join C (dirname C) "/policies".

(** The policy directory computed by [registerMrHorse] from the
    configuration.  The replacement text of [replace] is taken literally. *)
Definition policyPath (config : JsObj) : JsVal :=
  if truthy (getProperty config "enablePolicies") then
    if strictEq (getProperty config "absolutePolicyPath") (VBool true) then
      getProperty config "policyPath"
    else
      VStr (replace (dirname C) (path_join C "node_modules" "rest-hapi")
                    (toStr (getProperty config "policyPath")))
  else VStr builtinPolicies.

Definition registerMrHorse (server : Server) (logger : Logger) (config : loc) : M unit :=
  let Log := bind logger (VStr "register-MrHorse") in
  cfg <- readData config ;;
  callServerRegister server
    [("mrhorse", Some (literal [("policyDirectory", policyPath cfg)]))] ;;
  (if truthy (getProperty cfg "enablePolicies") then
     let options := literal [("policyDirectory", VStr builtinPolicies)] in
     call (EvLoadPolicies server options) (fun t => loadPolicies C t server options)
   else ret tt) ;;
  emit (EvLog LInfo Log "MrHorse plugin registered").

Definition registerHapiSwagger (server : Server) (logger : Logger) (config : loc)
  : M unit :=
  let Log := bind logger (VStr "register-hapi-swagger") in
  cfg <- readData config ;;
  let swaggerOptions :=
    obj_of_list
      [("documentationPath", VStr "/");
       ("host", getProperty cfg "swaggerHost");
       ("expanded", getProperty cfg "docExpansion");
       ("swaggerUI", getProperty cfg "enableSwaggerUI");
       ("documentationPage", getProperty cfg "enableSwaggerUI");
       ("schemes",
        VObj Array (obj_of_list
          [("0", VStr (if truthy (getProperty cfg "enableSwaggerHttps")
                       then "https" else "http"))]))] in
  let swaggerOptions :=
    if truthy (getProperty cfg "swaggerOptions")
    then assign swaggerOptions (getProperty cfg "swaggerOptions")
    else swaggerOptions in
  swaggerOptions <-
    (if negb (truthy (getProperty swaggerOptions "info")) then
       ret (setProperty swaggerOptions "info"
              (literal [("title", getProperty cfg "appTitle");
                        ("version", getProperty cfg "version")]))
     else
       match getProperty swaggerOptions "info" with
       | VObj kind info =>
           (* info is the object inside config.swaggerOptions: the two
              assignments change the configuration as well *)
           let info' :=
             VObj kind (setProperty (setProperty info "title" (getProperty cfg "appTitle"))
                                    "version" (getProperty cfg "version")) in
           match getProperty cfg "swaggerOptions" with
           | VObj k so =>
               store config (OData (setProperty cfg "swaggerOptions"
                                      (VObj k (setProperty so "info" info'))))
           | _ => ret tt
           end ;;
           ret (setProperty swaggerOptions "info" info')
       | _ => throw (TypeError "Cannot create property 'title' on a primitive value")
       end) ;;
  let swaggerOptions := setProperty swaggerOptions "reuseDefinitions" (VBool false) in
  callServerRegister server
    [("inert", None); ("vision", None);
     ("hapi-swagger", Some (VObj Plain swaggerOptions))] ;;
  emit (EvLog LInfo Log "hapi-swagger plugin registered").

(** The loop body of [generateRoutes], for the keys still to visit. *)
Fixpoint generateRoutesFor (server : Server) (ks : list string) (models : JsVal)
  : M unit :=
  match ks with
  | [] => ret tt
  | modelKey :: rest =>
      let model := getProperty (enumerable models) modelKey in
      call (EvGenerateRoutes server model models)
           (fun t => restGenerateRoutes C t server model) ;;
      generateRoutesFor server rest models
  end.

Definition generateRoutes (server : Server) (mongoose : Mongoose) (models : JsVal)
                          (logger : Logger) (config : loc) : M unit :=
  let Log := bind logger VUndef in
  call (EvRestHelperFactory logger mongoose server)
       (fun t => restHelperFactory C t mongoose server) ;;
  generateRoutesFor server (keys (enumerable models)) models ;;
  cfg <- readData config ;;
  call (EvApiGenerator server mongoose Log (VObj Plain cfg))
       (fun t => apiGenerator C t server mongoose (VObj Plain cfg)).

Definition isArray (v : JsVal) : bool :=
  match v with VObj Array _ => true | _ => false end.

Definition policyDirectoryMissing : string :=
  "The policies directory provided does not exist. " +:+
  "Try setting the 'policyPath' property of the config file.".

(** Schema resolution in [register]: reuse what [generateModels] stored, or
    build, swallowing the one failure whose message contains
    ['no such file'] (the variable [schema] then stays [undefined]). *)
Definition resolveSchemas (options : Options) (Log : Logger) (config : loc) : M JsVal :=
  generated <- gets modelsGenerated ;;
  if generated then gets globalSchemas
  else
    tryCatch
      (p <- callModelGenerator (opt_mongoose options) Log config ;; await p)
      (fun err =>
         if includes (message err) "no such file" then
           emit (EvLog LError Log policyDirectoryMissing) ;;
           ret VUndef
         else throw err).

(** What [register] does once [schema] is resolved. *)
Definition registerRest (server : Server) (options : Options) (Log : Logger)
                        (config : loc) (schema : JsVal) : M unit :=
  modify (set_exported_schema schema) ;;
  modify (set_globalSchemas schema) ;;
  cfg <- readData config ;;
  (if negb (truthy (getProperty cfg "disableSwagger"))
   then registerHapiSwagger server Log config else ret tt) ;;
  registerMrHorse server Log config ;;
  generateRoutes server (opt_mongoose options) schema Log config.

(** What [register] does before it resolves the schemas; it yields the
    logger [Log] and the configuration object [config]. *)
Definition registerSetup (server : Server) (options : Options) : M (Logger * loc) :=
  modify (set_exported_server server) ;;
  t <- gets trace ;;
  match realmValidator C t server with
  | None =>
      call (EvValidator server Joi) (fun t => serverValidator C t server Joi) ;;
      modify (set_exported_joi Joi)
  | Some validator => modify (set_exported_joi validator)
  end ;;
  config <- gets defaultConfig ;;
  match opt_config options with
  | Some c => extendConfig config c
  | None => ret tt
  end ;;
  modify (set_exported_config config) ;;
  Log <- getLogger (VStr "api") ;;
  modify (set_exported_logger Log) ;;
  call (EvExt server "onRequest" options) (fun t => serverExt C t server "onRequest") ;;
  (if isArray (opt_pre options) then modify (set_pre (opt_pre options)) else ret tt) ;;
  call (EvMethod server "dbConnect") (fun t => serverMethod C t server "dbConnect") ;;
  emit (EvActionStart Log "Initializing Server" None) ;;
  ret (Log, config).

Definition register (server : Server) (options : Options) : M unit :=
  s <- registerSetup server options ;;
  let '(Log, config) := s in
  schema <- resolveSchemas options Log config ;;
  registerRest server options Log config schema.

(** [generateModels(mongoose)] up to its [return]: the flag is set, the
    configuration merged, and the build started; the result is the promise
    of the build. *)
Definition generateModelsStart (mongoose : Mongoose) : M (Res JsVal) :=
  modify (set_modelsGenerated true) ;;
  config <- gets defaultConfig ;;
  exported <- gets exported_config ;;
  extendConfig config exported ;;
  Log <- getLogger (VStr "models") ;;
  modify (set_exported_logger Log) ;;
  callModelGenerator mongoose Log config.

(** The [then] callback of [generateModels]. *)
Definition generateModelsThen (schema : JsVal) : M JsVal :=
  modify (set_globalSchemas schema) ;;
  modify (set_exported_schema schema) ;;
  ret schema.

(** [await generateModels(mongoose)]. *)
Definition generateModels (mongoose : Mongoose) : M JsVal :=
  p <- generateModelsStart mongoose ;;
  match p with
  | Ok schema => generateModelsThen schema
  | Throw e => throw e
  end.

End RestHapi.

(** ** The module when it is loaded, and a caller's objects *)

(** The state right after [require('rest-hapi')], for a given content of
    the default configuration. *)
Definition initial (config : JsObj) : World :=
  {| heap := {[ 1%positive := OData config ]};
     modelsGenerated := false;
     globalSchemas := literal [];
     pre := VObj Array ONil;
     defaultConfig := 1%positive;
     exported_config := 1%positive;
     exported_schema := literal [];
     exported_logger := None;
     exported_joi := None;
     exported_server := None;
     globals_mongoose := None;
     trace := [] |}.

(** A configuration object made by the caller. *)
Definition newObject (o : JsObj) : M loc := alloc (OData o).

(** Concrete collaborators and configurations, to run the module on. *)
Module Sample.

Definition join (a b : string) : string :=
  if String.prefix "/" b then a +:+ b else a +:+ "/" +:+ b.

Definition schemas : JsVal :=
  literal [("A", literal [("Schema", literal [("fields", VStr "a")])]);
           ("B", literal [("Schema", literal [("fields", VStr "b")])])].

Definition same (a b : Server) : bool :=
  match a, b with Host i, Host j => Nat.eqb i j end.

(** The validator a server was given, if any. *)
Fixpoint validatorOf (t : list Event) (server : Server) : option Validator :=
  match t with
  | [] => None
  | EvValidator s v :: rest =>
      if same s server then Some v else validatorOf rest server
  | _ :: rest => validatorOf rest server
  end.

Definition is_method (server : Server) (name : string) (e : Event) : bool :=
  match e with
  | EvMethod s n => same s server && String.eqb n name
  | _ => false
  end.

(** A host that behaves like hapi where a registration can tell: a server
    keeps the validator it is given, and refuses a second method of the
    same name. *)
Definition hostMethod (t : list Event) (server : Server) (name : string)
  : option JsError :=
  if Nat.ltb 1 (length (List.filter (is_method server name) t))
  then Some (Error ("Server method function name already exists: " +:+ name))
  else None.

(** That host, a driver and plugins that succeed; the build result is
    given. *)
Definition collaborators (build : Res JsVal) : Collaborators :=
  {| realmValidator := validatorOf;
     serverValidator := fun _ _ _ => None;
     serverExt := fun _ _ _ => None;
     serverMethod := hostMethod;
     serverRegister := fun _ _ _ => None;
     loadPolicies := fun _ _ _ => None;
     modelGenerator := fun _ _ _ => build;
     restHelperFactory := fun _ _ _ => None;
     restGenerateRoutes := fun _ _ _ => None;
     apiGenerator := fun _ _ _ _ => None;
     createConnection := fun _ _ _ _ => None;
     connectionModel := fun _ _ _ _ _ => None;
     dirname := "/srv/app/node_modules/rest-hapi";
     path_join := join;
     chalk_gray := toStr;
     chalk_yellow := toStr |}.

Definition working : Collaborators := collaborators (Ok schemas).

Definition config (defaultName : string) : JsObj :=
  obj_of_list
    [("appTitle", VStr "rest-hapi API");
     ("version", VStr "1.0.0");
     ("loglevel", VStr "DEBUG");
     ("disableSwagger", VBool false);
     ("enablePolicies", VBool false);
     ("absolutePolicyPath", VBool false);
     ("policyPath", VStr "policies");
     ("mongo", literal [("URI", VStr "mongodb://localhost/rest_hapi");
                        ("defaultConnection", VStr defaultName)])].

(** A configuration with an absolute policy directory. *)
Definition absolutePolicies : JsObj :=
  obj_of_list
    [("enablePolicies", VBool true);
     ("absolutePolicyPath", VBool true);
     ("policyPath", VStr "/x/y");
     ("mongo", literal [("defaultConnection", VStr "default")])].

Definition userConfig : JsObj :=
  obj_of_list [("mongo", literal [("URI", VStr "mem://test")])].

Definition mongoose : Mongoose := Driver 0.

(** Two servers of one process. *)
Definition server : Server := Host 0.

Definition other : Server := Host 1.

Definition options (c : loc) : Options :=
  {| opt_config := Some c; opt_mongoose := mongoose; opt_pre := VUndef |}.

(** Options without a configuration of the caller's. *)
Definition bare : Options :=
  {| opt_config := None; opt_mongoose := mongoose; opt_pre := VUndef |}.

Definition api : Logger := {| labels := [VStr "api"]; logLevel := VStr "DEBUG" |}.

(** Collaborators whose schema build fails with the given message. *)
Definition failing (msg : string) : Collaborators := collaborators (Throw (Error msg)).

Definition enoent : string :=
  "ENOENT: no such file or directory, scandir '/srv/app/policies'".

Definition refused : string := "connect ECONNREFUSED 127.0.0.1:27017".

(** A server with the module registered and one request under way: the
    caller's configuration object and the request. *)
Definition serve : M (loc * loc) :=
  c <- newObject userConfig ;;
  register working server (options c) ;;
  r <- onRequest (options c) api ;;
  ret (c, r).

(** The same, after the request has opened the connection [name]. *)
Definition connected (name : string) : M (loc * loc) :=
  cr <- serve ;;
  request_connect working (snd cr) (literal [("name", VStr name)]) ;;
  ret cr.

(** Worlds reached that way; the request is at location 3, the stored
    connection at location 5. *)
Definition idle (defaultName : string) : World :=
  snd (serve (initial (config defaultName))).

Definition busy (defaultName name : string) : World :=
  snd (connected name (initial (config defaultName))).

(** Two overrides: the first names a connection and its URI, the second
    only names another connection. *)
Definition first : JsVal := literal [("name", VStr "a"); ("URI", VStr "mem://other")].

Definition second : JsVal := literal [("name", VStr "b")].

(** The request with two connections, ['default'] (stored at 5, handle 4)
    and ['replica'] (stored at 7, handle 6). *)
Definition two : World :=
  snd (request_connect working 3%positive (literal [("name", VStr "replica")])
         (busy "default" "default")).

(** The request of [idle] after it has connected with the override
    [first], which names the connection ['a']. *)
Definition named : World :=
  snd (dbConnect working (options 2%positive) api first
         3%positive (idle "default")).

(** The sample collaborators with another driver: what it answers to
    [createConnection], given the calls so far, and to [model], given the
    name. *)
Definition driven (connect : list Event -> option JsError)
    (model : string -> option JsError) : Collaborators :=
  {| realmValidator := realmValidator working;
     serverValidator := serverValidator working;
     serverExt := serverExt working;
     serverMethod := serverMethod working;
     serverRegister := serverRegister working;
     loadPolicies := loadPolicies working;
     modelGenerator := modelGenerator working;
     restHelperFactory := restHelperFactory working;
     restGenerateRoutes := restGenerateRoutes working;
     apiGenerator := apiGenerator working;
     createConnection := fun t _ _ _ => connect t;
     connectionModel := fun _ _ name _ _ => model name;
     dirname := dirname working;
     path_join := path_join working;
     chalk_gray := chalk_gray working;
     chalk_yellow := chalk_yellow working |}.

Definition is_connect (e : Event) : bool :=
  match e with EvCreateConnection _ _ _ => true | _ => false end.

(** A driver that refuses the first connection and accepts from the second
    attempt on. *)
Definition flaky : Collaborators :=
  driven (fun t => if Nat.ltb (length (List.filter is_connect t)) 2
                   then Some (Error refused) else None)
         (fun _ => None).

(** The connection configuration the sample request resolves without an
    override. *)
Definition dbConfig : JsVal :=
  literal [("URI", VStr "mem://test"); ("name", VStr "default")].

(** A driver that cannot bind the model ['B']. *)
Definition brittle : Collaborators :=
  driven (fun _ => None)
         (fun name => if String.eqb name "B"
                      then Some (Error "Cannot overwrite `B` model once compiled.")
                      else None).

(** The module registered on the sample server, before any request. *)
Definition ready : World :=
  snd ((c <- newObject userConfig ;;
        register working server (options c))
         (initial (config "default"))).

(** A second request beside the connected one; it is at location 6. *)
Definition pair : World :=
  snd (onRequest (options 2%positive) api (busy "default" "default")).

(** The module loaded and the caller's configuration object made, before
    [register]. *)
Definition loaded : World :=
  snd (newObject userConfig (initial (config "default"))).

(** A configuration that switches the documentation page off. *)
Definition headless : JsObj :=
  obj_of_list
    [("appTitle", VStr "rest-hapi API");
     ("version", VStr "1.0.0");
     ("loglevel", VStr "DEBUG");
     ("disableSwagger", VBool true);
     ("enablePolicies", VBool true);
     ("absolutePolicyPath", VBool true);
     ("policyPath", VStr "/x/y");
     ("mongo", literal [("defaultConnection", VStr "default")])].

(** A configuration whose documentation options carry an [info] object
    and move the page. *)
Definition documented : JsObj :=
  obj_of_list
    [("appTitle", VStr "Shop");
     ("version", VStr "2.1.0");
     ("swaggerOptions",
      literal [("documentationPath", VStr "/docs");
               ("info", literal [("description", VStr "The shop API")])])].

(** A configuration with policies in a directory of the application. *)
Definition guarded : JsObj :=
  obj_of_list
    [("enablePolicies", VBool true);
     ("absolutePolicyPath", VBool false);
     ("policyPath", VStr "policies")].

(** The module's state when the caller has put an object of its own in
    [exported.config]; that object is at location 2. *)
Definition reconfigured : World :=
  set_exported_config 2%positive
    (snd (newObject (obj_of_list [("loglevel", VStr "ERROR")])
            (initial (config "default")))).

(** A connection configuration that sets one driver option of its own
    and overrides one of the defaults. *)
Definition tuned : JsVal :=
  literal [("URI", VStr "mem://test"); ("name", VStr "default");
           ("options", literal [("poolSize", VNum 5);
                                ("useUnifiedTopology", VBool false)])].

(** A registry with a schema named like a member of [Object.prototype],
    for the request with two connections. *)
Definition inheritedName : JsVal :=
  literal [("constructor", literal [("Schema", literal [("fields", VStr "c")])])].

Definition clash : World := set_globalSchemas inheritedName two.

End Sample.

(** * Vocabulary of the properties *)

Open Scope list_scope.

(** A computation that only reads. *)
Definition readonly {A} (m : M A) : Prop := forall w, snd (m w) = w.

(** A computation that keeps a property of the state, however it ends. *)
Definition preserves {A} (P : World -> Prop) (m : M A) : Prop :=
  forall w, P w -> P (snd (m w)).

(** The location holds a configuration object. *)
Definition is_data (l : loc) (w : World) : Prop :=
  exists o, heap w !! l = Some (OData o).

(** Properties of the state that the registration stages cannot disturb:
    they survive a write to a configuration object, a call that is not a
    schema build, and any change to the fields outside the ones named. *)
Record stable (P : World -> Prop) : Prop := {
  stable_store : forall w l o, P w -> P (set_heap (<[l := OData o]> (heap w)) w);
  stable_emit : forall w e,
      is_build e = false -> P w -> P (set_trace (trace w ++ [e]) w);
  stable_fields : forall w w',
      heap w' = heap w -> trace w' = trace w ->
      modelsGenerated w' = modelsGenerated w ->
      globalSchemas w' = globalSchemas w ->
      defaultConfig w' = defaultConfig w ->
      P w -> P w'
}.

(** From a state satisfying [P] the computation returns, in a state
    satisfying [Q]. *)
Definition total {A} (P : World -> Prop) (m : M A) (Q : A -> World -> Prop) : Prop :=
  forall w, P w -> exists a w', m w = (Ok a, w') /\ Q a w'.

(** A computation that returns from the given state. *)
Definition returns {A} (m : M A) (w : World) : Prop :=
  exists a w', m w = (Ok a, w').

(** A host that takes the validator, the [onRequest] hook and the
    [dbConnect] method of a registration on [server], whatever was called
    before. *)
Definition welcomes (C : Collaborators) (server : Server) : Prop :=
  forall t, serverValidator C t server Joi = None
            /\ serverExt C t server "onRequest" = None
            /\ serverMethod C t server "dbConnect" = None.

(** The configuration objects [register(server, options)] needs. *)
Definition configured (options : Options) (w : World) : Prop :=
  is_data (defaultConfig w) w /\
  forall c, opt_config options = Some c -> is_data c w.

(** The state right after the build collaborator has been called. *)
Definition called (mongoose : Mongoose) (Log : Logger) (d : JsObj) (w : World) : World :=
  set_trace (trace w ++ [EvModelGenerator mongoose Log (VObj Plain d)]) w.

(** Values that [extend] copies as they are. *)
Definition copied (v : JsVal) : Prop :=
  match v with
  | VUndef | VObj _ _ => False
  | _ => True
  end.

(** The location holds the object. *)
Definition holds (l : loc) (o : Obj) (w : World) : Prop := heap w !! l = Some o.

(** Whether an object is a request. *)
Definition is_request (o : Obj) : bool :=
  match o with ORequest _ _ _ => true | _ => false end.


(** The options [mongooseInit] hands to the driver. *)
Definition driverOptions (configOptions : JsVal) : JsVal :=
  VObj Plain (assign (obj_of_list [("useNewUrlParser", VBool true);
                                   ("useUnifiedTopology", VBool true)])
                     configOptions).

(** The two messages of [mongooseInit]: the action it announces, and the
    warning about a connection that is already there. *)
Definition connecting (logger : Logger) (config : JsVal) : Event :=
  EvActionStart (bind logger (VStr "mongoose-init")) "Connecting to Database"
                (Some (omitPass config)).

Definition alreadyExists (C : Collaborators) (logger : Logger) (name : JsVal) : Event :=
  EvLog LWarn (bind logger (VStr "mongoose-init"))
        ("Connection " +:+ chalk_yellow C name +:+ " already exists. Skipping...").

(** The key under which [getConnection(name, request)] looks, given the
    configured default connection name. *)
Definition connectionKey (dflt name : JsVal) : string :=
  let name := match name with VUndef => VStr "default" | _ => name end in
  if strictEq name dflt then toStr dflt else toStr name.

(** The same for [getModel(name, connectionName, request)], whose omitted
    connection name is the configured default. *)
Definition modelKey (dflt connectionName : JsVal) : string :=
  connectionKey dflt match connectionName with VUndef => dflt | _ => connectionName end.

(** Whether [getModel] attaches [with]. *)
Definition decorates (dflt connectionName : JsVal) : bool :=
  match connectionName with VUndef => true | _ => strictEq connectionName dflt end.

(** A request whose connection for the key is live, under a readable
    configuration. *)
Record Resolves (w : World) (request : loc) (dflt : JsVal) (key : string)
    (c : loc) (cname : JsVal) (models : gmap string loc) (h : loc) : Prop := {
  res_config : exists cfg, heap w !! exported_config w = Some (OData cfg) /\
                           member (getProperty cfg "mongo") "defaultConnection" = Ok dflt;
  res_request : exists conns env lg, heap w !! request = Some (ORequest conns env lg) /\
                                     conns !! key = Some c;
  res_connection : heap w !! c = Some (OConnection cname models (Some h))
}.

(** The call [handle.model(name, schema, name)] of [spawnModel]. *)
Definition modelCall (h : loc) (name : string) (schema : JsVal) : Event :=
  EvModel h name schema name.

(** The registry has nothing for the name. *)
Definition unregistered (name : string) (w : World) : Prop :=
  forall entry, member (globalSchemas w) name = Ok entry -> entry = VUndef \/ entry = VNull.

(** The [with] last assigned to the member of [Object.prototype] of that
    name, in the calls [t]. *)
Definition assigned (t : list Event) (member : string) : option WithClosure :=
  fold_left (fun found e =>
               match e with
               | EvAssignWith target f => if String.eqb target member then Some f else found
               | _ => found
               end) t None.

(** The object has been given the function as its [with] property. *)
Definition carries (w : World) (m : ModelRef) (f : WithClosure) : Prop :=
  match m with
  | Bound l => exists n s col db, heap w !! l = Some (OModel n s col db (Some f))
  | Inherited member => assigned (trace w) member = Some f
  end.

(** The cache entry for the name, if there is one, is a model. *)
Definition caches_model (w : World) (models : gmap string loc) (name : string) : Prop :=
  forall m, models !! name = Some m ->
            exists n s col db wi, heap w !! m = Some (OModel n s col db wi).

(** A relation between the state before and the state after that holds
    however the computation ends. *)
Definition keeps {A} (R : World -> World -> Prop) (m : M A) : Prop :=
  forall w, R w (snd (m w)).

(** The calls made in between all satisfy [P]. *)
Definition calls (P : Event -> Prop) (w w' : World) : Prop :=
  exists es, trace w' = trace w ++ es /\ Forall P es.

(** Whether a call is [server.register] with the plugin among its
    arguments. *)
Definition registers (plugin : string) (e : Event) : bool :=
  match e with
  | EvServerRegister _ plugins => existsb (String.eqb plugin) (map fst plugins)
  | _ => false
  end.

(** A call that registers none of the plugins of the documentation page. *)
Definition undocumented (e : Event) : Prop :=
  registers "hapi-swagger" e = false /\ registers "inert" e = false
  /\ registers "vision" e = false.


(** What a registration's first steps publish, and the flag, are the
    same in both states. *)
Definition same_surface (w w' : World) : Prop :=
  exported_server w' = exported_server w /\ exported_joi w' = exported_joi w
  /\ exported_config w' = exported_config w /\ exported_logger w' = exported_logger w
  /\ pre w' = pre w /\ modelsGenerated w' = modelsGenerated w
  /\ defaultConfig w' = defaultConfig w.

(** The module's own state is the same in both states, except perhaps
    [globals.mongoose], which is then the driver. *)
Definition module_kept (mongoose : Mongoose) (w w' : World) : Prop :=
  same_surface w w'
  /\ globalSchemas w' = globalSchemas w
  /\ exported_schema w' = exported_schema w
  /\ (globals_mongoose w' = globals_mongoose w \/ globals_mongoose w' = Some mongoose).

(** The computation only makes calls: the ones it has made are the first
    of [expected], in order, and all of them when it returns. *)
Definition performs {A} (m : M A) (w : World) (expected : list Event) : Prop :=
  exists made later,
    expected = made ++ later
    /\ snd (m w) = set_trace (trace w ++ made) w
    /\ (forall a, fst (m w) = Ok a -> later = []).

(** The calls of [generateRoutes]: the helper is made, routes are generated
    for each key of [models] in turn, then the custom endpoints. *)
Definition routeCalls (server : Server) (mongoose : Mongoose) (models : JsVal)
    (logger : Logger) (cfg : JsObj) : list Event :=
  EvRestHelperFactory logger mongoose server
  :: map (fun modelKey =>
            EvGenerateRoutes server (getProperty (enumerable models) modelKey) models)
         (keys (enumerable models))
  ++ [EvApiGenerator server mongoose (bind logger VUndef) (VObj Plain cfg)].

(** The calls of [registerMrHorse]. *)
Definition policyCalls (C : Collaborators) (server : Server) (logger : Logger)
    (cfg : JsObj) : list Event :=
  EvServerRegister server
    [("mrhorse", Some (literal [("policyDirectory", policyPath C cfg)]))]
  :: (if truthy (getProperty cfg "enablePolicies")
      then [EvLoadPolicies server (literal [("policyDirectory", VStr (builtinPolicies C))])]
      else [])
  ++ [EvLog LInfo (bind logger (VStr "register-MrHorse")) "MrHorse plugin registered"].

(** * Properties *)

(** ** Running computations *)

Lemma bindM_ok {A B} (m : M A) (f : A -> M B) w a w' :
  m w = (Ok a, w') -> bindM m f w = f a w'.
Proof. intros H. unfold bindM. now rewrite H. Qed.

Lemma bindM_throw {A B} (m : M A) (f : A -> M B) w e w' :
  m w = (Throw e, w') -> bindM m f w = (Throw e, w').
Proof. intros H. unfold bindM. now rewrite H. Qed.

Lemma bindM_inv {A B} (m : M A) (f : A -> M B) w b w2 :
  bindM m f w = (Ok b, w2) ->
  exists a w1, m w = (Ok a, w1) /\ f a w1 = (Ok b, w2).
Proof.
  unfold bindM. destruct (m w) as [[a|e] w1]; intros H; [eauto | discriminate].
Qed.

Lemma readonly_preserves {A} P (m : M A) : readonly m -> preserves P m.
Proof. intros H w Hw. now rewrite H. Qed.

Lemma preserves_ret {A} P (a : A) : preserves P (ret a).
Proof. now intros w. Qed.

Lemma preserves_throw {A} P e : preserves P (@throw A e).
Proof. now intros w. Qed.

Lemma preserves_gets {A} P (f : World -> A) : preserves P (gets f).
Proof. now intros w. Qed.

Lemma preserves_liftRes {A} P (r : Res A) : preserves P (liftRes r).
Proof. now intros w. Qed.

Lemma preserves_bind {A B} P (m : M A) (f : A -> M B) :
  preserves P m -> (forall a, preserves P (f a)) -> preserves P (bindM m f).
Proof.
  intros Hm Hf w Hw. unfold bindM. specialize (Hm w Hw).
  destruct (m w) as [[a|e] w1]; simpl in *; [now apply Hf | assumption].
Qed.

Lemma preserves_tryCatch {A} P (m : M A) h :
  preserves P m -> (forall e, preserves P (h e)) -> preserves P (tryCatch m h).
Proof.
  intros Hm Hh w Hw. unfold tryCatch. specialize (Hm w Hw).
  destruct (m w) as [[a|e] w1]; simpl in *; [assumption | now apply Hh].
Qed.

Lemma preserves_modify P f :
  (forall w, P w -> P (f w)) -> preserves P (modify f).
Proof. intros H w Hw. now apply H. Qed.

Lemma readonly_readData l : readonly (readData l).
Proof. intros w. unfold readData. now destruct (heap w !! l) as [[]|]. Qed.

Lemma readonly_readConnections r : readonly (readConnections r).
Proof. intros w. unfold readConnections. now destruct (heap w !! r) as [[]|]. Qed.

Lemma readonly_readConnection l : readonly (readConnection l).
Proof. intros w. unfold readConnection. now destruct (heap w !! l) as [[]|]. Qed.

Lemma readonly_bind {A B} (m : M A) (f : A -> M B) :
  readonly m -> (forall a, readonly (f a)) -> readonly (bindM m f).
Proof.
  intros Hm Hf w. unfold bindM. specialize (Hm w).
  destruct (m w) as [[a|e] w1]; simpl in *; subst; [apply Hf | reflexivity].
Qed.

Lemma readonly_defaultConnection : readonly defaultConnection.
Proof.
  unfold defaultConnection.
  apply readonly_bind; [now intros w|]. intros l.
  apply readonly_bind; [apply readonly_readData|]. now intros cfg w.
Qed.

(** Reading the configured default connection name. *)
Lemma defaultConnection_eq w cfg :
  heap w !! exported_config w = Some (OData cfg) ->
  defaultConnection w = (member (getProperty cfg "mongo") "defaultConnection", w).
Proof.
  intros H. unfold defaultConnection, bindM, gets, readData, liftRes. simpl.
  now rewrite H.
Qed.

Lemma readData_eq w l o :
  heap w !! l = Some (OData o) -> readData l w = (Ok o, w).
Proof. intros H. unfold readData. now rewrite H. Qed.

Lemma readConnections_eq w r conns env lg :
  heap w !! r = Some (ORequest conns env lg) -> readConnections r w = (Ok conns, w).
Proof. intros H. unfold readConnections. now rewrite H. Qed.

(** ** The policy directory *)

(** C5.  The policy engine is registered with the directory [policyPath]
    computes from the configuration: with [enablePolicies] false it is the
    module's own policies directory; with [enablePolicies] and
    [absolutePolicyPath] true and [policyPath] set to ["/x/y"] it is
    ["/x/y"] itself. *)
Theorem policy_directory_resolution (C : Collaborators) (server : Server)
    (logger : Logger) (config : loc) (cfg : JsObj) (w : World) :
  heap w !! config = Some (OData cfg) ->
  (exists rest,
      trace (snd (registerMrHorse C server logger config w)) =
      trace w ++
        EvServerRegister server
          [("mrhorse", Some (literal [("policyDirectory", policyPath C cfg)]))] :: rest)
  /\ (getProperty cfg "enablePolicies" = VBool false ->
      policyPath C cfg = VStr (builtinPolicies C))
  /\ (getProperty cfg "enablePolicies" = VBool true ->
      getProperty cfg "absolutePolicyPath" = VBool true ->
      getProperty cfg "policyPath" = VStr "/x/y" ->
      policyPath C cfg = VStr "/x/y").
Proof.
  intros Hcfg. split; [|split].
  - unfold registerMrHorse.
    rewrite (bindM_ok _ _ _ _ _ (readData_eq _ _ _ Hcfg)).
    unfold callServerRegister, call, emit, modify, gets, bindM; simpl.
    destruct (serverRegister C _ _ _) as [e|]; simpl.
    + now exists [].
    + destruct (truthy (getProperty cfg "enablePolicies")); simpl.
      * destruct (loadPolicies C _ _ _) as [e|]; simpl.
        -- rewrite <- app_assoc. simpl. eauto.
        -- rewrite <- !app_assoc. simpl. eauto.
      * rewrite <- app_assoc. simpl. eauto.
  - intros He. unfold policyPath. now rewrite He.
  - intros He Ha Hp. unfold policyPath. now rewrite He, Ha, Hp.
Qed.

Lemma policy_directory_resolution_witness :
  policyPath Sample.working (Sample.config "default")
    = VStr "/srv/app/node_modules/rest-hapi/policies"
  /\ policyPath Sample.working Sample.absolutePolicies = VStr "/x/y".
Proof.
  split.
  - destruct (policy_directory_resolution Sample.working Sample.server Sample.api
                1%positive (Sample.config "default") (initial (Sample.config "default")) eq_refl)
      as (_ & H & _).
    exact (H eq_refl).
  - destruct (policy_directory_resolution Sample.working Sample.server Sample.api
                1%positive Sample.absolutePolicies (initial Sample.absolutePolicies) eq_refl)
      as (_ & _ & H).
    exact (H eq_refl eq_refl eq_refl).
Defined.

(** ** Looking up a connection *)

(** [getConnection] only reads; with a request and a readable default
    connection name it is this case distinction. *)
Lemma getConnection_eq (name : JsVal) (r : loc) (w : World) conns env lg cfg dflt :
  heap w !! r = Some (ORequest conns env lg) ->
  heap w !! exported_config w = Some (OData cfg) ->
  member (getProperty cfg "mongo") "defaultConnection" = Ok dflt ->
  let name' := match name with VUndef => VStr "default" | _ => name end in
  getConnection name r w =
  (if strictEq name' dflt then
     match liveIn (heap w) (conns !! toStr dflt) with
     | Some l => Ok l
     | None => Throw (Error "No database connections found.")
     end
   else
     match liveIn (heap w) (conns !! toStr name') with
     | Some l => Ok l
     | None => Throw (Error ("Connection '" +:+ toStr name' +:+ "' does not exists."))
     end, w).
Proof.
  intros Hr Hc Hd name'. unfold getConnection. fold name'.
  rewrite (bindM_ok _ _ _ _ _ (readConnections_eq _ _ _ _ _ Hr)).
  rewrite (bindM_ok _ _ w dflt w) by (now rewrite (defaultConnection_eq _ _ Hc), Hd).
  unfold bindM, live, gets, ret, throw. simpl.
  destruct (strictEq name' dflt); simpl.
  - now destruct (liveIn (heap w) (conns !! toStr dflt)).
  - now destruct (liveIn (heap w) (conns !! toStr name')).
Qed.

Lemma readonly_getConnection name r : readonly (getConnection name r).
Proof.
  unfold getConnection.
  apply readonly_bind; [apply readonly_readConnections|]. intros conns.
  apply readonly_bind; [apply readonly_defaultConnection|]. intros dflt.
  apply readonly_bind; [now intros w|]. intros [l|]; [now intros w|].
  now destruct (strictEq _ dflt); intros w.
Qed.

(** C4, as the code has it.  A name that is given, or omitted while the
    configured default connection is ['default'], is looked up as follows:
    when it equals the configured default, the default connection is
    returned, or [Error "No database connections found."] thrown when it is
    not live; otherwise the named connection is returned, or
    [Error "Connection '<name>' does not exists."] thrown.  The state is
    left as it was: nothing is retried, and no [TypeError] arises. *)
Theorem getConnection_lookup (name : JsVal) (r : loc) (w : World)
    conns env lg cfg dflt :
  heap w !! r = Some (ORequest conns env lg) ->
  heap w !! exported_config w = Some (OData cfg) ->
  member (getProperty cfg "mongo") "defaultConnection" = Ok dflt ->
  name <> VUndef \/ dflt = VStr "default" ->
  getConnection name r w =
  (if match name with VUndef => true | _ => strictEq name dflt end then
     match liveIn (heap w) (conns !! toStr dflt) with
     | Some l => Ok l
     | None => Throw (Error "No database connections found.")
     end
   else
     match liveIn (heap w) (conns !! toStr name) with
     | Some l => Ok l
     | None => Throw (Error ("Connection '" +:+ toStr name +:+ "' does not exists."))
     end, w).
Proof.
  intros Hr Hc Hd Hn.
  rewrite (getConnection_eq name r w _ _ _ _ _ Hr Hc Hd).
  destruct name; try reflexivity.
  destruct Hn as [Hn | ->]; [congruence | reflexivity].
Qed.


Lemma getConnection_lookup_witness :
  getConnection VUndef 3%positive (Sample.busy "default" "default")
    = (Ok 5%positive, Sample.busy "default" "default")
  /\ getConnection (VStr "replica") 3%positive (Sample.busy "default" "default")
     = (Throw (Error "Connection 'replica' does not exists."),
        Sample.busy "default" "default").
Proof.
  set (w := Sample.busy "default" "default").
  assert (Hr : heap w !! 3%positive
               = Some (ORequest {[ "default" := 5%positive ]}
                                (Sample.options 2%positive) Sample.api))
    by (vm_compute; reflexivity).
  assert (Hc : heap w !! exported_config w
               = Some (OData (extend (Sample.config "default")
                                     [VObj Plain Sample.userConfig])))
    by (vm_compute; reflexivity).
  assert (Hn : VStr "replica" <> VUndef) by discriminate.
  split.
  - rewrite (getConnection_lookup VUndef 3%positive w _ _ _ _ (VStr "default")
               Hr Hc eq_refl (or_intror eq_refl)).
    vm_compute. reflexivity.
  - rewrite (getConnection_lookup (VStr "replica") 3%positive w _ _ _ _ (VStr "default")
               Hr Hc eq_refl (or_introl Hn)).
    vm_compute. reflexivity.
Defined.

(** C4 as stated fails when the configured default connection is not
    called ['default']: an omitted name is looked up as ['default'], so the
    live default connection ['main'] is not found, and with no connection
    at all the error is the one of a named lookup. *)
Lemma getConnection_omitted_name_counterexample :
  fst (defaultConnection (Sample.busy "main" "main")) = Ok (VStr "main")
  /\ fst (getConnection (VStr "main") 3%positive (Sample.busy "main" "main"))
     = Ok 5%positive
  /\ fst (getConnection VUndef 3%positive (Sample.busy "main" "main"))
     = Throw (Error "Connection 'default' does not exists.")
  /\ fst (readConnections 3%positive (Sample.idle "main")) = Ok ∅
  /\ fst (getConnection VUndef 3%positive (Sample.idle "main"))
     = Throw (Error "Connection 'default' does not exists.").
Proof. vm_compute. repeat split; reflexivity. Qed.

(** ** What registration leaves alone *)

Lemma stable_builds n : stable (fun w => builds (trace w) = n).
Proof.
  split.
  - now intros w l o.
  - intros w e He H. simpl. unfold builds in *.
    rewrite List.filter_app, length_app. simpl. rewrite He. simpl. lia.
  - intros w w' _ Ht _ _ _ H. now rewrite Ht.
Qed.

Lemma stable_modelsGenerated b : stable (fun w => modelsGenerated w = b).
Proof.
  split; [now intros w l o | now intros w e | ].
  intros w w' _ _ H _ _ Hw. now rewrite H.
Qed.

Lemma stable_globalSchemas v : stable (fun w => globalSchemas w = v).
Proof.
  split; [now intros w l o | now intros w e | ].
  intros w w' _ _ _ H _ Hw. now rewrite H.
Qed.

Lemma stable_defaultConfig l : stable (fun w => defaultConfig w = l).
Proof.
  split; [now intros w l' o | now intros w e | ].
  intros w w' _ _ _ _ H Hw. now rewrite H.
Qed.

Lemma stable_is_data l : stable (is_data l).
Proof.
  split.
  - intros w l' o [o' H]. unfold is_data. simpl.
    destruct (decide (l' = l)) as [->|Hne].
    + rewrite lookup_insert_eq. eauto.
    + rewrite lookup_insert_ne by assumption. eauto.
  - now intros w e.
  - intros w w' Hh _ _ _ _ [o H]. exists o. now rewrite Hh.
Qed.

Lemma stable_and P Q : stable P -> stable Q -> stable (fun w => P w /\ Q w).
Proof.
  intros [p1 p2 p3] [q1 q2 q3]. split.
  - intros w l o [? ?]; split; auto.
  - intros w e He [? ?]; split; auto.
  - intros w w' ? ? ? ? ? [? ?]; split; eauto.
Qed.

Section Stable.

Context (C : Collaborators) (P : World -> Prop) (HP : stable P).

Lemma preserves_emit e : is_build e = false -> preserves P (emit e).
Proof. intros He w Hw. now apply (stable_emit P HP). Qed.

Lemma preserves_store l o : preserves P (store l (OData o)).
Proof. intros w Hw. now apply (stable_store P HP). Qed.

Lemma preserves_readData l : preserves P (readData l).
Proof. apply readonly_preserves, readonly_readData. Qed.

Lemma preserves_extendConfig target source : preserves P (extendConfig target source).
Proof.
  unfold extendConfig. case_bool_decide; [apply preserves_ret|].
  apply preserves_bind; [apply preserves_readData | intros t].
  apply preserves_bind; [apply preserves_readData | intros s].
  apply preserves_store.
Qed.

Lemma preserves_getLogger label : preserves P (getLogger C label).
Proof.
  unfold getLogger.
  apply preserves_bind; [apply preserves_gets | intros config].
  apply preserves_bind; [apply preserves_gets | intros exported].
  apply preserves_bind; [apply preserves_extendConfig | intros _].
  apply preserves_bind; [apply preserves_readData | intros cfg].
  apply preserves_ret.
Qed.

Lemma preserves_call e answer : is_build e = false -> preserves P (call e answer).
Proof.
  intros He. unfold call.
  apply preserves_bind; [now apply preserves_emit | intros _].
  apply preserves_bind; [apply preserves_gets | intros t].
  destruct (answer t); [apply preserves_throw | apply preserves_ret].
Qed.

Lemma preserves_callServerRegister server plugins :
  preserves P (callServerRegister C server plugins).
Proof. now apply preserves_call. Qed.

Lemma preserves_registerMrHorse server logger config :
  preserves P (registerMrHorse C server logger config).
Proof.
  unfold registerMrHorse.
  apply preserves_bind; [apply preserves_readData | intros cfg].
  apply preserves_bind; [apply preserves_callServerRegister | intros _].
  apply preserves_bind; [| intros _; now apply preserves_emit].
  destruct (truthy _); [now apply preserves_call | apply preserves_ret].
Qed.

Lemma preserves_registerHapiSwagger server logger config :
  preserves P (registerHapiSwagger C server logger config).
Proof.
  unfold registerHapiSwagger.
  apply preserves_bind; [apply preserves_readData | intros cfg].
  apply preserves_bind.
  - destruct (negb _); [apply preserves_ret|].
    destruct (getProperty _ "info"); try apply preserves_throw.
    apply preserves_bind; [| intros _; apply preserves_ret].
    destruct (getProperty cfg "swaggerOptions"); try apply preserves_ret.
    apply preserves_store.
  - intros so.
    apply preserves_bind; [apply preserves_callServerRegister | intros _].
    now apply preserves_emit.
Qed.

Lemma preserves_generateRoutesFor server ks models :
  preserves P (generateRoutesFor C server ks models).
Proof.
  induction ks as [|k ks IH]; simpl; [apply preserves_ret|].
  apply preserves_bind; [now apply preserves_call | intros _; apply IH].
Qed.

Lemma preserves_generateRoutes server mongoose models logger config :
  preserves P (generateRoutes C server mongoose models logger config).
Proof.
  unfold generateRoutes.
  apply preserves_bind; [now apply preserves_call | intros _].
  apply preserves_bind; [apply preserves_generateRoutesFor | intros _].
  apply preserves_bind; [apply preserves_readData | intros cfg].
  now apply preserves_call.
Qed.

(** The stages after the schemas are stored. *)
Lemma preserves_stages server options Log config schema :
  preserves P
    (cfg <- readData config ;;
     (if negb (truthy (getProperty cfg "disableSwagger"))
      then registerHapiSwagger C server Log config else ret tt) ;;
     registerMrHorse C server Log config ;;
     generateRoutes C server (opt_mongoose options) schema Log config).
Proof.
  apply preserves_bind; [apply preserves_readData | intros cfg].
  apply preserves_bind.
  - destruct (negb _); [apply preserves_registerHapiSwagger | apply preserves_ret].
  - intros _. apply preserves_bind; [apply preserves_registerMrHorse | intros _].
    apply preserves_generateRoutes.
Qed.

Lemma preserves_field f :
  (forall w, heap (f w) = heap w /\ trace (f w) = trace w /\
             modelsGenerated (f w) = modelsGenerated w /\
             globalSchemas (f w) = globalSchemas w /\
             defaultConfig (f w) = defaultConfig w) ->
  preserves P (modify f).
Proof.
  intros Hf. apply preserves_modify. intros w Hw.
  destruct (Hf w) as (? & ? & ? & ? & ?). now apply (stable_fields P HP w).
Qed.

Lemma preserves_registerSetup server options :
  preserves P (registerSetup C server options).
Proof.
  unfold registerSetup.
  apply preserves_bind; [now apply preserves_field | intros _].
  apply preserves_bind; [apply preserves_gets | intros t].
  apply preserves_bind.
  { destruct (realmValidator C t server).
    - now apply preserves_field.
    - apply preserves_bind; [now apply preserves_call | intros _].
      now apply preserves_field. }
  intros _. apply preserves_bind; [apply preserves_gets | intros config].
  apply preserves_bind.
  { destruct (opt_config options); [apply preserves_extendConfig | apply preserves_ret]. }
  intros _. apply preserves_bind; [now apply preserves_field | intros _].
  apply preserves_bind; [apply preserves_getLogger | intros Log].
  apply preserves_bind; [now apply preserves_field | intros _].
  apply preserves_bind; [now apply preserves_call | intros _].
  apply preserves_bind.
  { destruct (isArray _); [now apply preserves_field | apply preserves_ret]. }
  intros _. apply preserves_bind; [now apply preserves_call | intros _].
  apply preserves_bind; [now apply preserves_emit | intros _].
  apply preserves_ret.
Qed.

End Stable.

(** ** Stages that cannot fail *)

Lemma total_bind {A B} P (m : M A) (f : A -> M B) Q R :
  total P m Q -> (forall a, total (Q a) (f a) R) -> total P (bindM m f) R.
Proof.
  intros Hm Hf w Hw. destruct (Hm w Hw) as (a & w1 & E & Hq).
  destruct (Hf a w1 Hq) as (b & w2 & E' & Hr).
  exists b, w2. split; [|assumption]. now rewrite (bindM_ok _ _ _ _ _ E).
Qed.

Lemma total_ret {A} (P : World -> Prop) (a : A) (Q : A -> World -> Prop) :
  (forall w, P w -> Q a w) -> total P (ret a) Q.
Proof. intros H w Hw. exists a, w. auto. Qed.

Lemma total_gets {A} (P : World -> Prop) (f : World -> A) :
  total P (gets f) (fun a w => a = f w /\ P w).
Proof. intros w Hw. exists (f w), w. auto. Qed.

Lemma total_modify (P Q : World -> Prop) f :
  (forall w, P w -> Q (f w)) -> total P (modify f) (fun _ => Q).
Proof. intros H w Hw. exists tt, (f w). auto. Qed.

Lemma total_emit (P Q : World -> Prop) e :
  (forall w, P w -> Q (set_trace (trace w ++ [e]) w)) -> total P (emit e) (fun _ => Q).
Proof. intros H. now apply total_modify. Qed.

Lemma total_call (P Q : World -> Prop) e answer :
  (forall t, answer t = None) ->
  (forall w, P w -> Q (set_trace (trace w ++ [e]) w)) ->
  total P (call e answer) (fun _ => Q).
Proof.
  intros Ha H w Hw. exists tt, (set_trace (trace w ++ [e]) w).
  split; [|now apply H].
  unfold call, emit, modify, gets, bindM. simpl. now rewrite Ha.
Qed.

Lemma total_readData (P : World -> Prop) l :
  (forall w, P w -> is_data l w) ->
  total P (readData l) (fun o w => heap w !! l = Some (OData o) /\ P w).
Proof.
  intros H w Hw. destruct (H w Hw) as [o Ho].
  exists o, w. split; [now apply readData_eq | auto].
Qed.

Lemma total_extendConfig (P Q : World -> Prop) target source :
  (forall w, P w -> is_data target w /\ is_data source w) ->
  (forall w, P w -> Q w) ->
  (forall w o, P w -> Q (set_heap (<[target := OData o]> (heap w)) w)) ->
  total P (extendConfig target source) (fun _ => Q).
Proof.
  intros H HQ Hs w Hw. unfold extendConfig. case_bool_decide.
  - exists tt, w. auto.
  - destruct (H w Hw) as [[t Ht] [s Hs']].
    rewrite (bindM_ok _ _ _ _ _ (readData_eq _ _ _ Ht)).
    rewrite (bindM_ok _ _ _ _ _ (readData_eq _ _ _ Hs')).
    eexists tt, _. split; [reflexivity|]. now apply Hs.
Qed.

Lemma total_weaken {A} (P P' : World -> Prop) (m : M A) (Q Q' : A -> World -> Prop) :
  total P' m Q' -> (forall w, P w -> P' w) -> (forall a w, Q' a w -> Q a w) ->
  total P m Q.
Proof.
  intros Hm HP HQ w Hw. destruct (Hm w (HP w Hw)) as (a & w' & E & Hq). eauto.
Qed.

Lemma getLogger_eq (C : Collaborators) label w cfg :
  exported_config w = defaultConfig w ->
  heap w !! defaultConfig w = Some (OData cfg) ->
  getLogger C label w =
  (Ok {| labels := [VStr (chalk_gray C label)]; logLevel := getProperty cfg "loglevel" |}, w).
Proof.
  intros He Hc. unfold getLogger, bindM, gets, extendConfig. simpl.
  rewrite He. rewrite bool_decide_eq_true_2 by reflexivity. simpl.
  now rewrite (readData_eq _ _ _ Hc).
Qed.

(** On a host that takes them, the first steps of [register] return, with
    the default configuration object as [config]. *)
Lemma registerSetup_ok (C : Collaborators) (server : Server) (options : Options)
    (w : World) :
  configured options w ->
  welcomes C server ->
  exists Log w1, registerSetup C server options w = (Ok (Log, defaultConfig w), w1).
Proof.
  intros Hw Hhost.
  set (d := defaultConfig w).
  set (I := fun w => defaultConfig w = d /\ is_data d w /\
                     forall c, opt_config options = Some c -> is_data c w).
  assert (HI : stable I).
  { apply stable_and; [apply stable_defaultConfig|].
    apply stable_and; [apply stable_is_data|].
    split.
    - intros w0 l o H c Hc. now apply (stable_store _ (stable_is_data c)), H.
    - intros w0 e _ H c Hc. now apply H.
    - intros w0 w' Hh _ _ _ _ H c Hc. destruct (H c Hc) as [o' Ho].
      exists o'. now rewrite Hh. }
  assert (Hfield : forall f,
             (forall w, heap (f w) = heap w /\ trace (f w) = trace w /\
                        modelsGenerated (f w) = modelsGenerated w /\
                        globalSchemas (f w) = globalSchemas w /\
                        defaultConfig (f w) = defaultConfig w) ->
             forall w, I w -> I (f w)).
  { intros f Hf w0 H0. destruct (Hf w0) as (? & ? & ? & ? & ?).
    now apply (stable_fields I HI w0). }
  assert (T : total I (registerSetup C server options)
                (fun s w => snd s = d)).
  { unfold registerSetup.
    eapply total_bind with (Q := fun _ => I).
    { apply total_modify. intros w0 H0. now apply Hfield. }
    intros _. eapply total_bind; [apply total_gets | intros t; simpl].
    eapply total_bind with (Q := fun _ => I).
    { destruct (realmValidator C t server).
      - apply total_modify. intros w0 [_ H0]. now apply Hfield.
      - eapply total_bind with (Q := fun _ => I).
        + apply total_call; [intros t'; apply Hhost|].
          intros w0 [_ H0]. now apply (stable_emit I HI).
        + intros _. apply total_modify. intros w0 H0. now apply Hfield. }
    intros _. eapply total_bind; [apply total_gets | intros config; simpl].
    eapply total_bind with (Q := fun _ w => config = d /\ I w).
    { destruct (opt_config options) as [c|] eqn:Ec.
      - apply total_extendConfig.
        + intros w0 (-> & H1 & H2 & H3). rewrite H1. split; [assumption | now apply H3].
        + intros w0 (-> & H0). split; [apply H0 | exact H0].
        + intros w0 o (-> & H0). split; [apply H0|].
          now apply (stable_store I HI).
      - apply total_ret. intros w0 (-> & H0). split; [apply H0 | exact H0]. }
    intros _.
    eapply total_bind with (Q := fun _ w => config = d /\ I w /\ exported_config w = d).
    { apply total_modify. intros w0 (-> & H0).
      split; [reflexivity | split; [| reflexivity]].
      now apply (Hfield (set_exported_config d)). }
    intros _.
    eapply total_bind with (Q := fun _ w => config = d /\ I w).
    { intros w0 (-> & H0 & He). destruct H0 as (Hd & [cfg Hcfg] & Hc).
      eexists _, w0. split.
      - apply getLogger_eq with (cfg := cfg); now rewrite Hd.
      - split; [reflexivity|]. split; [assumption|]. split; [now exists cfg | assumption]. }
    intros Log.
    eapply total_bind with (Q := fun _ w => config = d /\ I w).
    { apply total_modify. intros w0 (-> & H0). split; [reflexivity|]. now apply Hfield. }
    intros _.
    eapply total_bind with (Q := fun _ w => config = d /\ I w).
    { apply total_call; [intros t'; apply Hhost|].
      intros w0 (-> & H0). split; [reflexivity|].
      now apply (stable_emit I HI). }
    intros _.
    eapply total_bind with (Q := fun _ w => config = d /\ I w).
    { destruct (isArray _).
      - apply total_modify. intros w0 (-> & H0). split; [reflexivity|]. now apply Hfield.
      - now apply total_ret. }
    intros _.
    eapply total_bind with (Q := fun _ w => config = d /\ I w).
    { apply total_call; [intros t'; apply Hhost|].
      intros w0 (-> & H0). split; [reflexivity|].
      now apply (stable_emit I HI). }
    intros _.
    eapply total_bind with (Q := fun _ w => config = d /\ I w).
    { apply total_emit. intros w0 (-> & H0). split; [reflexivity|].
      now apply (stable_emit I HI). }
    intros _. apply total_ret. now intros w0 (-> & _). }
  destruct (T w) as ([Log c] & w1 & E & Hc).
  { destruct Hw as [H1 H2]. repeat split; assumption. }
  simpl in Hc. subst c. eauto.
Qed.

(** Whenever they return, [config] is the default configuration object. *)
Lemma registerSetup_config (C : Collaborators) server options w Log config w1 :
  registerSetup C server options w = (Ok (Log, config), w1) ->
  config = defaultConfig w.
Proof.
  unfold registerSetup. intros E.
  apply bindM_inv in E as (u & wa & Ea & E).
  apply bindM_inv in E as (t & wb & Eb & E).
  apply bindM_inv in E as (u' & wc & Ec & E).
  apply bindM_inv in E as (c & wd & Ed & E).
  assert (D : defaultConfig wc = defaultConfig w).
  { unfold modify in Ea. injection Ea as _ <-.
    unfold gets in Eb. injection Eb as _ <-.
    match type of Ec with
    | ?m _ = _ =>
        assert (Hm : preserves (fun w' => defaultConfig w' = defaultConfig w) m)
    end.
    { destruct (realmValidator C _ server).
      - now apply (preserves_field _ (stable_defaultConfig _)).
      - apply preserves_bind;
          [| intros _; now apply (preserves_field _ (stable_defaultConfig _))].
        now apply (preserves_call _ (stable_defaultConfig _)). }
    specialize (Hm _ (eq_refl : defaultConfig (set_exported_server server w) = _)).
    now rewrite Ec in Hm. }
  unfold gets in Ed. injection Ed as <- <-.
  repeat (apply bindM_inv in E as (? & ? & _ & E)).
  unfold ret in E. injection E as _ <- _. exact D.
Qed.

(** ** Schema resolution *)

Lemma callModelGenerator_eq (C : Collaborators) mongoose Log config d w :
  heap w !! config = Some (OData d) ->
  callModelGenerator C mongoose Log config w =
  (Ok (modelGenerator C (trace (called mongoose Log d w)) mongoose (VObj Plain d)),
   called mongoose Log d w).
Proof.
  intros H. unfold callModelGenerator.
  rewrite (bindM_ok _ _ _ _ _ (readData_eq _ _ _ H)). reflexivity.
Qed.

(** With the flag set, [register] takes the stored schemas and calls
    nothing. *)
Lemma resolveSchemas_generated (C : Collaborators) options Log config w :
  modelsGenerated w = true ->
  resolveSchemas C options Log config w = (Ok (globalSchemas w), w).
Proof. intros H. unfold resolveSchemas, bindM, gets. simpl. now rewrite H. Qed.

(** Without it, the build is called and its outcome decides. *)
Lemma resolveSchemas_build (C : Collaborators) options Log config d w :
  modelsGenerated w = false ->
  heap w !! config = Some (OData d) ->
  let w' := called (opt_mongoose options) Log d w in
  resolveSchemas C options Log config w =
  match modelGenerator C (trace w') (opt_mongoose options) (VObj Plain d) with
  | Ok schema => (Ok schema, w')
  | Throw err =>
      if includes (message err) "no such file"
      then (Ok VUndef, set_trace (trace w' ++ [EvLog LError Log policyDirectoryMissing]) w')
      else (Throw err, w')
  end.
Proof.
  intros Hg Hc w'. unfold resolveSchemas, bindM at 1, gets. simpl. rewrite Hg.
  unfold tryCatch. rewrite (bindM_ok _ _ _ _ _ (callModelGenerator_eq C _ _ _ _ _ Hc)).
  subst w'. unfold await, liftRes, called. simpl.
  destruct (modelGenerator C _ _ _) as [schema|err]; [reflexivity|].
  now destruct (includes _ _).
Qed.

Lemma registerRest_globalSchemas (C : Collaborators) server options Log config schema w :
  globalSchemas (snd (registerRest C server options Log config schema w)) = schema.
Proof.
  unfold registerRest, bindM at 1, modify. unfold bindM at 1.
  apply (preserves_stages C _ (stable_globalSchemas schema) server options Log config schema).
  reflexivity.
Qed.

(** C3.  When the build called by [register] fails, a message containing
    ['no such file'] makes [register] log the missing-policy-directory
    error, swallow the failure and go on with the remaining stages and no
    schemas; any other failure is thrown on, and nothing further runs. *)
Theorem build_failure_policy (C : Collaborators) (server : Server) (options : Options) (w w1 : World)
    (Log : Logger) (config : loc) (d : JsObj) (err : JsError) :
  registerSetup C server options w = (Ok (Log, config), w1) ->
  modelsGenerated w1 = false ->
  heap w1 !! config = Some (OData d) ->
  modelGenerator C (trace (called (opt_mongoose options) Log d w1))
                 (opt_mongoose options) (VObj Plain d) = Throw err ->
  let w2 := called (opt_mongoose options) Log d w1 in
  (includes (message err) "no such file" = true ->
   register C server options w =
     registerRest C server options Log config VUndef
       (set_trace (trace w2 ++ [EvLog LError Log policyDirectoryMissing]) w2)
   /\ globalSchemas (snd (register C server options w)) = VUndef)
  /\ (includes (message err) "no such file" = false ->
      register C server options w = (Throw err, w2)).
Proof.
  intros Hs Hg Hc Hb w2.
  assert (E : register C server options w =
              bindM (resolveSchemas C options Log config)
                    (registerRest C server options Log config) w1).
  { unfold register. now rewrite (bindM_ok _ _ _ _ _ Hs). }
  pose proof (resolveSchemas_build C options Log config d w1 Hg Hc) as R.
  cbv zeta in R. fold w2 in R, Hb. rewrite Hb in R.
  split; intros Hi; rewrite Hi in R.
  - assert (E' : register C server options w =
                 registerRest C server options Log config VUndef
                   (set_trace (trace w2 ++ [EvLog LError Log policyDirectoryMissing]) w2)).
    { rewrite E. now rewrite (bindM_ok _ _ _ _ _ R). }
    split; [exact E'|]. rewrite E'. apply registerRest_globalSchemas.
  - rewrite E. now rewrite (bindM_throw _ _ _ _ _ R).
Qed.

Lemma build_failure_policy_witness :
  fst (register (Sample.failing Sample.enoent) Sample.server Sample.bare
                (initial (Sample.config "default"))) = Ok tt
  /\ fst (register (Sample.failing Sample.refused) Sample.server Sample.bare
                   (initial (Sample.config "default")))
     = Throw (Error Sample.refused).
Proof.
  set (w := initial (Sample.config "default")).
  split.
  - set (C := Sample.failing Sample.enoent).
    assert (Hs : registerSetup C Sample.server Sample.bare w
                 = (Ok (Sample.api, 1%positive), snd (registerSetup C Sample.server Sample.bare w)))
      by (vm_compute; reflexivity).
    destruct (build_failure_policy C Sample.server Sample.bare w _ Sample.api 1%positive
                (Sample.config "default") (Error Sample.enoent)
                Hs eq_refl eq_refl eq_refl) as [H _].
    destruct (H eq_refl) as [E _]. rewrite E. vm_compute. reflexivity.
  - set (C := Sample.failing Sample.refused).
    assert (Hs : registerSetup C Sample.server Sample.bare w
                 = (Ok (Sample.api, 1%positive), snd (registerSetup C Sample.server Sample.bare w)))
      by (vm_compute; reflexivity).
    destruct (build_failure_policy C Sample.server Sample.bare w _ Sample.api 1%positive
                (Sample.config "default") (Error Sample.refused)
                Hs eq_refl eq_refl eq_refl) as [_ H].
    rewrite (H eq_refl). reflexivity.
Defined.

(** ** How often the schemas are built *)

Lemma stable_configured d options :
  stable (fun w => defaultConfig w = d /\ is_data d w /\
                   forall c, opt_config options = Some c -> is_data c w).
Proof.
  apply stable_and; [apply stable_defaultConfig|].
  apply stable_and; [apply stable_is_data|].
  split.
  - intros w0 l o H c Hc. now apply (stable_store _ (stable_is_data c)), H.
  - intros w0 e _ H c Hc. now apply H.
  - intros w0 w' Hh _ _ _ _ H c Hc. destruct (H c Hc) as [o' Ho].
    exists o'. now rewrite Hh.
Qed.

Lemma configured_stable options w w' :
  configured options w ->
  (defaultConfig w' = defaultConfig w /\ is_data (defaultConfig w) w' /\
   forall c, opt_config options = Some c -> is_data c w') ->
  configured options w'.
Proof. intros _ (E & H1 & H2). split; [now rewrite E | assumption]. Qed.

(** The stages after schema resolution keep what is stable and does not
    depend on the stored schemas. *)
Lemma preserves_registerRest (C : Collaborators) P server options Log config schema :
  stable P -> (forall w v, P w -> P (set_globalSchemas v w)) ->
  preserves P (registerRest C server options Log config schema).
Proof.
  intros HP Hg. unfold registerRest.
  apply preserves_bind; [now apply preserves_field | intros _].
  apply preserves_bind; [apply preserves_modify; intros w; apply Hg | intros _].
  now apply preserves_stages.
Qed.

Lemma register_unfold (C : Collaborators) server options w :
  register C server options w =
  match registerSetup C server options w with
  | (Ok (Log, config), w1) =>
      bindM (resolveSchemas C options Log config) (registerRest C server options Log config) w1
  | (Throw e, w1) => (Throw e, w1)
  end.
Proof.
  unfold register, bindM at 1.
  now destruct (registerSetup C server options w) as [[[Log config]|e] w1].
Qed.

(** Once the flag is set, [register] builds nothing and keeps the stored
    schemas and the flag. *)
Lemma register_generated (C : Collaborators) server options w :
  modelsGenerated w = true ->
  builds (trace (snd (register C server options w))) = builds (trace w)
  /\ globalSchemas (snd (register C server options w)) = globalSchemas w
  /\ modelsGenerated (snd (register C server options w)) = true.
Proof.
  intros Hg.
  pose proof (preserves_registerSetup C _ (stable_builds (builds (trace w))) server options w eq_refl) as Hb.
  pose proof (preserves_registerSetup C _ (stable_globalSchemas (globalSchemas w)) server options w eq_refl) as Hs.
  pose proof (preserves_registerSetup C _ (stable_modelsGenerated true) server options w Hg) as Hf.
  rewrite (register_unfold C server options w).
  destruct (registerSetup C server options w) as [[[Log config]|e] w1]; simpl in Hb, Hs, Hf;
    [|auto].
  rewrite (bindM_ok _ _ _ _ _ (resolveSchemas_generated C options Log config w1 Hf)).
  cbv beta. split; [|split].
  - rewrite <- Hb.
    now apply (preserves_registerRest C _ server options Log config _ (stable_builds _)).
  - etransitivity; [apply registerRest_globalSchemas | assumption].
  - now apply (preserves_registerRest C _ server options Log config _ (stable_modelsGenerated _)).
Qed.

(** Without the flag, a [register] that gets as far as resolving the
    schemas builds once; it does not set the flag. *)
Lemma register_cold (C : Collaborators) server options w :
  configured options w ->
  modelsGenerated w = false ->
  returns (registerSetup C server options) w ->
  builds (trace (snd (register C server options w))) = S (builds (trace w))
  /\ modelsGenerated (snd (register C server options w)) = false
  /\ defaultConfig (snd (register C server options w)) = defaultConfig w
  /\ is_data (defaultConfig w) (snd (register C server options w))
  /\ forall c, opt_config options = Some c -> is_data c (snd (register C server options w)).
Proof.
  intros Hw Hg ([Log c] & w1 & Hs).
  pose proof (registerSetup_config C _ _ _ _ _ _ Hs) as ->.
  pose proof (preserves_registerSetup C _ (stable_builds (builds (trace w))) server options w eq_refl) as Hb.
  pose proof (preserves_registerSetup C _ (stable_modelsGenerated false) server options w Hg) as Hf.
  pose proof (preserves_registerSetup C _ (stable_configured (defaultConfig w) options) server options w) as Hc.
  rewrite Hs in Hb, Hf, Hc. simpl in *.
  destruct Hc as (Hd & [d Hcfg] & Hcs).
  { destruct Hw. auto. }
  set (P := fun w' => builds (trace w') = S (builds (trace w)) /\
                      modelsGenerated w' = false /\
                      defaultConfig w' = defaultConfig w /\
                      is_data (defaultConfig w) w' /\
                      forall c, opt_config options = Some c -> is_data c w').
  assert (HP : stable P).
  { apply stable_and; [apply stable_builds|].
    apply stable_and; [apply stable_modelsGenerated|].
    apply stable_configured. }
  assert (HPg : forall w' v, P w' -> P (set_globalSchemas v w')) by (now intros w' v).
  set (w2 := called (opt_mongoose options) Log d w1).
  assert (P2 : P w2).
  { unfold P, w2, called. simpl. unfold builds in *.
    rewrite List.filter_app, length_app. simpl.
    repeat split; try assumption; try lia. now exists d. }
  change (P (snd (register C server options w))).
  unfold register. rewrite (bindM_ok _ _ _ _ _ Hs).
  pose proof (resolveSchemas_build C options Log (defaultConfig w) d w1 Hf Hcfg) as R.
  cbv zeta in R. fold w2 in R.
  destruct (modelGenerator C (trace w2) _ _) as [schema|err].
  - rewrite (bindM_ok _ _ _ _ _ R).
    now apply (preserves_registerRest C P server options Log _ schema HP HPg).
  - destruct (includes _ _).
    + rewrite (bindM_ok _ _ _ _ _ R).
      apply (preserves_registerRest C P server options Log _ VUndef HP HPg).
      now apply (stable_emit P HP).
    + now rewrite (bindM_throw _ _ _ _ _ R).
Qed.

Lemma total_getLogger (C : Collaborators) (P : World -> Prop) label :
  (forall w, P w -> is_data (defaultConfig w) w /\ is_data (exported_config w) w) ->
  (forall w o, P w -> P (set_heap (<[defaultConfig w := OData o]> (heap w)) w)) ->
  total P (getLogger C label) (fun _ => P).
Proof.
  intros Hd Hs. unfold getLogger.
  eapply total_bind; [apply total_gets | intros config; simpl].
  eapply total_bind; [apply total_gets | intros exported; simpl].
  eapply total_bind with (Q := fun _ w => config = defaultConfig w /\ P w).
  { apply total_extendConfig.
    - intros w (-> & -> & Hw). now apply Hd.
    - intros w (-> & -> & Hw). auto.
    - intros w o (-> & -> & Hw). split; [reflexivity | now apply Hs]. }
  intros _. eapply total_bind.
  { apply total_readData. intros w (-> & Hw). now apply Hd. }
  intros cfg. apply total_ret. now intros w (_ & _ & Hw).
Qed.

(** [generateModels] gets as far as calling the build, with the flag
    already set; the stored schemas are still the old ones. *)
Lemma generateModelsStart_ok (C : Collaborators) mongoose w :
  is_data (defaultConfig w) w ->
  is_data (exported_config w) w ->
  exists Log d w0,
    generateModelsStart C mongoose w =
      (Ok (modelGenerator C (trace (called mongoose Log d w0)) mongoose (VObj Plain d)),
       called mongoose Log d w0)
    /\ modelsGenerated w0 = true
    /\ globalSchemas w0 = globalSchemas w
    /\ builds (trace w0) = builds (trace w)
    /\ defaultConfig w0 = defaultConfig w
    /\ forall l, is_data l w -> is_data l w0.
Proof.
  intros Hd Hx.
  set (I := fun w' =>
              (modelsGenerated w' = true /\ globalSchemas w' = globalSchemas w /\
               builds (trace w') = builds (trace w) /\
               defaultConfig w' = defaultConfig w /\
               forall l, is_data l w -> is_data l w') /\
              exported_config w' = exported_config w).
  assert (Hstore : forall w' l o, I w' -> I (set_heap (<[l := OData o]> (heap w')) w')).
  { intros w' l o [(H1 & H2 & H3 & H4 & H5) H6]. repeat split; try assumption.
    intros l' Hl'. now apply (stable_store _ (stable_is_data l')), H5. }
  assert (Hdata : forall w', I w' ->
                   is_data (defaultConfig w') w' /\ is_data (exported_config w') w').
  { intros w' [(H1 & H2 & H3 & H4 & H5) H6]. rewrite H4, H6. auto. }
  assert (T : total (fun w' => w' = w) (generateModelsStart C mongoose)
                (fun p w' => exists Log d w0,
                     p = modelGenerator C (trace (called mongoose Log d w0)) mongoose
                           (VObj Plain d)
                     /\ w' = called mongoose Log d w0 /\ I w0)).
  { unfold generateModelsStart.
    eapply total_bind with (Q := fun _ => I).
    { apply total_modify. intros w' ->. repeat split; auto. }
    intros _. eapply total_bind; [apply total_gets | intros config; simpl].
    eapply total_bind; [apply total_gets | intros exported; simpl].
    eapply total_bind with (Q := fun _ w' => config = defaultConfig w' /\ I w').
    { apply total_extendConfig.
      - intros w' (-> & -> & Hw). now apply Hdata.
      - intros w' (-> & -> & Hw). auto.
      - intros w' o (-> & -> & Hw). split; [reflexivity | now apply Hstore]. }
    intros _. eapply total_bind with (Q := fun _ w' => config = defaultConfig w' /\ I w').
    { apply total_getLogger.
      - intros w' (-> & Hw). now apply Hdata.
      - intros w' o (-> & Hw). split; [reflexivity | now apply Hstore]. }
    intros Log. eapply total_bind with (Q := fun _ w' => config = defaultConfig w' /\ I w').
    { apply total_modify. intros w' (-> & [(H1 & H2 & H3 & H4 & H5) H6]).
      repeat split; assumption. }
    intros _ w' (-> & Hw). destruct (Hdata w' Hw) as [[d Hcfg] _].
    rewrite (callModelGenerator_eq C mongoose Log _ d w' Hcfg).
    eexists _, _. split; [reflexivity|]. exists Log, d, w'. auto. }
  destruct (T w eq_refl) as (p & w' & E & Log & d & w0 & -> & -> & [(H1 & H2 & H3 & H4 & H5) H6]).
  exists Log, d, w0. auto 10.
Qed.

(** [await generateModels(mongoose)] builds once and leaves the flag set,
    whether the build succeeds or not; a failed build leaves the stored
    schemas as they were. *)
Lemma generateModels_builds (C : Collaborators) mongoose w :
  is_data (defaultConfig w) w ->
  is_data (exported_config w) w ->
  builds (trace (snd (generateModels C mongoose w))) = S (builds (trace w))
  /\ modelsGenerated (snd (generateModels C mongoose w)) = true
  /\ (forall e, fst (generateModels C mongoose w) = Throw e ->
                globalSchemas (snd (generateModels C mongoose w)) = globalSchemas w).
Proof.
  intros Hd Hx.
  destruct (generateModelsStart_ok C mongoose w Hd Hx)
    as (Log & d & w0 & E & H1 & H2 & H3 & H4 & H5).
  assert (Hb : builds (trace (called mongoose Log d w0)) = S (builds (trace w))).
  { unfold called, builds in *. simpl. rewrite List.filter_app, length_app. simpl. lia. }
  unfold generateModels. rewrite (bindM_ok _ _ _ _ _ E).
  destruct (modelGenerator C _ _ _) as [schema|err].
  - split; [exact Hb | split; [exact H1 | discriminate]].
  - split; [exact Hb | split; [exact H1 | intros _ _; exact H2]].
Qed.

(** [register] keeps every stable property that depends neither on the
    calls made nor on the stored schemas. *)
Lemma preserves_register (C : Collaborators) P server options :
  stable P ->
  (forall w e, P w -> P (set_trace (trace w ++ [e]) w)) ->
  (forall w v, P w -> P (set_globalSchemas v w)) ->
  preserves P (register C server options).
Proof.
  intros HP He Hg. unfold register.
  apply preserves_bind; [now apply preserves_registerSetup | intros [Log config]].
  apply preserves_bind; [| intros schema; now apply preserves_registerRest].
  unfold resolveSchemas.
  apply preserves_bind; [apply preserves_gets | intros [|]; [apply preserves_gets|]].
  apply preserves_tryCatch.
  - apply preserves_bind; [| intros p; apply preserves_liftRes].
    unfold callModelGenerator.
    apply preserves_bind; [now apply preserves_readData | intros cfg].
    apply preserves_bind; [intros w Hw; now apply He | intros _].
    apply preserves_bind; [apply preserves_gets | intros t; apply preserves_ret].
  - intros err. destruct (includes _ _); [|apply preserves_throw].
    apply preserves_bind; [intros w Hw; now apply He | intros _; apply preserves_ret].
Qed.

(** C10.  [generateModels] sets the flag before it calls the build, and a
    failed build does not reset it or touch the stored schemas; [register]
    then builds nothing and runs its remaining stages with the schemas
    stored before. *)
Theorem pregeneration_flag_outlives_failure (C : Collaborators) (mongoose : Mongoose)
    (server : Server) (options : Options) (w w1 : World) (err : JsError) :
  is_data (defaultConfig w) w ->
  is_data (exported_config w) w ->
  generateModelsStart C mongoose w = (Ok (Throw err), w1) ->
  (exists Log d w0, w1 = called mongoose Log d w0 /\ modelsGenerated w0 = true)
  /\ generateModels C mongoose w = (Throw err, w1)
  /\ modelsGenerated w1 = true
  /\ globalSchemas w1 = globalSchemas w
  /\ builds (trace (snd (register C server options w1))) = builds (trace w1)
  /\ globalSchemas (snd (register C server options w1)) = globalSchemas w
  /\ (forall Log config w2,
         registerSetup C server options w1 = (Ok (Log, config), w2) ->
         register C server options w1 = registerRest C server options Log config (globalSchemas w) w2).
Proof.
  intros Hd Hx Hs.
  destruct (generateModelsStart_ok C mongoose w Hd Hx)
    as (Log & d & w0 & E & H1 & H2 & H3 & H4 & H5).
  rewrite Hs in E. injection E as Ep Ew.
  assert (Hf : modelsGenerated w1 = true) by (now rewrite Ew).
  assert (Hg : globalSchemas w1 = globalSchemas w) by (now rewrite Ew).
  destruct (register_generated C server options w1 Hf) as (R1 & R2 & R3).
  split; [now exists Log, d, w0|].
  split; [unfold generateModels; now rewrite (bindM_ok _ _ _ _ _ Hs)|].
  split; [assumption|]. split; [assumption|]. split; [assumption|].
  split; [now rewrite R2|].
  intros Log' config w2 Hsetup.
  pose proof (preserves_registerSetup C _ (stable_modelsGenerated true) server options w1 Hf) as F.
  pose proof (preserves_registerSetup C _ (stable_globalSchemas (globalSchemas w)) server options w1 Hg) as G.
  rewrite Hsetup in F, G. simpl in F, G.
  rewrite (register_unfold C server options w1), Hsetup.
  rewrite (bindM_ok _ _ _ _ _ (resolveSchemas_generated C options Log' config w2 F)).
  now rewrite G.
Qed.

Lemma pregeneration_flag_outlives_failure_witness :
  modelsGenerated (snd (generateModels (Sample.failing Sample.refused) Sample.mongoose
                          (initial (Sample.config "default")))) = true
  /\ builds (trace (snd ((tryCatch
                            (generateModels (Sample.failing Sample.refused) Sample.mongoose)
                            (fun _ => ret VUndef) ;;
                          register (Sample.failing Sample.refused) Sample.server Sample.bare)
                         (initial (Sample.config "default"))))) = 1.
Proof.
  set (C := Sample.failing Sample.refused).
  set (w := initial (Sample.config "default")).
  assert (Hd : is_data (defaultConfig w) w) by (eexists; reflexivity).
  assert (Hs : generateModelsStart C Sample.mongoose w
               = (Ok (Throw (Error Sample.refused)),
                  snd (generateModelsStart C Sample.mongoose w)))
    by (vm_compute; reflexivity).
  destruct (pregeneration_flag_outlives_failure C Sample.mongoose Sample.server Sample.bare w _ _
              Hd Hd Hs) as (_ & E & F & _ & B & _).
  split.
  - rewrite E. exact F.
  - unfold bindM, tryCatch. rewrite E. unfold ret. rewrite B. vm_compute. reflexivity.
Defined.

(** C1, as the code has it.  [generateModels] builds the schemas once and
    sets the flag; every [register] after it, on whatever server, builds
    nothing and keeps the stored schemas, so [generateModels] followed by
    [register] (once or more) shows exactly one build.  [register] does not
    set the flag: without [generateModels], each registration that gets as
    far as resolving the schemas builds them again, two registrations
    twice. *)
Theorem build_once_after_pregeneration (C : Collaborators) (mongoose : Mongoose)
    (server server' : Server) (first second : Options) (w : World) :
  configured first w ->
  configured second w ->
  is_data (exported_config w) w ->
  let w1 := snd (generateModels C mongoose w) in
  let w2 := snd (register C server first w1) in
  let w3 := snd (register C server' second w2) in
  builds (trace w1) = S (builds (trace w))
  /\ builds (trace w2) = S (builds (trace w))
  /\ builds (trace w3) = S (builds (trace w))
  /\ globalSchemas w2 = globalSchemas w1
  /\ globalSchemas w3 = globalSchemas w1
  /\ (modelsGenerated w = false ->
      returns (registerSetup C server first) w ->
      returns (registerSetup C server' second) (snd (register C server first w)) ->
      builds (trace (snd (register C server first w))) = S (builds (trace w))
      /\ builds (trace (snd (register C server' second
                                 (snd (register C server first w)))))
         = S (S (builds (trace w)))).
Proof.
  intros H1 H2 Hx w1 w2 w3.
  destruct (generateModels_builds C mongoose w (proj1 H1) Hx) as (B1 & F1 & _).
  fold w1 in B1, F1.
  destruct (register_generated C server first w1 F1) as (B2 & G2 & F2).
  fold w2 in B2, G2, F2.
  destruct (register_generated C server' second w2 F2) as (B3 & G3 & F3).
  fold w3 in B3, G3, F3.
  split; [assumption|]. split; [congruence|]. split; [congruence|].
  split; [assumption|]. split; [congruence|].
  intros Hf R1 R2.
  destruct (register_cold C server first w H1 Hf R1) as (Ba & Fa & Da & Ia & _).
  split; [assumption|].
  assert (Hc : configured second (snd (register C server first w))).
  { pose proof (stable_configured (defaultConfig w) second) as St.
    destruct (preserves_register C _ server first St) with (w := w) as (E & D & Cs).
    - now intros w' e.
    - now intros w' v.
    - destruct H2. auto.
    - split; [now rewrite E | assumption]. }
  destruct (register_cold C server' second _ Hc Fa R2) as (Bb & _). lia.
Qed.

Lemma build_once_after_pregeneration_witness :
  builds (trace (snd (register Sample.working Sample.server Sample.bare
                        (snd (generateModels Sample.working Sample.mongoose
                                (initial (Sample.config "default")))))))
  = 1
  /\ builds (trace (snd (register Sample.working Sample.other Sample.bare
                           (snd (register Sample.working Sample.server Sample.bare
                                   (initial (Sample.config "default")))))))
     = 2.
Proof.
  set (w := initial (Sample.config "default")).
  assert (Hd : is_data (defaultConfig w) w) by (eexists; reflexivity).
  assert (Hc : configured Sample.bare w) by (split; [exact Hd | discriminate]).
  destruct (build_once_after_pregeneration Sample.working Sample.mongoose
              Sample.server Sample.other Sample.bare Sample.bare w Hc Hc Hd)
    as (_ & B & _ & _ & _ & T).
  split; [exact B|].
  apply T; [reflexivity | |]; eexists _, _; vm_compute; reflexivity.
Defined.

(** C1 as stated fails for [register] called twice, here on two servers of
    one process: both calls succeed and the build collaborator is invoked
    twice. *)
Lemma register_twice_counterexample :
  fst (register Sample.working Sample.server Sample.bare
         (initial (Sample.config "default"))) = Ok tt
  /\ fst (register Sample.working Sample.other Sample.bare
            (snd (register Sample.working Sample.server Sample.bare
                    (initial (Sample.config "default"))))) = Ok tt
  /\ builds (trace (snd (register Sample.working Sample.other Sample.bare
                           (snd (register Sample.working Sample.server Sample.bare
                                   (initial (Sample.config "default"))))))) = 2.
Proof. vm_compute. repeat split; reflexivity. Qed.

(** On one and the same server the sample host, like hapi, refuses the
    second [dbConnect] method: the second registration throws before it
    resolves the schemas. *)
Example register_twice_same_server :
  fst (register Sample.working Sample.server Sample.bare
         (snd (register Sample.working Sample.server Sample.bare
                 (initial (Sample.config "default")))))
  = Throw (Error "Server method function name already exists: dbConnect")
  /\ builds (trace (snd (register Sample.working Sample.server Sample.bare
                           (snd (register Sample.working Sample.server Sample.bare
                                   (initial (Sample.config "default"))))))) = 1.
Proof. vm_compute. split; reflexivity. Qed.

(** ** Properties of objects and of [extend] *)

Lemma getProperty_setProperty_eq o k v : getProperty (setProperty o k v) k = v.
Proof.
  induction o as [|k' v' r IH]; simpl.
  - now rewrite String.eqb_refl.
  - destruct (String.eqb k' k) eqn:E; simpl; rewrite E; [reflexivity | exact IH].
Qed.

Lemma getProperty_setProperty_ne o k k' v :
  k <> k' -> getProperty (setProperty o k v) k' = getProperty o k'.
Proof.
  intros Hne. induction o as [|k0 v0 r IH]; simpl.
  - destruct (String.eqb k k') eqn:E; [|reflexivity].
    apply String.eqb_eq in E. contradiction.
  - destruct (String.eqb k0 k) eqn:E; simpl.
    + apply String.eqb_eq in E. subst k0.
      destruct (String.eqb k k') eqn:E'; [|reflexivity].
      apply String.eqb_eq in E'. contradiction.
    + now rewrite IH.
Qed.

(** A property the source does not mention keeps its value. *)
Lemma getProperty_extend_obj_other options : forall target k,
  ~ In k (keys options) ->
  getProperty (extend_obj target options) k = getProperty target k.
Proof.
  induction options as [|name copy rest IH]; intros target k Hk; simpl; [reflexivity|].
  simpl in Hk. rewrite IH by tauto.
  assert (name <> k) by tauto.
  destruct copy; try reflexivity; now apply getProperty_setProperty_ne.
Qed.

(** A property the source defines with such a value takes it. *)
Lemma getProperty_extend_obj_set options : forall target k v,
  List.NoDup (keys options) ->
  In k (keys options) ->
  getProperty options k = v ->
  copied v ->
  getProperty (extend_obj target options) k = v.
Proof.
  induction options as [|name copy rest IH]; intros target k v Hnd Hin Hv Hc; simpl in *.
  - contradiction.
  - inversion Hnd as [|? ? Hnotin Hnd']; subst.
    destruct (String.eqb name k) eqn:E.
    + apply String.eqb_eq in E. subst name.
      rewrite getProperty_extend_obj_other by assumption.
      destruct copy; simpl in Hc; try contradiction; apply getProperty_setProperty_eq.
    + destruct Hin as [->|Hin]; [rewrite String.eqb_refl in E; discriminate|].
      now apply IH.
Qed.

Lemma resolveDbConfig_default dbConfig defaultDbConfig :
  resolveDbConfig dbConfig
    match defaultDbConfig with VUndef => literal [] | _ => defaultDbConfig end
  = resolveDbConfig dbConfig defaultDbConfig.
Proof. now destruct defaultDbConfig. Qed.



(** ** Connecting *)

Lemma fresh_unused (h : gmap loc Obj) : h !! fresh (dom h) = None.
Proof. apply not_elem_of_dom. apply is_fresh. Qed.

Lemma alloc_eq o w :
  alloc o w = (Ok (fresh (dom (heap w))),
               set_heap (<[fresh (dom (heap w)) := o]> (heap w)) w).
Proof. reflexivity. Qed.

Lemma preserves_holds_alloc l o o' : preserves (holds l o) (alloc o').
Proof.
  intros w Hw. unfold holds, alloc in *. simpl.
  rewrite lookup_insert_ne; [assumption|].
  intros E. rewrite <- E, fresh_unused in Hw. discriminate.
Qed.

Lemma preserves_holds_emit l o e : preserves (holds l o) (emit e).
Proof. now intros w Hw. Qed.


Lemma preserves_holds_callCreateConnection (C : Collaborators) l o mongoose uri options :
  preserves (holds l o) (callCreateConnection C mongoose uri options).
Proof.
  unfold callCreateConnection.
  apply preserves_bind; [apply preserves_holds_emit | intros _].
  apply preserves_bind; [apply preserves_gets | intros t].
  destruct (createConnection C t _ _ _); [apply preserves_throw | apply preserves_holds_alloc].
Qed.


(** [dbConnect] with a caller's configuration that has a [mongo] object:
    the merge result is written to that object, then used to connect. *)
Lemma dbConnect_eq (C : Collaborators) options Log override request w c cfg kind db :
  opt_config options = Some c ->
  heap w !! c = Some (OData cfg) ->
  getProperty cfg "mongo" = VObj kind db ->
  dbConnect C options Log override request w =
  mongooseInit C (opt_mongoose options) Log (VObj kind (resolveDbConfig db override)) request
    (set_heap (<[c := OData (setProperty cfg "mongo"
                               (VObj kind (resolveDbConfig db override)))]> (heap w)) w).
Proof.
  intros Ho Hc Hm. unfold dbConnect. rewrite Ho.
  rewrite (bindM_ok _ _ _ _ _ (readData_eq _ _ _ Hc)). rewrite Hm.
  rewrite resolveDbConfig_default. reflexivity.
Qed.





(** [mongooseInit] when the name has no live connection yet and the driver
    connects: a handle and a stored connection are made, in that order, and
    the handle is returned. *)
Lemma mongooseInit_new (C : Collaborators) mongoose logger config request w
    conns env lg opts name uri :
  heap w !! request = Some (ORequest conns env lg) ->
  member config "options" = Ok opts ->
  member config "name" = Ok name ->
  member config "URI" = Ok uri ->
  liveIn (heap w) (conns !! toStr name) = None ->
  let t1 := trace w ++ [connecting logger config;
                        EvCreateConnection mongoose uri (driverOptions opts)] in
  createConnection C t1 mongoose uri (driverOptions opts) = None ->
  let h := fresh (dom (heap w)) in
  let heap1 := <[h := OHandle mongoose uri (driverOptions opts)]> (heap w) in
  let e := fresh (dom heap1) in
  mongooseInit C mongoose logger config request w =
  (Ok h,
   set_trace (t1 ++ [EvLog LLog (bind logger (VStr "mongoose-init")) "mongoose connected"])
     (set_globals_mongoose mongoose
        (set_heap (<[request := ORequest (<[toStr name := e]> conns) env lg]>
                     (<[e := OConnection name ∅ (Some h)]> heap1)) w))).
Proof.
  intros Hr Ho Hn Hu Hl t1 Hc h heap1 e.
  assert (Hrh : request <> h).
  { intros E. subst h. rewrite E, fresh_unused in Hr. discriminate. }
  assert (Hre : request <> e).
  { intros E. pose proof (fresh_unused heap1) as F. fold e in F. rewrite <- E in F.
    unfold heap1 in F. rewrite lookup_insert_ne in F by congruence. congruence. }
  set (w0 := set_trace (trace w ++ [connecting logger config]) w).
  set (w1 := set_heap heap1 (set_trace t1 w0)).
  set (w2 := set_heap (<[e := OConnection name ∅ (Some h)]> heap1) w1).
  assert (Hcall : callCreateConnection C mongoose uri (driverOptions opts) w0 = (Ok h, w1)).
  { unfold callCreateConnection, bindM, emit, modify, gets. simpl.
    rewrite <- app_assoc. simpl. fold t1. now rewrite Hc. }
  assert (Hw : writeConnection request (toStr name) e w2 =
               (Ok tt, set_heap (<[request := ORequest (<[toStr name := e]> conns) env lg]>
                                   (heap w2)) w2)).
  { unfold writeConnection. simpl. rewrite lookup_insert_ne by congruence.
    unfold heap1. rewrite lookup_insert_ne by congruence. now rewrite Hr. }
  unfold mongooseInit.
  rewrite (bindM_ok _ _ w tt w0) by reflexivity.
  rewrite (bindM_ok _ _ w0 opts w0) by (unfold liftRes; now rewrite Ho).
  rewrite (bindM_ok _ _ w0 conns w0) by (now apply readConnections_eq with (env := env) (lg := lg)).
  rewrite (bindM_ok _ _ w0 name w0) by (unfold liftRes; now rewrite Hn).
  rewrite (bindM_ok _ _ w0 None w0) by (unfold live, gets; simpl; now rewrite Hl).
  rewrite (bindM_ok _ _ w0 uri w0) by (unfold liftRes; now rewrite Hu).
  rewrite (bindM_ok _ _ _ _ _ Hcall).
  rewrite (bindM_ok _ _ w1 e w2) by reflexivity.
  rewrite (bindM_ok _ _ _ _ _ Hw).
  unfold bindM, modify, emit, ret. simpl. unfold t1. rewrite <- !app_assoc. reflexivity.
Qed.

(** [mongooseInit] when the name has a live connection: one warning, and
    the stored connection is returned; nothing else changes. *)
Lemma mongooseInit_existing (C : Collaborators) mongoose logger config request w
    conns env lg opts name e :
  heap w !! request = Some (ORequest conns env lg) ->
  member config "options" = Ok opts ->
  member config "name" = Ok name ->
  liveIn (heap w) (conns !! toStr name) = Some e ->
  mongooseInit C mongoose logger config request w =
  (Ok e, set_trace (trace w ++ [connecting logger config; alreadyExists C logger name]) w).
Proof.
  intros Hr Ho Hn Hl.
  set (w0 := set_trace (trace w ++ [connecting logger config]) w).
  unfold mongooseInit.
  rewrite (bindM_ok _ _ w tt w0) by reflexivity.
  rewrite (bindM_ok _ _ w0 opts w0) by (unfold liftRes; now rewrite Ho).
  rewrite (bindM_ok _ _ w0 conns w0) by (now apply readConnections_eq with (env := env) (lg := lg)).
  rewrite (bindM_ok _ _ w0 name w0) by (unfold liftRes; now rewrite Hn).
  rewrite (bindM_ok _ _ w0 (Some e) w0) by (unfold live, gets; simpl; now rewrite Hl).
  unfold bindM, emit, modify, ret. simpl. rewrite <- app_assoc. reflexivity.
Qed.

Lemma warnings_app t1 t2 : warnings (t1 ++ t2) = warnings t1 + warnings t2.
Proof. unfold warnings. now rewrite List.filter_app, length_app. Qed.

(** C2, what the code does.  The first [connect] for a name makes a handle
    and stores a connection object holding it, and returns the handle; a
    second [connect] resolving to the same name logs one warning, leaves
    the stored connection in place and returns that connection object,
    which is another object than the handle the first call returned. *)
Theorem connect_again_returns_the_stored_connection (C : Collaborators)
    (mongoose : Mongoose) (logger : Logger) (config config' : JsVal) (request : loc)
    (w : World) conns env lg opts opts' name name' uri :
  heap w !! request = Some (ORequest conns env lg) ->
  member config "options" = Ok opts ->
  member config "name" = Ok name ->
  member config "URI" = Ok uri ->
  liveIn (heap w) (conns !! toStr name) = None ->
  createConnection C
    (trace w ++ [connecting logger config;
                 EvCreateConnection mongoose uri (driverOptions opts)])
    mongoose uri (driverOptions opts) = None ->
  member config' "options" = Ok opts' ->
  member config' "name" = Ok name' ->
  toStr name' = toStr name ->
  let w1 := snd (mongooseInit C mongoose logger config request w) in
  exists h e,
    fst (mongooseInit C mongoose logger config request w) = Ok h
    /\ mongooseInit C mongoose logger config' request w1 =
       (Ok e, set_trace (trace w1 ++ [connecting logger config';
                                      alreadyExists C logger name']) w1)
    /\ e <> h
    /\ heap w1 !! e = Some (OConnection name ∅ (Some h))
    /\ heap w1 !! request = Some (ORequest (<[toStr name := e]> conns) env lg)
    /\ warnings (trace w1) = warnings (trace w)
    /\ warnings (trace w1 ++ [connecting logger config'; alreadyExists C logger name'])
       = S (warnings (trace w)).
Proof.
  intros Hr Ho Hn Hu Hl Hc Ho' Hn' Hk w1.
  pose proof (mongooseInit_new C mongoose logger config request w conns env lg opts name uri
                Hr Ho Hn Hu Hl Hc) as E.
  cbv zeta in E.
  set (h := fresh (dom (heap w))) in *.
  set (heap1 := <[h := OHandle mongoose uri (driverOptions opts)]> (heap w)) in *.
  set (e := fresh (dom heap1)) in *.
  assert (Heh : e <> h).
  { intros X. pose proof (fresh_unused heap1) as F. fold e in F. rewrite X in F.
    unfold heap1 in F. rewrite lookup_insert_eq in F. discriminate. }
  assert (Hre : request <> e).
  { intros X. pose proof (fresh_unused heap1) as F. fold e in F. rewrite <- X in F.
    unfold heap1 in F.
    destruct (decide (h = request)) as [->|Hne].
    - rewrite lookup_insert_eq in F. discriminate.
    - rewrite lookup_insert_ne in F by assumption. congruence. }
  assert (H1 : heap w1 !! request = Some (ORequest (<[toStr name := e]> conns) env lg)).
  { unfold w1. rewrite E. simpl. apply lookup_insert_eq. }
  assert (H2 : heap w1 !! e = Some (OConnection name ∅ (Some h))).
  { unfold w1. rewrite E. simpl. rewrite lookup_insert_ne by assumption.
    apply lookup_insert_eq. }
  assert (Hw : warnings (trace w1) = warnings (trace w)).
  { unfold w1. rewrite E. simpl. rewrite !warnings_app. simpl. unfold warnings. simpl. lia. }
  exists h, e.
  split; [now rewrite E|]. split.
  - apply (mongooseInit_existing C mongoose logger config' request w1 _ env lg opts' name' e
             H1 Ho' Hn').
    rewrite Hk, lookup_insert_eq. unfold liveIn. now rewrite H2.
  - split; [assumption|]. split; [assumption|]. split; [assumption|].
    split; [assumption|]. rewrite warnings_app, Hw. unfold warnings at 2. simpl. lia.
Qed.

Lemma connect_again_returns_the_stored_connection_witness :
  fst (request_connect Sample.working 3%positive VUndef (Sample.idle "default"))
  = Ok 4%positive
  /\ fst (request_connect Sample.working 3%positive VUndef
            (snd (request_connect Sample.working 3%positive VUndef (Sample.idle "default"))))
     = Ok 5%positive
  /\ heap (snd (request_connect Sample.working 3%positive VUndef (Sample.idle "default")))
       !! 5%positive
     = Some (OConnection (VStr "default") ∅ (Some 4%positive)).
Proof.
  set (w := Sample.idle "default").
  set (o := Sample.options 2%positive).
  set (config := VObj Plain (resolveDbConfig (obj_of_list [("URI", VStr "mem://test")]) VUndef)).
  assert (Hc : heap w !! (2%positive : loc) = Some (OData Sample.userConfig))
    by (vm_compute; reflexivity).
  assert (Hr : heap w !! (3%positive : loc) = Some (ORequest ∅ o Sample.api))
    by (vm_compute; reflexivity).
  assert (E1 : request_connect Sample.working 3%positive VUndef w =
               mongooseInit Sample.working Sample.mongoose Sample.api config 3%positive
                 (set_heap (<[2%positive := OData (setProperty Sample.userConfig "mongo" config)]>
                              (heap w)) w)).
  { unfold request_connect. rewrite Hr.
    apply (dbConnect_eq Sample.working o Sample.api VUndef 3%positive w 2%positive
             Sample.userConfig Plain _ eq_refl Hc eq_refl). }
  set (w0 := set_heap (<[2%positive := OData (setProperty Sample.userConfig "mongo" config)]>
                         (heap w)) w) in *.
  assert (Hr0 : heap w0 !! (3%positive : loc) = Some (ORequest ∅ o Sample.api))
    by (vm_compute; reflexivity).
  destruct (connect_again_returns_the_stored_connection Sample.working Sample.mongoose
              Sample.api config config 3%positive w0 ∅ o Sample.api VUndef VUndef
              (VStr "default") (VStr "default") (VStr "mem://test")
              Hr0 eq_refl eq_refl eq_refl eq_refl eq_refl eq_refl eq_refl eq_refl)
    as (h & e & F1 & F2 & Hne & F3 & _).
  rewrite E1. vm_compute. repeat split; reflexivity.
Defined.

(** ** Resolving models *)

Lemma getConnection_resolves name request w dflt c cname models h :
  Resolves w request dflt (connectionKey dflt name) c cname models h ->
  getConnection name request w = (Ok c, w).
Proof.
  intros [(cfg & Hc & Hd) (conns & env & lg & Hr & Hk) Hcon].
  rewrite (getConnection_eq name request w _ _ _ _ _ Hr Hc Hd).
  unfold connectionKey in Hk. cbv zeta in *.
  destruct (strictEq _ dflt); rewrite Hk; unfold liveIn; now rewrite Hcon.
Qed.

Lemma set_heap_same w : set_heap (heap w) w = w.
Proof. now destruct w. Qed.

(** What a plain object inherits is not lost, and a call to the driver
    does not add to it. *)
Lemma inherits_app t es name :
  inherits t name = true -> inherits (t ++ es) name = true.
Proof.
  unfold inherits. rewrite existsb_app.
  destruct (existsb (String.eqb name) objectPrototype); [reflexivity|]. simpl.
  destruct (String.eqb name "with"); [|discriminate]. simpl. now intros ->.
Qed.

Lemma inherits_modelCall t h name' schema name :
  inherits (t ++ [modelCall h name' schema]) name = inherits t name.
Proof.
  unfold inherits, modelCall. rewrite existsb_app.
  cbn [existsb extendsPrototype]. now rewrite orb_false_r.
Qed.

Lemma assigned_last t member f :
  assigned (t ++ [EvAssignWith member f]) member = Some f.
Proof.
  unfold assigned. rewrite fold_left_app. simpl. now rewrite String.eqb_refl.
Qed.

(** [spawnModel] with the model in the cache. *)
Lemma spawnModel_cached (C : Collaborators) name cn request w dflt c cname models h m :
  Resolves w request dflt (connectionKey dflt cn) c cname models h ->
  models !! name = Some m ->
  spawnModel C name cn request w = (Ok (Bound m), w).
Proof.
  intros R Hm. unfold spawnModel.
  rewrite (bindM_ok _ _ _ _ _ (getConnection_resolves cn request w dflt c cname models h R)).
  unfold bindM, readConnection. rewrite (res_connection _ _ _ _ _ _ _ _ R).
  now rewrite Hm.
Qed.

(** [spawnModel] for a name the cache does not hold but inherits: the
    inherited member is returned, and nothing else happens. *)
Lemma spawnModel_inherited (C : Collaborators) name cn request w dflt c cname models h :
  Resolves w request dflt (connectionKey dflt cn) c cname models h ->
  models !! name = None ->
  inherits (trace w) name = true ->
  spawnModel C name cn request w = (Ok (Inherited name), w).
Proof.
  intros R Hm Hi. unfold spawnModel.
  rewrite (bindM_ok _ _ _ _ _ (getConnection_resolves cn request w dflt c cname models h R)).
  unfold bindM at 1, readConnection. rewrite (res_connection _ _ _ _ _ _ _ _ R).
  rewrite Hm. unfold bindM, gets. now rewrite Hi.
Qed.

(** [spawnModel] without it, the schema being registered and the driver
    willing: one model is made and cached. *)
Lemma spawnModel_new (C : Collaborators) name cn request w dflt c cname models h
    entry schema :
  Resolves w request dflt (connectionKey dflt cn) c cname models h ->
  models !! name = None ->
  inherits (trace w) name = false ->
  member (globalSchemas w) name = Ok entry ->
  member entry "Schema" = Ok schema ->
  connectionModel C (trace w ++ [modelCall h name schema]) h name schema name = None ->
  let m := fresh (dom (heap w)) in
  spawnModel C name cn request w =
  (Ok (Bound m),
   set_heap (<[c := OConnection cname (<[name := m]> models) (Some h)]>
               (<[m := OModel name schema name h None]> (heap w)))
            (set_trace (trace w ++ [modelCall h name schema]) w)).
Proof.
  intros R Hm Hi He Hs Hd m. unfold spawnModel.
  rewrite (bindM_ok _ _ _ _ _ (getConnection_resolves cn request w dflt c cname models h R)).
  unfold bindM at 1, readConnection. rewrite (res_connection _ _ _ _ _ _ _ _ R).
  rewrite Hm.
  unfold bindM at 1, gets. rewrite Hi.
  unfold bindM at 1. unfold bindM at 1, liftRes. rewrite He.
  unfold bindM at 1. rewrite Hs.
  unfold callModel, bindM, emit, modify, gets, alloc, store, ret. simpl.
  fold (modelCall h name schema). now rewrite Hd.
Qed.

(** [spawnModel] without it, the schema not being registered: reading the
    schema's construction data throws, and nothing has changed. *)
Lemma spawnModel_absent (C : Collaborators) name cn request w dflt c cname models h :
  Resolves w request dflt (connectionKey dflt cn) c cname models h ->
  models !! name = None ->
  inherits (trace w) name = false ->
  (forall entry, member (globalSchemas w) name = Ok entry -> entry = VUndef \/ entry = VNull) ->
  exists msg, spawnModel C name cn request w = (Throw (TypeError msg), w).
Proof.
  intros R Hm Hi He. unfold spawnModel.
  rewrite (bindM_ok _ _ _ _ _ (getConnection_resolves cn request w dflt c cname models h R)).
  unfold bindM at 1, readConnection. rewrite (res_connection _ _ _ _ _ _ _ _ R).
  rewrite Hm.
  unfold bindM at 1, gets. rewrite Hi.
  unfold bindM at 1. unfold bindM at 1, liftRes.
  destruct (member (globalSchemas w) name) as [entry|e] eqn:E.
  - unfold bindM at 1.
    destruct (He entry eq_refl) as [-> | ->]; simpl; eauto.
  - unfold member in E. destruct (globalSchemas w); try discriminate;
      injection E as <-; eauto.
Qed.

Lemma getModel_default (w : World) dflt cfg (cn : JsVal) :
  heap w !! exported_config w = Some (OData cfg) ->
  member (getProperty cfg "mongo") "defaultConnection" = Ok dflt ->
  match cn with
  | VUndef => d <- defaultConnection ;; ret (Some d)
  | _ => ret None
  end w = (Ok match cn with VUndef => Some dflt | _ => None end, w).
Proof.
  intros Hc Hd.
  destruct cn; try reflexivity.
  unfold bindM. now rewrite (defaultConnection_eq _ _ Hc), Hd.
Qed.

Lemma getModel_unfold (C : Collaborators) name cn request w dflt cfg :
  heap w !! exported_config w = Some (OData cfg) ->
  member (getProperty cfg "mongo") "defaultConnection" = Ok dflt ->
  getModel C name cn request w =
  (model <- spawnModel C name match cn with VUndef => dflt | _ => cn end request ;;
   current <- defaultConnection ;;
   (if match cn with VUndef => true | _ => strictEq cn current end
    then assignWith model (mkWith name request) else ret tt) ;;
   ret model) w.
Proof.
  intros Hc Hd. unfold getModel.
  rewrite (bindM_ok _ _ _ _ _ (getModel_default w dflt cfg cn Hc Hd)).
  now destruct cn.
Qed.

(** [getModel] with a cache entry, whatever object it names: the entry is
    returned, with [with] attached when the connection is the default one;
    attaching fails on an object that is not a model. *)
Lemma getModel_entry (C : Collaborators) name cn request w dflt c cname models h m :
  Resolves w request dflt (modelKey dflt cn) c cname models h ->
  models !! name = Some m ->
  getModel C name cn request w =
  if decorates dflt cn
  then (_ <- assignWith (Bound m) (mkWith name request) ;; ret (Bound m)) w
  else (Ok (Bound m), w).
Proof.
  intros R Hm.
  destruct (res_config _ _ _ _ _ _ _ _ R) as (cfg & Hc & Hd).
  rewrite (getModel_unfold C name cn request w dflt cfg Hc Hd).
  rewrite (bindM_ok _ _ _ _ _ (spawnModel_cached C name _ request w dflt c cname models h m R Hm)).
  unfold bindM at 1. rewrite (defaultConnection_eq _ _ Hc), Hd.
  fold (decorates dflt cn).
  now destruct (decorates dflt cn).
Qed.

(** [getModel] with the model in the cache: the cached model is returned,
    with [with] attached when the connection is the default one. *)
Lemma getModel_cached (C : Collaborators) name cn request w dflt c cname models h m
    n s col db wi :
  Resolves w request dflt (modelKey dflt cn) c cname models h ->
  models !! name = Some m ->
  heap w !! m = Some (OModel n s col db wi) ->
  getModel C name cn request w =
  (Ok (Bound m),
   if decorates dflt cn
   then set_heap (<[m := OModel n s col db (Some (mkWith name request))]> (heap w)) w
   else w).
Proof.
  intros R Hm Hobj.
  rewrite (getModel_entry C name cn request w dflt c cname models h m R Hm).
  destruct (decorates dflt cn); [|reflexivity].
  unfold bindM, assignWith, ret. now rewrite Hobj.
Qed.

(** [getModel] for a name the cache does not hold but inherits: the
    inherited member is returned, and [with] is written to it when the
    connection is the default one.  The driver is not called, the registry
    is not read, and nothing is cached. *)
Lemma getModel_inherited (C : Collaborators) name cn request w dflt c cname models h :
  Resolves w request dflt (modelKey dflt cn) c cname models h ->
  models !! name = None ->
  inherits (trace w) name = true ->
  getModel C name cn request w =
  (Ok (Inherited name),
   if decorates dflt cn
   then set_trace (trace w ++ [EvAssignWith name (mkWith name request)]) w
   else w).
Proof.
  intros R Hm Hi.
  destruct (res_config _ _ _ _ _ _ _ _ R) as (cfg & Hc & Hd).
  rewrite (getModel_unfold C name cn request w dflt cfg Hc Hd).
  rewrite (bindM_ok _ _ _ _ _
             (spawnModel_inherited C name _ request w dflt c cname models h R Hm Hi)).
  unfold bindM at 1. rewrite (defaultConnection_eq _ _ Hc), Hd.
  fold (decorates dflt cn).
  now destruct (decorates dflt cn).
Qed.

(** [getModel] for a registered schema not yet in the cache. *)
Lemma getModel_new (C : Collaborators) name cn request w dflt c cname models h
    entry schema :
  Resolves w request dflt (modelKey dflt cn) c cname models h ->
  models !! name = None ->
  inherits (trace w) name = false ->
  member (globalSchemas w) name = Ok entry ->
  member entry "Schema" = Ok schema ->
  connectionModel C (trace w ++ [modelCall h name schema]) h name schema name = None ->
  let m := fresh (dom (heap w)) in
  getModel C name cn request w =
  (Ok (Bound m),
   set_heap (<[m := OModel name schema name h
                       (if decorates dflt cn then Some (mkWith name request) else None)]>
               (<[c := OConnection cname (<[name := m]> models) (Some h)]> (heap w)))
            (set_trace (trace w ++ [modelCall h name schema]) w)).
Proof.
  intros R Hm Hi He Hs Hdrv m.
  destruct (res_config _ _ _ _ _ _ _ _ R) as (cfg & Hc & Hd).
  pose proof (res_connection _ _ _ _ _ _ _ _ R) as Hcon.
  assert (Hmc : m <> c).
  { intros X. pose proof (fresh_unused (heap w)) as F. fold m in F. congruence. }
  assert (Hmx : m <> exported_config w).
  { intros X. pose proof (fresh_unused (heap w)) as F. fold m in F. congruence. }
  assert (Hcx : c <> exported_config w) by congruence.
  rewrite (getModel_unfold C name cn request w dflt cfg Hc Hd).
  rewrite (bindM_ok _ _ _ _ _
             (spawnModel_new C name _ request w dflt c cname models h entry schema
                R Hm Hi He Hs Hdrv)).
  fold m.
  set (w1 := set_heap _ _).
  assert (Hc1 : heap w1 !! exported_config w1 = Some (OData cfg)).
  { unfold w1. simpl. rewrite !lookup_insert_ne by congruence. exact Hc. }
  unfold bindM at 1. rewrite (defaultConnection_eq _ _ Hc1), Hd.
  fold (decorates dflt cn).
  destruct (decorates dflt cn).
  - unfold bindM, assignWith, ret.
    assert (Hm1 : heap w1 !! m = Some (OModel name schema name h None)).
    { unfold w1. simpl. rewrite lookup_insert_ne by congruence. apply lookup_insert_eq. }
    rewrite Hm1. unfold w1, set_heap, set_trace. simpl. f_equal. f_equal.
    rewrite (insert_insert_ne _ m c) by assumption.
    rewrite insert_insert_eq. apply insert_insert_ne. congruence.
  - unfold bindM, ret. unfold w1, set_heap, set_trace. simpl. f_equal. f_equal.
    apply insert_insert_ne. congruence.
Qed.

(** [getModel] for a schema that is not registered, not in the cache and
    not inherited by it. *)
Lemma getModel_absent (C : Collaborators) name cn request w dflt c cname models h :
  Resolves w request dflt (modelKey dflt cn) c cname models h ->
  models !! name = None ->
  inherits (trace w) name = false ->
  (forall entry, member (globalSchemas w) name = Ok entry -> entry = VUndef \/ entry = VNull) ->
  exists msg, getModel C name cn request w = (Throw (TypeError msg), w).
Proof.
  intros R Hm Hi He.
  destruct (res_config _ _ _ _ _ _ _ _ R) as (cfg & Hc & Hd).
  destruct (spawnModel_absent C name _ request w dflt c cname models h R Hm Hi He) as [msg E].
  exists msg. rewrite (getModel_unfold C name cn request w dflt cfg Hc Hd).
  now rewrite (bindM_throw _ _ _ _ _ E).
Qed.

Lemma Resolves_update w w' request dflt key c cname models models' h :
  Resolves w request dflt key c cname models h ->
  exported_config w' = exported_config w ->
  heap w' !! exported_config w = heap w !! exported_config w ->
  heap w' !! request = heap w !! request ->
  heap w' !! c = Some (OConnection cname models' (Some h)) ->
  Resolves w' request dflt key c cname models' h.
Proof.
  intros [(cfg & Hc & Hd) (conns & env & lg & Hr & Hk) Hcon] Ex Hx Hq Hc'.
  split.
  - exists cfg. rewrite Ex, Hx. auto.
  - exists conns, env, lg. rewrite Hq. auto.
  - exact Hc'.
Qed.

(** The resolution does not depend on the calls made or on the registry. *)
Lemma Resolves_trace w t request dflt key c cname models h :
  Resolves w request dflt key c cname models h ->
  Resolves (set_trace t w) request dflt key c cname models h.
Proof. intros [H1 H2 H3]. split; [exact H1 | exact H2 | exact H3]. Qed.

Lemma Resolves_schemas w v request dflt key c cname models h :
  Resolves w request dflt key c cname models h ->
  Resolves (set_globalSchemas v w) request dflt key c cname models h.
Proof. intros [H1 H2 H3]. split; [exact H1 | exact H2 | exact H3]. Qed.

(** Attaching [with] to a cached model keeps the resolution. *)
Lemma Resolves_decorated w request dflt key c cname models h m n s col db wi wi' :
  Resolves w request dflt key c cname models h ->
  heap w !! m = Some (OModel n s col db wi) ->
  Resolves (set_heap (<[m := OModel n s col db wi']> (heap w)) w)
           request dflt key c cname models h.
Proof.
  intros R Hm.
  destruct (res_config _ _ _ _ _ _ _ _ R) as (cfg & Hc & Hd).
  destruct (res_request _ _ _ _ _ _ _ _ R) as (conns & env & lg & Hr & Hk).
  pose proof (res_connection _ _ _ _ _ _ _ _ R) as Hcon.
  apply (Resolves_update w _ request dflt key c cname models models h R); simpl.
  - reflexivity.
  - apply lookup_insert_ne. congruence.
  - apply lookup_insert_ne. congruence.
  - rewrite lookup_insert_ne by congruence. exact Hcon.
Qed.

(** A second [getModel] for a cached model whose [with] is already what
    [getModel] would attach changes nothing. *)
Lemma getModel_settled (C : Collaborators) name cn request w dflt c cname models h m
    n s col db wi :
  Resolves w request dflt (modelKey dflt cn) c cname models h ->
  models !! name = Some m ->
  heap w !! m = Some (OModel n s col db wi) ->
  (decorates dflt cn = true -> wi = Some (mkWith name request)) ->
  getModel C name cn request w = (Ok (Bound m), w).
Proof.
  intros R Hm Hobj Hwi.
  rewrite (getModel_cached C name cn request w dflt c cname models h m n s col db wi R Hm Hobj).
  destruct (decorates dflt cn); [|reflexivity].
  rewrite <- Hwi by reflexivity. rewrite (insert_id _ _ _ Hobj).
  now rewrite set_heap_same.
Qed.

(** C6.  For a schema in the registry and a live connection, [getModel]
    returns a model, and called again it returns the same model object and
    changes nothing: the model is made at the first access, at most once,
    and kept in the model cache of that connection.  This holds for every
    name but those the cache, a plain object, inherits from
    [Object.prototype] ([constructor], [toString], ...): for such a name,
    unless the cache holds it itself, both calls return the inherited
    member, the driver is not called and nothing is cached. *)
Theorem getModel_twice_same_model (C : Collaborators) (name : string)
    (connectionName : JsVal) (request : loc) (w : World)
    dflt c cname models h entry schema :
  Resolves w request dflt (modelKey dflt connectionName) c cname models h ->
  member (globalSchemas w) name = Ok entry ->
  member entry "Schema" = Ok schema ->
  connectionModel C (trace w ++ [modelCall h name schema]) h name schema name = None ->
  caches_model w models name ->
  (inherits (trace w) name = false ->
   exists m w1 models1,
     getModel C name connectionName request w = (Ok (Bound m), w1)
     /\ getModel C name connectionName request w1 = (Ok (Bound m), w1)
     /\ heap w1 !! c = Some (OConnection cname models1 (Some h))
     /\ models1 !! name = Some m
     /\ (forall m', models !! name = Some m' -> m' = m /\ trace w1 = trace w)
     /\ (models !! name = None ->
         heap w !! m = None /\ trace w1 = trace w ++ [modelCall h name schema]))
  /\ (inherits (trace w) name = true ->
      models !! name = None ->
      exists w1,
        getModel C name connectionName request w = (Ok (Inherited name), w1)
        /\ fst (getModel C name connectionName request w1) = Ok (Inherited name)
        /\ heap w1 = heap w
        /\ trace w1 = trace w ++ (if decorates dflt connectionName
                                  then [EvAssignWith name (mkWith name request)]
                                  else [])).
Proof.
  intros R He Hs Hdrv Hcache.
  destruct (res_config _ _ _ _ _ _ _ _ R) as (cfg & Hc & Hd).
  destruct (res_request _ _ _ _ _ _ _ _ R) as (conns & env & lg & Hr & Hk).
  pose proof (res_connection _ _ _ _ _ _ _ _ R) as Hcon.
  split.
  - intros Hi.
    destruct (models !! name) as [m|] eqn:Hm.
    + destruct (Hcache m Hm) as (n & s & col & db & wi & Hobj).
      pose proof (getModel_cached C name connectionName request w dflt c cname models h m
                    n s col db wi R Hm Hobj) as E1.
      destruct (decorates dflt connectionName) eqn:Hdec.
      * set (w1 := set_heap _ w) in E1.
        exists m, w1, models. split; [exact E1|]. split.
        -- apply (getModel_settled C name connectionName request w1 dflt c cname models h m
                   n s col db (Some (mkWith name request))).
           ++ now apply Resolves_decorated with (wi := wi).
           ++ exact Hm.
           ++ unfold w1. simpl. apply lookup_insert_eq.
           ++ reflexivity.
        -- split; [unfold w1; simpl; rewrite lookup_insert_ne by congruence; exact Hcon|].
           split; [exact Hm|]. split; [|discriminate].
           intros m' Hm'. injection Hm' as <-. auto.
      * exists m, w, models. split; [exact E1|]. split.
        -- apply (getModel_settled C name connectionName request w dflt c cname models h m
                   n s col db wi R Hm Hobj). rewrite Hdec. discriminate.
        -- split; [exact Hcon|]. split; [exact Hm|]. split; [|discriminate].
           intros m' Hm'. injection Hm' as <-. auto.
    + pose proof (getModel_new C name connectionName request w dflt c cname models h
                    entry schema R Hm Hi He Hs Hdrv) as E1.
      cbv zeta in E1. set (m := fresh (dom (heap w))) in *.
      set (w1 := set_heap _ _) in E1.
      assert (Hmc : m <> c).
      { intros X. pose proof (fresh_unused (heap w)) as F. fold m in F. congruence. }
      assert (Hmx : m <> exported_config w).
      { intros X. pose proof (fresh_unused (heap w)) as F. fold m in F. congruence. }
      assert (Hmr : m <> request).
      { intros X. pose proof (fresh_unused (heap w)) as F. fold m in F. congruence. }
      assert (Hc1 : heap w1 !! c = Some (OConnection cname (<[name := m]> models) (Some h))).
      { unfold w1. simpl. rewrite lookup_insert_ne by assumption. apply lookup_insert_eq. }
      exists m, w1, (<[name := m]> models).
      split; [exact E1|]. split.
      * eapply (getModel_settled C name connectionName request w1 dflt c cname
                 (<[name := m]> models) h m).
        -- apply (Resolves_update w w1 request dflt _ c cname models _ h R).
           ++ reflexivity.
           ++ unfold w1. simpl. rewrite !lookup_insert_ne by congruence. reflexivity.
           ++ unfold w1. simpl. rewrite !lookup_insert_ne by congruence. reflexivity.
           ++ exact Hc1.
        -- apply lookup_insert_eq.
        -- unfold w1. simpl. apply lookup_insert_eq.
        -- intros ->. reflexivity.
      * split; [exact Hc1|]. split; [apply lookup_insert_eq|]. split; [discriminate|].
        intros _. split; [apply fresh_unused | reflexivity].
  - intros Hi Hm.
    pose proof (getModel_inherited C name connectionName request w dflt c cname models h
                  R Hm Hi) as E1.
    eexists. split; [exact E1|].
    destruct (decorates dflt connectionName) eqn:Hdec.
    + split.
      * rewrite (getModel_inherited C name connectionName request _ dflt c cname models h
                   (Resolves_trace _ _ _ _ _ _ _ _ _ R) Hm (inherits_app _ _ _ Hi)).
        reflexivity.
      * split; reflexivity.
    + split.
      * now rewrite E1.
      * split; [reflexivity | now rewrite app_nil_r].
Qed.

Lemma Sample_busy_resolves :
  Resolves (Sample.busy "default" "default") 3%positive (VStr "default") "default"
           5%positive (VStr "default") ∅ 4%positive.
Proof.
  split.
  - eexists. split; vm_compute; reflexivity.
  - exists {[ "default" := 5%positive ]}, (Sample.options 2%positive), Sample.api.
    split; vm_compute; reflexivity.
  - vm_compute. reflexivity.
Qed.

Lemma Sample_two_resolves key c h :
  (key = "default" /\ c = 5%positive /\ h = 4%positive)
  \/ (key = "replica" /\ c = 7%positive /\ h = 6%positive) ->
  Resolves Sample.two 3%positive (VStr "default") key c (VStr key) ∅ h.
Proof.
  intros [(-> & -> & ->) | (-> & -> & ->)].
  - split.
    + eexists. split; vm_compute; reflexivity.
    + exists {[ "default" := 5%positive; "replica" := 7%positive ]},
             (Sample.options 2%positive), Sample.api.
      split; vm_compute; reflexivity.
    + vm_compute. reflexivity.
  - split.
    + eexists. split; vm_compute; reflexivity.
    + exists {[ "default" := 5%positive; "replica" := 7%positive ]},
             (Sample.options 2%positive), Sample.api.
      split; vm_compute; reflexivity.
    + vm_compute. reflexivity.
Qed.

Lemma Sample_two_registry :
  member (globalSchemas Sample.two) "A"
  = Ok (literal [("Schema", literal [("fields", VStr "a")])]).
Proof. vm_compute. reflexivity. Qed.

Lemma caches_model_empty w name : caches_model w ∅ name.
Proof. intros m Hm. rewrite lookup_empty in Hm. discriminate. Qed.

Lemma getModel_twice_same_model_witness :
  (getModel Sample.working "A" VUndef 3%positive
     (snd (getModel Sample.working "A" VUndef 3%positive (Sample.busy "default" "default")))
   = (Ok (Bound 6%positive),
      snd (getModel Sample.working "A" VUndef 3%positive (Sample.busy "default" "default"))))
  /\ (exists w1,
         getModel Sample.working "constructor" VUndef 3%positive Sample.clash
         = (Ok (Inherited "constructor"), w1)
         /\ fst (getModel Sample.working "constructor" VUndef 3%positive w1)
            = Ok (Inherited "constructor")
         /\ heap w1 = heap Sample.clash
         /\ trace w1 = trace Sample.clash
                       ++ [EvAssignWith "constructor" (mkWith "constructor" 3%positive)]).
Proof.
  split.
  - destruct (getModel_twice_same_model Sample.working "A" VUndef 3%positive
                (Sample.busy "default" "default") (VStr "default") 5%positive (VStr "default")
                ∅ 4%positive
                (literal [("Schema", literal [("fields", VStr "a")])])
                (literal [("fields", VStr "a")])
                Sample_busy_resolves eq_refl eq_refl eq_refl (caches_model_empty _ _))
      as [A _].
    destruct (A eq_refl) as (m & w1 & models1 & E1 & E2 & _).
    rewrite E1. simpl. rewrite E2.
    assert (Hm : Ok (Bound m) = Ok (Bound 6%positive)).
    { transitivity (fst (getModel Sample.working "A" VUndef 3%positive
                           (Sample.busy "default" "default"))).
      - now rewrite E1.
      - vm_compute. reflexivity. }
    injection Hm as ->. reflexivity.
  - destruct (getModel_twice_same_model Sample.working "constructor" VUndef 3%positive
                Sample.clash (VStr "default") 5%positive (VStr "default")
                ∅ 4%positive
                (literal [("Schema", literal [("fields", VStr "c")])])
                (literal [("fields", VStr "c")])
                (Resolves_schemas _ _ _ _ _ _ _ _ _
                   (Sample_two_resolves "default" 5%positive 4%positive
                      (or_introl (conj eq_refl (conj eq_refl eq_refl)))))
                eq_refl eq_refl eq_refl (caches_model_empty _ _))
      as [_ B].
    exact (B eq_refl eq_refl).
Defined.

(** A schema named like a member of [Object.prototype]: [getModel] returns
    the inherited member; the driver is not asked and the cache of the
    connection stays empty. *)
Example getModel_inherited_name_is_not_bound :
  member (globalSchemas Sample.clash) "constructor"
  = Ok (literal [("Schema", literal [("fields", VStr "c")])])
  /\ getModel Sample.working "constructor" VUndef 3%positive Sample.clash
     = (Ok (Inherited "constructor"),
        set_trace (trace Sample.clash
                   ++ [EvAssignWith "constructor" (mkWith "constructor" 3%positive)])
                  Sample.clash)
  /\ heap Sample.clash !! 5%positive
     = Some (OConnection (VStr "default") ∅ (Some 4%positive)).
Proof. repeat split; vm_compute; reflexivity. Qed.

(** ** Names the registry does not have *)

(** C7.  For a live connection and a schema name the registry does not
    have, [getModel] throws a [TypeError] (it reads the construction data
    of an undefined schema) and changes nothing, provided the connection's
    model cache neither holds the name nor inherits it.  A name the cache
    inherits from [Object.prototype] ([constructor], [toString], ...) is
    not refused: [getModel] returns the inherited member.  A name the cache
    holds is served from the cache, registered or not.  In every case the
    connection's model cache is afterwards what it was. *)
Theorem getModel_unregistered_fails (C : Collaborators) (name : string)
    (connectionName : JsVal) (request : loc) (w : World)
    dflt c cname models h :
  Resolves w request dflt (modelKey dflt connectionName) c cname models h ->
  unregistered name w ->
  (models !! name = None ->
   inherits (trace w) name = false ->
   exists msg, getModel C name connectionName request w = (Throw (TypeError msg), w))
  /\ (models !! name = None ->
      inherits (trace w) name = true ->
      exists w1, getModel C name connectionName request w = (Ok (Inherited name), w1)
                 /\ heap w1 = heap w)
  /\ (forall m, models !! name = Some m ->
                caches_model w models name ->
                exists w1, getModel C name connectionName request w = (Ok (Bound m), w1))
  /\ heap (snd (getModel C name connectionName request w)) !! c
     = Some (OConnection cname models (Some h)).
Proof.
  intros R U.
  pose proof (res_connection _ _ _ _ _ _ _ _ R) as Hcon.
  split; [|split; [|split]].
  - intros Hm Hi.
    apply (getModel_absent C name connectionName request w dflt c cname models h R Hm Hi U).
  - intros Hm Hi.
    rewrite (getModel_inherited C name connectionName request w dflt c cname models h
               R Hm Hi).
    eexists. split; [reflexivity|]. now destruct (decorates dflt connectionName).
  - intros m Hm Hcache.
    destruct (Hcache m Hm) as (n & s & col & db & wi & Hobj).
    rewrite (getModel_cached C name connectionName request w dflt c cname models h m
               n s col db wi R Hm Hobj).
    eauto.
  - destruct (models !! name) as [m|] eqn:Hm.
    + rewrite (getModel_entry C name connectionName request w dflt c cname models h m R Hm).
      destruct (decorates dflt connectionName); [|exact Hcon].
      unfold bindM, assignWith.
      destruct (heap w !! m) as [[| | | |n s col db wi]|] eqn:Hobj; simpl; try exact Hcon.
      rewrite lookup_insert_ne by congruence. exact Hcon.
    + destruct (inherits (trace w) name) eqn:Hi.
      * rewrite (getModel_inherited C name connectionName request w dflt c cname models h
                   R Hm Hi).
        now destruct (decorates dflt connectionName).
      * destruct (getModel_absent C name connectionName request w dflt c cname models h
                    R Hm Hi U) as [msg E].
        now rewrite E.
Qed.

Lemma getModel_unregistered_fails_witness :
  getModel Sample.working "Z" VUndef 3%positive (Sample.busy "default" "default")
  = (Throw (TypeError "Cannot read property 'Schema' of undefined"),
     Sample.busy "default" "default")
  /\ fst (getModel Sample.working "constructor" VUndef 3%positive
            (Sample.busy "default" "default"))
     = Ok (Inherited "constructor").
Proof.
  split.
  - destruct (getModel_unregistered_fails Sample.working "Z" VUndef 3%positive
                (Sample.busy "default" "default") (VStr "default") 5%positive (VStr "default")
                ∅ 4%positive Sample_busy_resolves)
      as (A & _).
    { intros entry H. left. vm_compute in H. now injection H as <-. }
    destruct (A eq_refl eq_refl) as [msg E].
    rewrite E. f_equal.
    assert (F : fst (getModel Sample.working "Z" VUndef 3%positive
                       (Sample.busy "default" "default"))
                = Throw (TypeError "Cannot read property 'Schema' of undefined"))
      by (vm_compute; reflexivity).
    rewrite E in F. exact F.
  - destruct (getModel_unregistered_fails Sample.working "constructor" VUndef 3%positive
                (Sample.busy "default" "default") (VStr "default") 5%positive (VStr "default")
                ∅ 4%positive Sample_busy_resolves)
      as (_ & B & _).
    { intros entry H. left. vm_compute in H. now injection H as <-. }
    destruct (B eq_refl eq_refl) as (w1 & E & _).
    now rewrite E.
Defined.

(** A name the registry does not have, but which the cache inherits: no
    error. *)
Example getModel_inherited_name_is_not_refused :
  member (globalSchemas Sample.two) "constructor" = Ok VUndef
  /\ getModel Sample.working "constructor" (VStr "replica") 3%positive Sample.two
     = (Ok (Inherited "constructor"), Sample.two).
Proof. split; vm_compute; reflexivity. Qed.

(** ** Which models carry [with] *)

Lemma strictEq_eq a b : strictEq a b = true -> a = b.
Proof.
  destruct a, b; simpl; try discriminate; intros H; try reflexivity.
  - now apply Bool.eqb_prop in H as ->.
  - now apply Z.eqb_eq in H as ->.
  - now apply String.eqb_eq in H as ->.
Qed.

(** C8.  The object [getModel] returns for the default connection (the
    connection name omitted, or equal to the configured default) carries a
    [with] function that resolves the same schema name against the
    connection it is given, as [getModel] does.  A call for another
    connection attaches nothing: the object it returns carries [with]
    exactly if it did before the call, and a model made by that call
    carries none.  For a name the cache inherits from [Object.prototype]
    every connection returns the same inherited member, so that after a
    call for the default connection the object returned for any other
    connection carries [with] as well. *)
Theorem with_on_the_default_connection_only (C : Collaborators) (name : string)
    (connectionName : JsVal) (request : loc) (w : World)
    dflt c cname models h entry schema :
  Resolves w request dflt (modelKey dflt connectionName) c cname models h ->
  member (globalSchemas w) name = Ok entry ->
  member entry "Schema" = Ok schema ->
  connectionModel C (trace w ++ [modelCall h name schema]) h name schema name = None ->
  caches_model w models name ->
  exists m w1,
    getModel C name connectionName request w = (Ok m, w1)
    /\ (decorates dflt connectionName = true ->
        carries w1 m (mkWith name request)
        /\ forall other w',
             callWith C (mkWith name request) other w' = getModel C name other request w')
    /\ (decorates dflt connectionName = false ->
        forall f, carries w1 m f <-> carries w m f)
    /\ (decorates dflt connectionName = false ->
        models !! name = None ->
        inherits (trace w) name = false ->
        exists l, m = Bound l
                  /\ heap w1 !! l = Some (OModel name schema name h None))
    /\ (models !! name = None ->
        inherits (trace w) name = true ->
        m = Inherited name /\ heap w1 = heap w).
Proof.
  intros R He Hs Hdrv Hcache.
  destruct (models !! name) as [m|] eqn:Hm.
  - destruct (Hcache m Hm) as (n & s & col & db & wi & Hobj).
    exists (Bound m). eexists. split.
    { apply (getModel_cached C name connectionName request w dflt c cname models h m
               n s col db wi R Hm Hobj). }
    destruct (decorates dflt connectionName).
    + split; [|repeat split; discriminate].
      intros _. split; [|reflexivity].
      exists n, s, col, db. simpl. apply lookup_insert_eq.
    + split; [discriminate|]. split; [reflexivity|]. split; discriminate.
  - destruct (inherits (trace w) name) eqn:Hi.
    + exists (Inherited name). eexists. split.
      { apply (getModel_inherited C name connectionName request w dflt c cname models h
                 R Hm Hi). }
      destruct (decorates dflt connectionName).
      * split; [|split; [discriminate|split; [discriminate|]]].
        -- intros _. split; [|reflexivity]. simpl. apply assigned_last.
        -- intros _ _. split; reflexivity.
      * split; [discriminate|]. split; [reflexivity|]. split; [discriminate|].
        intros _ _. split; reflexivity.
    + pose proof (fresh_unused (heap w)) as F.
      exists (Bound (fresh (dom (heap w)))). eexists. split.
      { apply (getModel_new C name connectionName request w dflt c cname models h
                 entry schema R Hm Hi He Hs Hdrv). }
      destruct (decorates dflt connectionName).
      * split; [|split; [discriminate|split; discriminate]].
        intros _. split; [|reflexivity].
        exists name, schema, name, h. simpl. apply lookup_insert_eq.
      * split; [discriminate|]. split; [|split; [|discriminate]].
        -- intros _ f. simpl. rewrite lookup_insert_eq, F. split.
           ++ intros (n & s & col & db & X). discriminate.
           ++ intros (n & s & col & db & X). discriminate.
        -- intros _ _ _. eexists. split; [reflexivity|]. simpl. apply lookup_insert_eq.
Qed.

Lemma Sample_clash_decorated :
  snd (getModel Sample.working "constructor" VUndef 3%positive Sample.clash)
  = set_trace (trace Sample.clash
               ++ [EvAssignWith "constructor" (mkWith "constructor" 3%positive)])
              Sample.clash.
Proof. vm_compute. reflexivity. Qed.

Lemma with_on_the_default_connection_only_witness :
  (exists m w1,
      getModel Sample.working "A" VUndef 3%positive Sample.two = (Ok m, w1)
      /\ carries w1 m (mkWith "A" 3%positive))
  /\ (exists l w1,
         getModel Sample.working "A" (VStr "replica") 3%positive Sample.two
         = (Ok (Bound l), w1)
         /\ heap w1 !! l
            = Some (OModel "A" (literal [("fields", VStr "a")]) "A" 6%positive None))
  /\ (exists w1,
         getModel Sample.working "constructor" (VStr "replica") 3%positive
           (snd (getModel Sample.working "constructor" VUndef 3%positive Sample.clash))
         = (Ok (Inherited "constructor"), w1)
         /\ carries w1 (Inherited "constructor") (mkWith "constructor" 3%positive)).
Proof.
  split; [|split].
  - destruct (with_on_the_default_connection_only Sample.working "A" VUndef 3%positive
                Sample.two (VStr "default") 5%positive (VStr "default") ∅ 4%positive
                (literal [("Schema", literal [("fields", VStr "a")])])
                (literal [("fields", VStr "a")])
                (Sample_two_resolves "default" 5%positive 4%positive
                   (or_introl (conj eq_refl (conj eq_refl eq_refl))))
                Sample_two_registry eq_refl eq_refl (caches_model_empty _ _))
      as (m & w1 & E & Hdec & _).
    destruct (Hdec eq_refl) as [Hc _].
    exists m, w1. split; [exact E | exact Hc].
  - destruct (with_on_the_default_connection_only Sample.working "A" (VStr "replica")
                3%positive Sample.two (VStr "default") 7%positive (VStr "replica") ∅
                6%positive
                (literal [("Schema", literal [("fields", VStr "a")])])
                (literal [("fields", VStr "a")])
                (Sample_two_resolves "replica" 7%positive 6%positive
                   (or_intror (conj eq_refl (conj eq_refl eq_refl))))
                Sample_two_registry eq_refl eq_refl (caches_model_empty _ _))
      as (m & w1 & E & _ & _ & Hnew & _).
    destruct (Hnew eq_refl eq_refl eq_refl) as (l & -> & Hl).
    exists l, w1. split; [exact E | exact Hl].
  - rewrite Sample_clash_decorated.
    destruct (with_on_the_default_connection_only Sample.working "constructor"
                (VStr "replica") 3%positive
                (set_trace (trace Sample.clash
                            ++ [EvAssignWith "constructor" (mkWith "constructor" 3%positive)])
                           Sample.clash)
                (VStr "default") 7%positive (VStr "replica") ∅ 6%positive
                (literal [("Schema", literal [("fields", VStr "c")])])
                (literal [("fields", VStr "c")])
                (Resolves_trace _ _ _ _ _ _ _ _ _
                   (Resolves_schemas _ _ _ _ _ _ _ _ _
                      (Sample_two_resolves "replica" 7%positive 6%positive
                         (or_intror (conj eq_refl (conj eq_refl eq_refl))))))
                eq_refl eq_refl eq_refl (caches_model_empty _ _))
      as (m & w1 & E & _ & Hkeep & _ & Hinh).
    destruct (Hinh eq_refl eq_refl) as [-> _].
    exists w1. split; [exact E|].
    apply (Hkeep eq_refl). vm_compute. reflexivity.
Defined.

(** The same inherited member for both connections: once it has been
    returned for the default connection, what the other connection returns
    carries [with]. *)
Example with_on_an_inherited_name :
  fst (getModel Sample.working "constructor" (VStr "replica") 3%positive
         (snd (getModel Sample.working "constructor" VUndef 3%positive Sample.two)))
  = Ok (Inherited "constructor")
  /\ carries (snd (getModel Sample.working "constructor" (VStr "replica") 3%positive
                     (snd (getModel Sample.working "constructor" VUndef 3%positive
                             Sample.two))))
             (Inherited "constructor") (mkWith "constructor" 3%positive).
Proof. split; vm_compute; reflexivity. Qed.

(** * Further properties of the module *)

(** ** Connecting: names, failures, and what a connection leaves behind *)

Lemma getProperty_extend_obj_undef options : forall target k,
  List.NoDup (keys options) ->
  getProperty options k = VUndef ->
  getProperty (extend_obj target options) k = getProperty target k.
Proof.
  induction options as [|name copy rest IH]; intros target k Hnd Hk; [reflexivity|].
  simpl in *. inversion Hnd as [|? ? Hnotin Hnd']; subst.
  destruct (String.eqb name k) eqn:E.
  - apply String.eqb_eq in E. subst name copy.
    now apply getProperty_extend_obj_other.
  - rewrite (IH _ k Hnd' Hk).
    assert (Hne : name <> k) by (now apply String.eqb_neq).
    destruct copy; try reflexivity; now apply getProperty_setProperty_ne.
Qed.

(** X1.  The name [connect] resolves is the override's, or ['default']: a
    name held by [options.config.mongo], such as the one a previous call
    merged in, is overwritten before the override is applied. *)
Theorem connect_name_falls_back_to_default (C : Collaborators) (options : Options)
    (Log : Logger) (override : JsVal) (request : loc) (w : World)
    (c : loc) (cfg : JsObj) (kind : ObjKind) (db : JsObj) :
  opt_config options = Some c ->
  heap w !! c = Some (OData cfg) ->
  getProperty cfg "mongo" = VObj kind db ->
  List.NoDup (keys (enumerable override)) ->
  getProperty (enumerable override) "name" = VUndef ->
  exists merged,
    dbConnect C options Log override request w =
    mongooseInit C (opt_mongoose options) Log (VObj kind merged) request
      (set_heap (<[c := OData (setProperty cfg "mongo" (VObj kind merged))]> (heap w)) w)
    /\ member (VObj kind merged) "name" = Ok (VStr "default").
Proof.
  intros Ho Hc Hm Hnd Hn. exists (resolveDbConfig db override).
  split; [now apply dbConnect_eq|].
  unfold member, enumerable, resolveDbConfig, extend. simpl. f_equal.
  unfold extend_src at 1.
  rewrite getProperty_extend_obj_undef by assumption.
  unfold extend_src. simpl. apply getProperty_setProperty_eq.
Qed.

Lemma connect_name_falls_back_to_default_witness :
  heap Sample.named !! 2%positive
  = Some (OData (obj_of_list
                   [("mongo", literal [("URI", VStr "mem://other"); ("name", VStr "a")])]))
  /\ exists merged,
      dbConnect Sample.working (Sample.options 2%positive) Sample.api VUndef 3%positive
        Sample.named =
      mongooseInit Sample.working Sample.mongoose Sample.api (VObj Plain merged) 3%positive
        (set_heap (<[2%positive :=
                       OData (setProperty
                                (obj_of_list
                                   [("mongo", literal [("URI", VStr "mem://other");
                                                       ("name", VStr "a")])])
                                "mongo" (VObj Plain merged))]> (heap Sample.named))
                  Sample.named)
      /\ member (VObj Plain merged) "name" = Ok (VStr "default").
Proof.
  assert (H : heap Sample.named !! 2%positive
              = Some (OData (obj_of_list
                   [("mongo", literal [("URI", VStr "mem://other"); ("name", VStr "a")])])))
    by (vm_compute; reflexivity).
  split; [exact H|].
  apply (connect_name_falls_back_to_default Sample.working (Sample.options 2%positive)
           Sample.api VUndef 3%positive Sample.named 2%positive _ Plain
           (obj_of_list [("URI", VStr "mem://other"); ("name", VStr "a")])
           eq_refl H eq_refl).
  - constructor.
  - reflexivity.
Defined.

(** [mongooseInit] when the driver refuses the connection. *)
Lemma mongooseInit_refused (C : Collaborators) mongoose logger config request w
    conns env lg opts name uri err :
  heap w !! request = Some (ORequest conns env lg) ->
  member config "options" = Ok opts ->
  member config "name" = Ok name ->
  member config "URI" = Ok uri ->
  liveIn (heap w) (conns !! toStr name) = None ->
  createConnection C
    (trace w ++ [connecting logger config;
                 EvCreateConnection mongoose uri (driverOptions opts)])
    mongoose uri (driverOptions opts) = Some err ->
  mongooseInit C mongoose logger config request w
  = (Throw err,
     set_trace (trace w ++ [connecting logger config;
                            EvCreateConnection mongoose uri (driverOptions opts)]) w).
Proof.
  intros Hr Ho Hn Hu Hl Hc.
  set (w0 := set_trace (trace w ++ [connecting logger config]) w).
  unfold mongooseInit.
  rewrite (bindM_ok _ _ w tt w0) by reflexivity.
  rewrite (bindM_ok _ _ w0 opts w0) by (unfold liftRes; now rewrite Ho).
  rewrite (bindM_ok _ _ w0 conns w0)
    by (now apply readConnections_eq with (env := env) (lg := lg)).
  rewrite (bindM_ok _ _ w0 name w0) by (unfold liftRes; now rewrite Hn).
  rewrite (bindM_ok _ _ w0 None w0) by (unfold live, gets; simpl; now rewrite Hl).
  rewrite (bindM_ok _ _ w0 uri w0) by (unfold liftRes; now rewrite Hu).
  assert (Hcall : callCreateConnection C mongoose uri (driverOptions opts) w0
                  = (Throw err,
                     set_trace (trace w ++ [connecting logger config;
                                            EvCreateConnection mongoose uri
                                              (driverOptions opts)]) w)).
  { unfold callCreateConnection, bindM, emit, modify, gets, throw. simpl.
    rewrite <- app_assoc. simpl. now rewrite Hc. }
  now rewrite (bindM_throw _ _ _ _ _ Hcall).
Qed.

(** X2.  When the driver refuses the connection, [mongooseInit] throws the
    driver's error and has stored nothing: the heap, the request's
    connection map and [globals.mongoose] are as before, only the two calls
    are on record.  The next attempt therefore asks the driver again, and
    connects if the driver then accepts. *)
Theorem failed_connect_stores_nothing (C : Collaborators) (mongoose : Mongoose)
    (logger : Logger) (config : JsVal) (request : loc) (w : World)
    conns env lg opts name uri err :
  heap w !! request = Some (ORequest conns env lg) ->
  member config "options" = Ok opts ->
  member config "name" = Ok name ->
  member config "URI" = Ok uri ->
  liveIn (heap w) (conns !! toStr name) = None ->
  createConnection C
    (trace w ++ [connecting logger config;
                 EvCreateConnection mongoose uri (driverOptions opts)])
    mongoose uri (driverOptions opts) = Some err ->
  let attempt := [connecting logger config;
                  EvCreateConnection mongoose uri (driverOptions opts)] in
  mongooseInit C mongoose logger config request w
  = (Throw err, set_trace (trace w ++ attempt) w)
  /\ (createConnection C ((trace w ++ attempt) ++ attempt)
        mongoose uri (driverOptions opts) = None ->
      fst (mongooseInit C mongoose logger config request
             (set_trace (trace w ++ attempt) w))
      = Ok (fresh (dom (heap w)))).
Proof.
  intros Hr Ho Hn Hu Hl Hc attempt.
  split.
  - now apply (mongooseInit_refused C mongoose logger config request w conns env lg
                 opts name uri err).
  - intros Hc'.
    rewrite (mongooseInit_new C mongoose logger config request
               (set_trace (trace w ++ attempt) w) conns env lg opts name uri);
      try assumption; reflexivity.
Qed.

Lemma failed_connect_stores_nothing_witness :
  mongooseInit Sample.flaky Sample.mongoose Sample.api Sample.dbConfig 3%positive
    (Sample.idle "default")
  = (Throw (Error Sample.refused),
     set_trace (trace (Sample.idle "default") ++
                [connecting Sample.api Sample.dbConfig;
                 EvCreateConnection Sample.mongoose (VStr "mem://test")
                   (driverOptions VUndef)])
               (Sample.idle "default"))
  /\ fst (mongooseInit Sample.flaky Sample.mongoose Sample.api Sample.dbConfig 3%positive
            (set_trace (trace (Sample.idle "default") ++
                        [connecting Sample.api Sample.dbConfig;
                         EvCreateConnection Sample.mongoose (VStr "mem://test")
                           (driverOptions VUndef)])
                       (Sample.idle "default")))
     = Ok 4%positive.
Proof.
  destruct (failed_connect_stores_nothing Sample.flaky Sample.mongoose Sample.api
              Sample.dbConfig 3%positive (Sample.idle "default")
              ∅ (Sample.options 2%positive) Sample.api VUndef (VStr "default")
              (VStr "mem://test") (Error Sample.refused))
    as [E R]; try (vm_compute; reflexivity).
  split; [exact E|].
  rewrite R; vm_compute; reflexivity.
Defined.

(** X3.  What a successful [mongooseInit] stores is what [getConnection]
    finds: after a new connection is opened under a name, looking that name
    up on the request returns the stored entry, whose [connection] is the
    handle [mongooseInit] returned and whose model cache is empty; the
    handle was made by the driver from [config.URI] and the options; the
    driver is recorded in [globals.mongoose]; and the request's other
    connections are the ones it had. *)
Theorem connect_then_getConnection (C : Collaborators) (mongoose : Mongoose)
    (logger : Logger) (config : JsVal) (request : loc) (w : World)
    conns env lg opts name uri cfg dflt :
  heap w !! request = Some (ORequest conns env lg) ->
  heap w !! exported_config w = Some (OData cfg) ->
  member (getProperty cfg "mongo") "defaultConnection" = Ok dflt ->
  member config "options" = Ok opts ->
  member config "name" = Ok name ->
  member config "URI" = Ok uri ->
  name <> VUndef ->
  liveIn (heap w) (conns !! toStr name) = None ->
  createConnection C
    (trace w ++ [connecting logger config;
                 EvCreateConnection mongoose uri (driverOptions opts)])
    mongoose uri (driverOptions opts) = None ->
  exists h e w1 conns1,
    mongooseInit C mongoose logger config request w = (Ok h, w1)
    /\ getConnection name request w1 = (Ok e, w1)
    /\ heap w1 !! e = Some (OConnection name ∅ (Some h))
    /\ heap w1 !! h = Some (OHandle mongoose uri (driverOptions opts))
    /\ heap w !! h = None /\ heap w !! e = None
    /\ globals_mongoose w1 = Some mongoose
    /\ heap w1 !! request = Some (ORequest conns1 env lg)
    /\ conns1 !! toStr name = Some e
    /\ forall k, k <> toStr name -> conns1 !! k = conns !! k.
Proof.
  intros Hr Hx Hd Ho Hn Hu Hnn Hl Hc.
  pose proof (mongooseInit_new C mongoose logger config request w conns env lg
                opts name uri Hr Ho Hn Hu Hl Hc) as E.
  cbv zeta in E.
  set (h := fresh (dom (heap w))) in *.
  set (heap1 := <[h := OHandle mongoose uri (driverOptions opts)]> (heap w)) in *.
  set (e := fresh (dom heap1)) in *.
  set (w1 := set_trace _ _) in E.
  assert (Fh : heap w !! h = None) by apply fresh_unused.
  assert (Fe : heap1 !! e = None) by apply fresh_unused.
  assert (Heh : e <> h).
  { intros X. rewrite X in Fe. unfold heap1 in Fe. now rewrite lookup_insert_eq in Fe. }
  assert (Fe' : heap w !! e = None).
  { unfold heap1 in Fe. now rewrite lookup_insert_ne in Fe by congruence. }
  assert (Hrh : request <> h) by congruence.
  assert (Hre : request <> e) by congruence.
  assert (H1e : heap w1 !! e = Some (OConnection name ∅ (Some h))).
  { unfold w1. simpl. rewrite lookup_insert_ne by congruence. apply lookup_insert_eq. }
  assert (H1r : heap w1 !! request = Some (ORequest (<[toStr name := e]> conns) env lg)).
  { unfold w1. simpl. apply lookup_insert_eq. }
  assert (H1x : heap w1 !! exported_config w1 = Some (OData cfg)).
  { unfold w1. simpl. rewrite !lookup_insert_ne by congruence.
    unfold heap1. rewrite lookup_insert_ne by congruence. exact Hx. }
  exists h, e, w1, (<[toStr name := e]> conns).
  split; [exact E|]. split.
  - rewrite (getConnection_eq name request w1 _ _ _ _ _ H1r H1x Hd). cbv zeta.
    assert (Hname : match name with VUndef => VStr "default" | _ => name end = name)
      by (now destruct name).
    rewrite Hname.
    destruct (strictEq name dflt) eqn:Es.
    + apply strictEq_eq in Es. subst dflt.
      rewrite lookup_insert_eq. unfold liveIn. now rewrite H1e.
    + rewrite lookup_insert_eq. unfold liveIn. now rewrite H1e.
  - split; [exact H1e|]. split.
    { unfold w1. simpl. rewrite !lookup_insert_ne by congruence. apply lookup_insert_eq. }
    split; [exact Fh|]. split; [exact Fe'|]. split; [reflexivity|].
    split; [exact H1r|]. split; [apply lookup_insert_eq|].
    intros k Hk. now apply lookup_insert_ne.
Qed.

Lemma connect_then_getConnection_witness :
  exists w1,
    mongooseInit Sample.working Sample.mongoose Sample.api Sample.dbConfig 3%positive
      (Sample.idle "default") = (Ok 4%positive, w1)
    /\ getConnection (VStr "default") 3%positive w1 = (Ok 5%positive, w1)
    /\ heap w1 !! 5%positive = Some (OConnection (VStr "default") ∅ (Some 4%positive)).
Proof.
  destruct (connect_then_getConnection Sample.working Sample.mongoose Sample.api
              Sample.dbConfig 3%positive (Sample.idle "default")
              ∅ (Sample.options 2%positive) Sample.api VUndef (VStr "default")
              (VStr "mem://test")
              (extend (Sample.config "default") [VObj Plain Sample.userConfig])
              (VStr "default"))
    as (h & e & w1 & conns1 & E & G & He & _); try (vm_compute; reflexivity);
    try discriminate.
  exists w1.
  assert (Hh : h = 4%positive).
  { transitivity (match fst (mongooseInit Sample.working Sample.mongoose Sample.api
                               Sample.dbConfig 3%positive (Sample.idle "default"))
                  with Ok l => l | Throw _ => h end).
    - now rewrite E.
    - vm_compute. reflexivity. }
  assert (Hw : w1 = snd (mongooseInit Sample.working Sample.mongoose Sample.api
                           Sample.dbConfig 3%positive (Sample.idle "default")))
    by (now rewrite E).
  assert (Hee : e = 5%positive).
  { transitivity (match fst (getConnection (VStr "default") 3%positive w1)
                  with Ok l => l | Throw _ => e end).
    - now rewrite G.
    - rewrite Hw. vm_compute. reflexivity. }
  subst h e. auto.
Defined.

(** ** Resolving models: failures *)

(** X4.  When the driver's [model] call fails, [getModel] throws the
    driver's error and caches nothing: the heap is as before, so the
    connection's model cache still has no entry for the name and the next
    call asks the driver again.  (The name is one the cache does not
    inherit from [Object.prototype]; for an inherited name the driver is
    not called at all.) *)
Theorem failed_model_is_not_cached (C : Collaborators) (name : string)
    (connectionName : JsVal) (request : loc) (w : World)
    dflt c cname models h entry schema err :
  Resolves w request dflt (modelKey dflt connectionName) c cname models h ->
  models !! name = None ->
  inherits (trace w) name = false ->
  member (globalSchemas w) name = Ok entry ->
  member entry "Schema" = Ok schema ->
  connectionModel C (trace w ++ [modelCall h name schema]) h name schema name
  = Some err ->
  getModel C name connectionName request w
  = (Throw err, set_trace (trace w ++ [modelCall h name schema]) w)
  /\ heap (snd (getModel C name connectionName request w)) !! c
     = Some (OConnection cname models (Some h)).
Proof.
  intros R Hm Hi He Hs Hdrv.
  destruct (res_config _ _ _ _ _ _ _ _ R) as (cfg & Hc & Hd).
  assert (E : getModel C name connectionName request w
              = (Throw err, set_trace (trace w ++ [modelCall h name schema]) w)).
  { rewrite (getModel_unfold C name connectionName request w dflt cfg Hc Hd).
    apply bindM_throw. unfold spawnModel.
    rewrite (bindM_ok _ _ _ _ _
               (getConnection_resolves _ request w dflt c cname models h R)).
    unfold bindM at 1, readConnection. rewrite (res_connection _ _ _ _ _ _ _ _ R).
    rewrite Hm.
    unfold bindM at 1, gets. rewrite Hi.
    unfold bindM at 1. unfold bindM at 1, liftRes. rewrite He.
    unfold bindM at 1. rewrite Hs.
    unfold callModel, bindM, emit, modify, gets, throw. simpl.
    fold (modelCall h name schema). now rewrite Hdrv. }
  split; [exact E|]. rewrite E. simpl. apply (res_connection _ _ _ _ _ _ _ _ R).
Qed.

Lemma failed_model_is_not_cached_witness :
  getModel Sample.brittle "B" VUndef 3%positive (Sample.busy "default" "default")
  = (Throw (Error "Cannot overwrite `B` model once compiled."),
     set_trace (trace (Sample.busy "default" "default") ++
                [modelCall 4%positive "B" (literal [("fields", VStr "b")])])
               (Sample.busy "default" "default"))
  /\ heap (snd (getModel Sample.brittle "B" VUndef 3%positive
                  (Sample.busy "default" "default"))) !! 5%positive
     = Some (OConnection (VStr "default") ∅ (Some 4%positive)).
Proof.
  apply (failed_model_is_not_cached Sample.brittle "B" VUndef 3%positive
           (Sample.busy "default" "default") (VStr "default") 5%positive
           (VStr "default") ∅ 4%positive
           (literal [("Schema", literal [("fields", VStr "b")])])
           (literal [("fields", VStr "b")])
           (Error "Cannot overwrite `B` model once compiled.")
           Sample_busy_resolves); vm_compute; reflexivity.
Defined.

(** X5.  A request that has not connected has no models: on the request
    the [onRequest] hook has just set up, [getModel] throws
    ["No database connections found."] when the connection name is omitted
    or is the configured default, and
    ["Connection '<name>' does not exists."] for any other name; no driver
    is called and nothing is stored. *)
Theorem model_before_connect_fails (C : Collaborators) (options : Options)
    (Log : Logger) (name : string) (connectionName : JsVal) (w : World)
    (cfg : JsObj) (d : string) :
  heap w !! exported_config w = Some (OData cfg) ->
  member (getProperty cfg "mongo") "defaultConnection" = Ok (VStr d) ->
  exists request w1,
    onRequest options Log w = (Ok request, w1)
    /\ heap w !! request = None
    /\ heap w1 !! request = Some (ORequest ∅ options Log)
    /\ getModel C name connectionName request w1
       = (Throw (Error (if decorates (VStr d) connectionName
                        then "No database connections found."
                        else "Connection '" +:+ toStr connectionName
                             +:+ "' does not exists.")),
          w1).
Proof.
  intros Hc Hd.
  set (r := fresh (dom (heap w))).
  set (w1 := set_heap (<[r := ORequest ∅ options Log]> (heap w)) w).
  assert (Fr : heap w !! r = None) by apply fresh_unused.
  assert (Hr1 : heap w1 !! r = Some (ORequest ∅ options Log))
    by (unfold w1; simpl; apply lookup_insert_eq).
  assert (Hc1 : heap w1 !! exported_config w1 = Some (OData cfg)).
  { unfold w1. simpl. rewrite lookup_insert_ne by congruence. exact Hc. }
  exists r, w1. split; [reflexivity|]. split; [exact Fr|]. split; [exact Hr1|].
  rewrite (getModel_unfold C name connectionName r w1 (VStr d) cfg Hc1 Hd).
  apply bindM_throw. unfold spawnModel. apply bindM_throw.
  rewrite (getConnection_eq _ r w1 _ _ _ _ _ Hr1 Hc1 Hd). cbv zeta.
  unfold decorates, liveIn. rewrite !lookup_empty.
  destruct connectionName; simpl; try reflexivity.
  - now rewrite String.eqb_refl.
  - now destruct (String.eqb s d).
Qed.

Lemma model_before_connect_fails_witness :
  (exists request w1,
      onRequest (Sample.options 2%positive) Sample.api Sample.ready = (Ok request, w1)
      /\ getModel Sample.working "A" VUndef request w1
         = (Throw (Error "No database connections found."), w1))
  /\ (exists request w1,
         onRequest (Sample.options 2%positive) Sample.api Sample.ready
         = (Ok request, w1)
         /\ getModel Sample.working "A" (VStr "replica") request w1
            = (Throw (Error "Connection 'replica' does not exists."), w1)).
Proof.
  assert (Hc : heap Sample.ready !! exported_config Sample.ready
               = Some (OData (extend (Sample.config "default")
                                     [VObj Plain Sample.userConfig])))
    by (vm_compute; reflexivity).
  split.
  - destruct (model_before_connect_fails Sample.working (Sample.options 2%positive)
                Sample.api "A" VUndef Sample.ready _ "default" Hc eq_refl)
      as (r & w1 & E & _ & _ & G).
    exists r, w1. split; [exact E | exact G].
  - destruct (model_before_connect_fails Sample.working (Sample.options 2%positive)
                Sample.api "A" (VStr "replica") Sample.ready _ "default" Hc eq_refl)
      as (r & w1 & E & _ & _ & G).
    exists r, w1. split; [exact E | exact G].
Defined.

(** ** Requests and connections are kept apart *)

(** [writeConnection] and [mongooseInit] change no object but the request
    they are called for. *)
Lemma preserves_holds_writeConnection_other l o r k c :
  is_request o = false \/ l <> r -> preserves (holds l o) (writeConnection r k c).
Proof.
  intros Ho w Hw. unfold holds, writeConnection in *.
  destruct (heap w !! r) as [[| conns env lg | | |]|] eqn:E; simpl; try assumption.
  rewrite lookup_insert_ne; [assumption|].
  intros ->. destruct Ho as [Ho | Ho]; [|congruence].
  rewrite E in Hw. injection Hw as <-. discriminate.
Qed.

Lemma preserves_holds_mongooseInit_other (C : Collaborators) l o mongoose logger config
    request :
  is_request o = false \/ l <> request ->
  preserves (holds l o) (mongooseInit C mongoose logger config request).
Proof.
  intros Ho. unfold mongooseInit.
  apply preserves_bind; [apply preserves_holds_emit | intros _].
  apply preserves_bind; [apply preserves_liftRes | intros configOptions].
  apply preserves_bind; [apply readonly_preserves, readonly_readConnections | intros conns].
  apply preserves_bind; [apply preserves_liftRes | intros name].
  apply preserves_bind; [apply preserves_gets | intros [existing|]].
  - apply preserves_bind; [apply preserves_holds_emit | intros _; apply preserves_ret].
  - apply preserves_bind; [apply preserves_liftRes | intros uri].
    apply preserves_bind; [apply preserves_holds_callCreateConnection | intros connection].
    apply preserves_bind; [apply preserves_holds_alloc | intros entry].
    apply preserves_bind; [now apply preserves_holds_writeConnection_other | intros _].
    apply preserves_bind; [now apply preserves_modify | intros _].
    apply preserves_bind; [apply preserves_holds_emit | intros _; apply preserves_ret].
Qed.

(** [getModel] on a live connection with a registered schema and a willing
    driver, for a name the cache does not inherit: the model it returns is
    the cached one, or a new object that it caches. *)
Lemma getModel_resolved (C : Collaborators) name cn request w dflt c cname models h
    entry schema :
  Resolves w request dflt (modelKey dflt cn) c cname models h ->
  inherits (trace w) name = false ->
  member (globalSchemas w) name = Ok entry ->
  member entry "Schema" = Ok schema ->
  connectionModel C (trace w ++ [modelCall h name schema]) h name schema name = None ->
  caches_model w models name ->
  exists m w1,
    getModel C name cn request w = (Ok (Bound m), w1)
    /\ exported_config w1 = exported_config w
    /\ globalSchemas w1 = globalSchemas w
    /\ inherits (trace w1) name = false
    /\ ((models !! name = Some m
         /\ exists n s col db wi wi',
             heap w !! m = Some (OModel n s col db wi)
             /\ heap w1 = <[m := OModel n s col db wi']> (heap w))
        \/ (models !! name = None
            /\ m = fresh (dom (heap w))
            /\ exists wi,
                heap w1 = <[m := OModel name schema name h wi]>
                            (<[c := OConnection cname (<[name := m]> models) (Some h)]>
                               (heap w)))).
Proof.
  intros R Hi He Hs Hdrv Hcached.
  destruct (models !! name) as [m|] eqn:Hm.
  - destruct (Hcached m Hm) as (n & s & col & db & wi & Hmo).
    exists m. eexists. split.
    + apply (getModel_cached C name cn request w dflt c cname models h m n s col db wi
               R Hm Hmo).
    + destruct (decorates dflt cn); simpl.
      * split; [reflexivity|]. split; [reflexivity|]. split; [exact Hi|].
        left. split; [reflexivity|].
        exists n, s, col, db, wi, (Some (mkWith name request)). auto.
      * split; [reflexivity|]. split; [reflexivity|]. split; [exact Hi|].
        left. split; [reflexivity|].
        exists n, s, col, db, wi, wi. split; [assumption|].
        symmetry. now apply insert_id.
  - eexists _, _. split.
    + apply (getModel_new C name cn request w dflt c cname models h entry schema
               R Hm Hi He Hs Hdrv).
    + simpl. split; [reflexivity|]. split; [reflexivity|].
      split; [now rewrite inherits_modelCall|]. right.
      split; [reflexivity|]. split; [reflexivity|]. eauto 10.
Qed.

(** X7.  The model cache is per connection: what one connection of a
    request has cached under a name is not served for another.  After
    [getModel] has resolved a registered name on one live connection, which
    then has it cached, resolving the name on a second live connection whose
    own cache lacks it asks the driver again, on the second connection's
    handle, and stores the model in the second connection's cache; the
    first connection's cache is not touched.  (The name is one the caches
    do not inherit from [Object.prototype].) *)
Theorem models_are_per_connection (C : Collaborators) (name : string)
    (cn1 cn2 : JsVal) (request : loc) (w : World)
    dflt c1 cname1 models1 h1 c2 cname2 models2 h2 entry schema :
  Resolves w request dflt (modelKey dflt cn1) c1 cname1 models1 h1 ->
  Resolves w request dflt (modelKey dflt cn2) c2 cname2 models2 h2 ->
  c1 <> c2 ->
  inherits (trace w) name = false ->
  caches_model w models1 name ->
  models2 !! name = None ->
  member (globalSchemas w) name = Ok entry ->
  member entry "Schema" = Ok schema ->
  (forall t h, connectionModel C t h name schema name = None) ->
  exists m1 w1 m2 w2 ms1,
    getModel C name cn1 request w = (Ok (Bound m1), w1)
    /\ heap w1 !! c1 = Some (OConnection cname1 ms1 (Some h1))
    /\ ms1 !! name = Some m1
    /\ getModel C name cn2 request w1 = (Ok (Bound m2), w2)
    /\ trace w2 = trace w1 ++ [modelCall h2 name schema]
    /\ heap w2 !! c1 = Some (OConnection cname1 ms1 (Some h1))
    /\ heap w2 !! c2 = Some (OConnection cname2 (<[name := m2]> models2) (Some h2))
    /\ exists wi, heap w2 !! m2 = Some (OModel name schema name h2 wi).
Proof.
  intros R1 R2 Hc Hi Hcache Hm2 He Hs Hdrv.
  pose proof (res_connection _ _ _ _ _ _ _ _ R1) as Hc1.
  pose proof (res_connection _ _ _ _ _ _ _ _ R2) as Hc2.
  destruct (res_config _ _ _ _ _ _ _ _ R1) as (cfg & Hx & Hd).
  destruct (res_request _ _ _ _ _ _ _ _ R1) as (conns & env & lg & Hr & _).
  destruct (getModel_resolved C name cn1 request w dflt c1 cname1 models1 h1 entry schema
              R1 Hi He Hs (Hdrv _ _) Hcache)
    as (m1 & w1 & E1 & X1 & G1 & Hi1 & Case1).
  (* the first call leaves the second connection, the request and the
     configuration as they were *)
  assert (Keep : heap w1 !! c2 = heap w !! c2
                 /\ heap w1 !! request = heap w !! request
                 /\ heap w1 !! exported_config w = heap w !! exported_config w
                 /\ exists ms1, heap w1 !! c1 = Some (OConnection cname1 ms1 (Some h1))
                                /\ ms1 !! name = Some m1).
  { destruct Case1 as [(Hm1 & n & s & col & db & wi & wi' & Hmo & Hh)
                      | (Hm1 & -> & wi & Hh)]; rewrite Hh.
    - assert (m1 <> c2) by congruence.
      assert (m1 <> c1) by congruence.
      assert (m1 <> request) by congruence.
      assert (m1 <> exported_config w) by congruence.
      rewrite !lookup_insert_ne by assumption.
      repeat split; eauto 10.
    - pose proof (fresh_unused (heap w)) as F.
      set (m := fresh (dom (heap w))) in *.
      assert (m <> c2) by congruence.
      assert (m <> c1) by congruence.
      assert (m <> request) by congruence.
      assert (m <> exported_config w) by congruence.
      assert (c1 <> request) by congruence.
      assert (c1 <> exported_config w) by congruence.
      rewrite !lookup_insert_ne by congruence.
      repeat split.
      exists (<[name := m]> models1). split; [apply lookup_insert_eq|].
      apply lookup_insert_eq. }
  destruct Keep as (K2 & Kr & Kx & ms1 & K1 & K1m).
  assert (R2' : Resolves w1 request dflt (modelKey dflt cn2) c2 cname2 models2 h2).
  { apply (Resolves_update w w1 request dflt _ c2 cname2 models2 models2 h2 R2 X1 Kx Kr).
    now rewrite K2. }
  rewrite <- G1 in He.
  pose proof (getModel_new C name cn2 request w1 dflt c2 cname2 models2 h2 entry schema
                R2' Hm2 Hi1 He Hs (Hdrv _ _)) as E2.
  cbv zeta in E2.
  pose proof (fresh_unused (heap w1)) as F.
  set (m2 := fresh (dom (heap w1))) in *.
  assert (m2 <> c1) by congruence.
  assert (m2 <> c2) by (rewrite <- K2 in Hc2; congruence).
  exists m1, w1, m2. eexists. exists ms1.
  split; [exact E1|]. split; [exact K1|]. split; [exact K1m|]. split; [exact E2|].
  simpl. split; [reflexivity|].
  rewrite (lookup_insert_ne _ m2 c1) by assumption.
  rewrite (lookup_insert_ne _ c2 c1) by congruence.
  rewrite (lookup_insert_ne _ m2 c2) by assumption.
  rewrite !lookup_insert_eq. eauto.
Qed.

Lemma models_are_per_connection_witness :
  exists m1 w1 m2 w2,
    getModel Sample.working "A" VUndef 3%positive Sample.two = (Ok (Bound m1), w1)
    /\ getModel Sample.working "A" (VStr "replica") 3%positive w1 = (Ok (Bound m2), w2)
    /\ trace w2 = trace w1 ++ [modelCall 6%positive "A" (literal [("fields", VStr "a")])]
    /\ heap w2 !! 7%positive
       = Some (OConnection (VStr "replica") {[ "A" := m2 ]} (Some 6%positive)).
Proof.
  destruct (models_are_per_connection Sample.working "A" VUndef (VStr "replica")
              3%positive Sample.two (VStr "default")
              5%positive (VStr "default") ∅ 4%positive
              7%positive (VStr "replica") ∅ 6%positive
              (literal [("Schema", literal [("fields", VStr "a")])])
              (literal [("fields", VStr "a")]))
    as (m1 & w1 & m2 & w2 & ms1 & E1 & _ & _ & E2 & Ht & _ & H2 & _).
  - apply Sample_two_resolves. left. auto.
  - apply Sample_two_resolves. right. auto.
  - discriminate.
  - reflexivity.
  - apply caches_model_empty.
  - reflexivity.
  - exact Sample_two_registry.
  - reflexivity.
  - intros t h. reflexivity.
  - exists m1, w1, m2, w2. auto.
Defined.

(** ** What a computation leaves alone *)

Lemma calls_refl P w : calls P w w.
Proof. exists []. split; [now rewrite app_nil_r | constructor]. Qed.

Lemma calls_trans P a b c : calls P a b -> calls P b c -> calls P a c.
Proof.
  intros (es & E & F) (es' & E' & F'). exists (es ++ es'). split.
  - now rewrite E', E, app_assoc.
  - now apply Forall_app.
Qed.

Lemma calls_silent P w w' : trace w' = trace w -> calls P w w'.
Proof. intros E. exists []. split; [now rewrite app_nil_r | constructor]. Qed.

Lemma calls_emit P w e : P e -> calls P w (set_trace (trace w ++ [e]) w).
Proof. intros H. exists [e]. split; [reflexivity | now constructor]. Qed.

Lemma same_surface_refl w : same_surface w w.
Proof. now repeat split. Qed.

Lemma same_surface_trans a b c : same_surface a b -> same_surface b c -> same_surface a c.
Proof.
  unfold same_surface. intros (?&?&?&?&?&?&?) (?&?&?&?&?&?&?).
  repeat split; congruence.
Qed.

Section Keeps.

Context (C : Collaborators) (R : World -> World -> Prop) (P : Event -> Prop).
Hypothesis Rrefl : forall w, R w w.
Hypothesis Rtrans : forall a b c, R a b -> R b c -> R a c.
Hypothesis Rheap : forall w h, R w (set_heap h w).
Hypothesis Remit : forall w e, P e -> R w (set_trace (trace w ++ [e]) w).

Lemma keeps_ret {A} (a : A) : keeps R (ret a).
Proof. intros w. apply Rrefl. Qed.

Lemma keeps_throw {A} e : keeps R (@throw A e).
Proof. intros w. apply Rrefl. Qed.

Lemma keeps_gets {A} (f : World -> A) : keeps R (gets f).
Proof. intros w. apply Rrefl. Qed.

Lemma keeps_liftRes {A} (r : Res A) : keeps R (liftRes r).
Proof. intros w. apply Rrefl. Qed.

Lemma keeps_readonly {A} (m : M A) : readonly m -> keeps R m.
Proof. intros H w. rewrite H. apply Rrefl. Qed.

Lemma keeps_bind {A B} (m : M A) (f : A -> M B) :
  keeps R m -> (forall a, keeps R (f a)) -> keeps R (bindM m f).
Proof.
  intros Hm Hf w. unfold bindM. specialize (Hm w).
  destruct (m w) as [[a|e] w1]; simpl in *; [|assumption].
  eapply Rtrans; [eassumption | apply Hf].
Qed.

Lemma keeps_tryCatch {A} (m : M A) h :
  keeps R m -> (forall e, keeps R (h e)) -> keeps R (tryCatch m h).
Proof.
  intros Hm Hh w. unfold tryCatch. specialize (Hm w).
  destruct (m w) as [[a|e] w1]; simpl in *; [assumption|].
  eapply Rtrans; [eassumption | apply Hh].
Qed.

Lemma keeps_modify f : (forall w, R w (f w)) -> keeps R (modify f).
Proof. intros H w. apply H. Qed.

Lemma keeps_emit e : P e -> keeps R (emit e).
Proof. intros H w. now apply Remit. Qed.

Lemma keeps_call e answer : P e -> keeps R (call e answer).
Proof.
  intros H. unfold call.
  apply keeps_bind; [now apply keeps_emit | intros _].
  apply keeps_bind; [apply keeps_gets | intros t].
  destruct (answer t); [apply keeps_throw | apply keeps_ret].
Qed.

Lemma keeps_store l o : keeps R (store l o).
Proof. intros w. apply Rheap. Qed.

Lemma keeps_alloc o : keeps R (alloc o).
Proof. intros w. apply Rheap. Qed.

Lemma keeps_writeConnection r k c : keeps R (writeConnection r k c).
Proof.
  intros w. unfold writeConnection.
  destruct (heap w !! r) as [[]|]; simpl; first [apply Rheap | apply Rrefl].
Qed.

Lemma keeps_extendConfig target source : keeps R (extendConfig target source).
Proof.
  unfold extendConfig. case_bool_decide; [apply keeps_ret|].
  apply keeps_bind; [apply keeps_readonly, readonly_readData | intros t].
  apply keeps_bind; [apply keeps_readonly, readonly_readData | intros s].
  apply keeps_store.
Qed.

Lemma keeps_getLogger label : keeps R (getLogger C label).
Proof.
  unfold getLogger.
  apply keeps_bind; [apply keeps_gets | intros config].
  apply keeps_bind; [apply keeps_gets | intros exported].
  apply keeps_bind; [apply keeps_extendConfig | intros _].
  apply keeps_bind; [apply keeps_readonly, readonly_readData | intros cfg].
  apply keeps_ret.
Qed.

Lemma keeps_registerMrHorse server logger config :
  (forall o, P (EvServerRegister server [("mrhorse", Some o)])) ->
  (forall o, P (EvLoadPolicies server o)) ->
  (forall l msg, P (EvLog LInfo l msg)) ->
  keeps R (registerMrHorse C server logger config).
Proof.
  intros H1 H2 H3. unfold registerMrHorse.
  apply keeps_bind; [apply keeps_readonly, readonly_readData | intros cfg].
  apply keeps_bind; [now apply keeps_call | intros _].
  apply keeps_bind; [| intros _; now apply keeps_emit].
  destruct (truthy _); [now apply keeps_call | apply keeps_ret].
Qed.

Lemma keeps_registerHapiSwagger server logger config :
  (forall o, P (EvServerRegister server
                  [("inert", None); ("vision", None); ("hapi-swagger", Some o)])) ->
  (forall l msg, P (EvLog LInfo l msg)) ->
  keeps R (registerHapiSwagger C server logger config).
Proof.
  intros H1 H2. unfold registerHapiSwagger.
  apply keeps_bind; [apply keeps_readonly, readonly_readData | intros cfg].
  apply keeps_bind.
  - destruct (negb _); [apply keeps_ret|].
    destruct (getProperty _ "info"); try apply keeps_throw.
    apply keeps_bind; [| intros _; apply keeps_ret].
    destruct (getProperty cfg "swaggerOptions"); try apply keeps_ret.
    apply keeps_store.
  - intros so.
    apply keeps_bind; [now apply keeps_call | intros _].
    now apply keeps_emit.
Qed.

Lemma keeps_generateRoutesFor server ks models :
  (forall model, P (EvGenerateRoutes server model models)) ->
  keeps R (generateRoutesFor C server ks models).
Proof.
  intros H. induction ks as [|k ks IH]; simpl; [apply keeps_ret|].
  apply keeps_bind; [now apply keeps_call | intros _; apply IH].
Qed.

Lemma keeps_generateRoutes server mongoose models logger config :
  P (EvRestHelperFactory logger mongoose server) ->
  (forall model, P (EvGenerateRoutes server model models)) ->
  (forall l cfg, P (EvApiGenerator server mongoose l cfg)) ->
  keeps R (generateRoutes C server mongoose models logger config).
Proof.
  intros H1 H2 H3. unfold generateRoutes.
  apply keeps_bind; [now apply keeps_call | intros _].
  apply keeps_bind; [now apply keeps_generateRoutesFor | intros _].
  apply keeps_bind; [apply keeps_readonly, readonly_readData | intros cfg].
  now apply keeps_call.
Qed.

Lemma keeps_resolveSchemas options Log config :
  (forall m l cfg, P (EvModelGenerator m l cfg)) ->
  (forall l msg, P (EvLog LError l msg)) ->
  keeps R (resolveSchemas C options Log config).
Proof.
  intros H1 H2. unfold resolveSchemas.
  apply keeps_bind; [apply keeps_gets | intros [|]; [apply keeps_gets|]].
  apply keeps_tryCatch.
  - apply keeps_bind; [| intros p; apply keeps_liftRes].
    unfold callModelGenerator.
    apply keeps_bind; [apply keeps_readonly, readonly_readData | intros cfg].
    apply keeps_bind; [now apply keeps_emit | intros _].
    apply keeps_bind; [apply keeps_gets | intros t; apply keeps_ret].
  - intros err. destruct (includes _ _); [|apply keeps_throw].
    apply keeps_bind; [now apply keeps_emit | intros _; apply keeps_ret].
Qed.

Lemma keeps_callCreateConnection mongoose uri options :
  P (EvCreateConnection mongoose uri options) ->
  keeps R (callCreateConnection C mongoose uri options).
Proof.
  intros H. unfold callCreateConnection.
  apply keeps_bind; [now apply keeps_emit | intros _].
  apply keeps_bind; [apply keeps_gets | intros t].
  destruct (createConnection C t _ _ _); [apply keeps_throw | apply keeps_alloc].
Qed.

Lemma keeps_mongooseInit mongoose logger config request :
  P (connecting logger config) ->
  (forall uri options, P (EvCreateConnection mongoose uri options)) ->
  (forall level l msg, P (EvLog level l msg)) ->
  (forall w, R w (set_globals_mongoose mongoose w)) ->
  keeps R (mongooseInit C mongoose logger config request).
Proof.
  intros H1 H2 H3 H4. unfold mongooseInit.
  apply keeps_bind; [now apply keeps_emit | intros _].
  apply keeps_bind; [apply keeps_liftRes | intros configOptions].
  apply keeps_bind; [apply keeps_readonly, readonly_readConnections | intros conns].
  apply keeps_bind; [apply keeps_liftRes | intros name].
  apply keeps_bind; [apply keeps_gets | intros [existing|]].
  - apply keeps_bind; [now apply keeps_emit | intros _; apply keeps_ret].
  - apply keeps_bind; [apply keeps_liftRes | intros uri].
    apply keeps_bind; [now apply keeps_callCreateConnection | intros connection].
    apply keeps_bind; [apply keeps_alloc | intros entry].
    apply keeps_bind; [apply keeps_writeConnection | intros _].
    apply keeps_bind; [now apply keeps_modify | intros _].
    apply keeps_bind; [now apply keeps_emit | intros _; apply keeps_ret].
Qed.

Lemma keeps_registerRest server options Log config schema :
  (forall e, P e) ->
  (forall w v, R w (set_exported_schema v w)) ->
  (forall w v, R w (set_globalSchemas v w)) ->
  keeps R (registerRest C server options Log config schema).
Proof.
  intros HP H1 H2. unfold registerRest.
  apply keeps_bind; [now apply keeps_modify | intros _].
  apply keeps_bind; [now apply keeps_modify | intros _].
  apply keeps_bind; [apply keeps_readonly, readonly_readData | intros cfg].
  apply keeps_bind.
  - destruct (negb _); [now apply keeps_registerHapiSwagger | apply keeps_ret].
  - intros _. apply keeps_bind; [now apply keeps_registerMrHorse | intros _].
    now apply keeps_generateRoutes.
Qed.

Lemma keeps_registerSetup server options :
  (forall w w', trace w' = trace w -> heap w' = heap w -> R w w') ->
  P (EvValidator server Joi) ->
  P (EvExt server "onRequest" options) ->
  P (EvMethod server "dbConnect") ->
  (forall l, P (EvActionStart l "Initializing Server" None)) ->
  keeps R (registerSetup C server options).
Proof.
  intros Hf H1 H2 H3 H4. unfold registerSetup.
  assert (Hm : forall f, (forall w, trace (f w) = trace w /\ heap (f w) = heap w) ->
                         keeps R (modify f)).
  { intros f H. apply keeps_modify. intros w. now apply Hf; apply H. }
  apply keeps_bind; [now apply Hm | intros _].
  apply keeps_bind; [apply keeps_gets | intros t].
  apply keeps_bind.
  { destruct (realmValidator C t server).
    - now apply Hm.
    - apply keeps_bind; [now apply keeps_call | intros _]. now apply Hm. }
  intros _. apply keeps_bind; [apply keeps_gets | intros config].
  apply keeps_bind.
  { destruct (opt_config options); [apply keeps_extendConfig | apply keeps_ret]. }
  intros _. apply keeps_bind; [now apply Hm | intros _].
  apply keeps_bind; [apply keeps_getLogger | intros Log].
  apply keeps_bind; [now apply Hm | intros _].
  apply keeps_bind; [now apply keeps_call | intros _].
  apply keeps_bind.
  { destruct (isArray _); [now apply Hm | apply keeps_ret]. }
  intros _. apply keeps_bind; [now apply keeps_call | intros _].
  apply keeps_bind; [now apply keeps_emit | intros _].
  apply keeps_ret.
Qed.

End Keeps.

(** ** What a connection changes *)

Lemma module_kept_refl mongoose w : module_kept mongoose w w.
Proof. split; [apply same_surface_refl|]. auto. Qed.

Lemma module_kept_trans mongoose a b c :
  module_kept mongoose a b -> module_kept mongoose b c -> module_kept mongoose a c.
Proof.
  intros (S1 & G1 & X1 & M1) (S2 & G2 & X2 & M2).
  split; [now apply (same_surface_trans a b c)|].
  split; [congruence|]. split; [congruence|].
  destruct M2 as [M2 | M2]; [|now right].
  destruct M1 as [M1 | M1]; [left | right]; congruence.
Qed.

Lemma module_kept_heap mongoose w h : module_kept mongoose w (set_heap h w).
Proof. split; [now repeat split|]. auto. Qed.

Lemma module_kept_mongooseInit (C : Collaborators) mongoose logger config request :
  keeps (module_kept mongoose) (mongooseInit C mongoose logger config request).
Proof.
  apply (keeps_mongooseInit C (module_kept mongoose) (fun _ => True));
    first [ exact (module_kept_refl mongoose)
          | exact (module_kept_trans mongoose)
          | exact (module_kept_heap mongoose)
          | exact I
          | now intros
          | intros w e _; split; [now repeat split | auto]
          | intros w; split; [now repeat split | simpl; auto] ].
Qed.

(** X6.  Of the objects of requests and registrations (requests, stored
    connections, driver handles, models, configuration objects),
    [request.connect] changes only the request it is called on and the
    configuration object [options.config] of the registration the request
    came from, whether the call connects, finds the connection or fails.
    Of the module's own state it changes only [globals.mongoose], which
    becomes the registration's driver when it is not left as it was.  (The
    assignment [mongoose.Promise = Promise] is made on the driver itself,
    which is none of these objects.) *)
Theorem connect_touches_only_its_request (C : Collaborators) (request : loc)
    (override : JsVal) (w : World) conns options Log (l : loc) (o : Obj) :
  heap w !! request = Some (ORequest conns options Log) ->
  heap w !! l = Some o ->
  l <> request ->
  opt_config options <> Some l ->
  heap (snd (request_connect C request override w)) !! l = Some o
  /\ module_kept (opt_mongoose options) w (snd (request_connect C request override w)).
Proof.
  intros Hreq Hl Hne Hcfg. unfold request_connect. rewrite Hreq.
  unfold dbConnect.
  destruct (opt_config options) as [c|]; [|split; [exact Hl | apply module_kept_refl]].
  assert (Hlc : l <> c) by congruence.
  unfold bindM at 1 3, readData.
  destruct (heap w !! c) as [[cfg | | | |]|] eqn:Ec;
    try (split; [exact Hl | apply module_kept_refl]).
  destruct (getProperty cfg "mongo") eqn:Em;
    try (split; [ apply (preserves_holds_mongooseInit_other C l o); [now right | exact Hl]
                | apply module_kept_mongooseInit ]).
  unfold bindM at 1 2, store, modify. split.
  - apply (preserves_holds_mongooseInit_other C l o); [now right|].
    unfold holds. simpl. now rewrite lookup_insert_ne by congruence.
  - eapply module_kept_trans; [|apply module_kept_mongooseInit].
    apply module_kept_heap.
Qed.

Lemma connect_touches_only_its_request_witness :
  (heap (snd (request_connect Sample.working 6%positive VUndef Sample.pair)) !! 3%positive
   = Some (ORequest {[ "default" := 5%positive ]} (Sample.options 2%positive) Sample.api)
   /\ module_kept Sample.mongoose Sample.pair
        (snd (request_connect Sample.working 6%positive VUndef Sample.pair)))
  /\ heap (snd (request_connect Sample.working 6%positive VUndef Sample.pair)) !! 5%positive
     = Some (OConnection (VStr "default") ∅ (Some 4%positive)).
Proof.
  split.
  - apply (connect_touches_only_its_request Sample.working 6%positive VUndef Sample.pair
             ∅ (Sample.options 2%positive) Sample.api 3%positive).
    + vm_compute. reflexivity.
    + vm_compute. reflexivity.
    + discriminate.
    + discriminate.
  - apply (connect_touches_only_its_request Sample.working 6%positive VUndef Sample.pair
             ∅ (Sample.options 2%positive) Sample.api 5%positive).
    + vm_compute. reflexivity.
    + vm_compute. reflexivity.
    + discriminate.
    + discriminate.
Defined.

(** ** The first steps of [register], when they return *)

Lemma call_inv e answer w u w' :
  call e answer w = (Ok u, w') -> w' = set_trace (trace w ++ [e]) w.
Proof.
  unfold call, bindM, emit, modify, gets. simpl.
  destruct (answer _); [discriminate|]. unfold ret. now intros [= _ <-].
Qed.

Lemma extendConfig_inv target source w u w' :
  extendConfig target source w = (Ok u, w') ->
  (target = source /\ w' = w)
  \/ (target <> source /\ exists t s,
         heap w !! target = Some (OData t) /\ heap w !! source = Some (OData s)
         /\ w' = set_heap (<[target := OData (extend t [VObj Plain s])]> (heap w)) w).
Proof.
  unfold extendConfig. case_bool_decide as Hd.
  - intros [= _ <-]. now left.
  - intros E. right. split; [assumption|].
    apply bindM_inv in E as (t & w0 & Et & E).
    apply bindM_inv in E as (s & w0' & Es & E).
    unfold readData in Et, Es.
    destruct (heap w !! target) as [[]|] eqn:Ht; try discriminate.
    injection Et as <- <-.
    destruct (heap w !! source) as [[]|] eqn:Hs; try discriminate.
    injection Es as <- <-.
    unfold store, modify in E. injection E as _ <-. eauto.
Qed.

Lemma getLogger_inv (C : Collaborators) label w Log w' :
  exported_config w = defaultConfig w ->
  getLogger C label w = (Ok Log, w') ->
  w' = w /\ exists cfg,
      heap w !! defaultConfig w = Some (OData cfg)
      /\ Log = {| labels := [VStr (chalk_gray C label)];
                  logLevel := getProperty cfg "loglevel" |}.
Proof.
  intros He E. unfold getLogger in E.
  apply bindM_inv in E as (config & w0 & Ec & E). injection Ec as <- <-.
  apply bindM_inv in E as (exported & w0 & Ex & E). injection Ex as <- <-.
  apply bindM_inv in E as (u & w0 & Ee & E).
  apply extendConfig_inv in Ee as [[_ ->] | [Hne _]]; [|congruence].
  apply bindM_inv in E as (cfg & w0 & Er & E).
  unfold readData in Er.
  destruct (heap w !! defaultConfig w) as [[]|] eqn:Hd; try discriminate.
  injection Er as <- <-. injection E as <- <-. eauto.
Qed.

(** What [registerSetup] has published when it returns. *)
Lemma registerSetup_post (C : Collaborators) server options w Log config w1 :
  registerSetup C server options w = (Ok (Log, config), w1) ->
  config = defaultConfig w
  /\ exported_server w1 = Some server
  /\ exported_joi w1 = Some match realmValidator C (trace w) server with
                            | Some validator => validator
                            | None => Joi
                            end
  /\ exported_config w1 = defaultConfig w
  /\ exported_logger w1 = Some Log
  /\ pre w1 = (if isArray (opt_pre options) then opt_pre options else pre w)
  /\ modelsGenerated w1 = modelsGenerated w
  /\ globalSchemas w1 = globalSchemas w
  /\ defaultConfig w1 = defaultConfig w
  /\ (exists cfg, heap w1 !! defaultConfig w = Some (OData cfg)
                  /\ Log = {| labels := [VStr (chalk_gray C (VStr "api"))];
                              logLevel := getProperty cfg "loglevel" |})
  /\ match opt_config options with
     | Some c =>
         (c = defaultConfig w /\ heap w1 = heap w)
         \/ (c <> defaultConfig w /\ exists d u,
                heap w !! defaultConfig w = Some (OData d)
                /\ heap w !! c = Some (OData u)
                /\ heap w1 = <[defaultConfig w := OData (extend d [VObj Plain u])]> (heap w))
     | None => heap w1 = heap w
     end.
Proof.
  unfold registerSetup. intros E.
  apply bindM_inv in E as (u0 & wa & Ea & E). injection Ea as _ <-.
  apply bindM_inv in E as (t & wb & Eb & E). injection Eb as <- <-.
  simpl in E.
  apply bindM_inv in E as (u1 & wc & Ec & E).
  assert (Hc : exists tr, wc = set_trace tr
                 (set_exported_joi match realmValidator C (trace w) server with
                                   | Some validator => validator
                                   | None => Joi
                                   end (set_exported_server server w))).
  { destruct (realmValidator C (trace w) server).
    - injection Ec as _ <-. exists (trace w). now destruct w.
    - apply bindM_inv in Ec as (u2 & wv & Ev & Ec). apply call_inv in Ev. subst wv.
      injection Ec as _ <-. eexists. reflexivity. }
  destruct Hc as [tr ->]. clear Ec.
  apply bindM_inv in E as (c0 & wd & Ed & E). injection Ed as <- <-. simpl in E.
  apply bindM_inv in E as (u3 & we & Ee & E).
  set (joi := match realmValidator C (trace w) server with
              | Some validator => validator | None => Joi end) in *.
  set (w0 := set_trace tr (set_exported_joi joi (set_exported_server server w))) in *.
  assert (He : exists hp, we = set_heap hp w0 /\
                 match opt_config options with
                 | Some c =>
                     (c = defaultConfig w /\ hp = heap w)
                     \/ (c <> defaultConfig w /\ exists d u,
                            heap w !! defaultConfig w = Some (OData d)
                            /\ heap w !! c = Some (OData u)
                            /\ hp = <[defaultConfig w := OData (extend d [VObj Plain u])]>
                                      (heap w))
                 | None => hp = heap w
                 end).
  { destruct (opt_config options) as [c|].
    - apply extendConfig_inv in Ee as [[Hcc ->] | (Hne & d & u & Hd & Hu & ->)].
      + exists (heap w). split; [now destruct w | left; auto].
      + eexists. split; [reflexivity|]. right. split; [congruence|]. eauto.
    - injection Ee as _ <-. exists (heap w). split; [now destruct w | reflexivity]. }
  destruct He as (hp & -> & Hheap). clear Ee.
  apply bindM_inv in E as (u4 & wf & Ef & E). injection Ef as _ <-.
  apply bindM_inv in E as (Log' & wg & Eg & E).
  apply getLogger_inv in Eg as [-> (cfg & Hcfg & HLog)]; [|reflexivity].
  apply bindM_inv in E as (u5 & wh & Eh & E). injection Eh as _ <-.
  apply bindM_inv in E as (u6 & wi & Ei & E). apply call_inv in Ei. subst wi.
  apply bindM_inv in E as (u7 & wj & Ej & E).
  apply bindM_inv in E as (u8 & wk & Ek & E). apply call_inv in Ek. subst wk.
  apply bindM_inv in E as (u9 & wl & El & E). injection El as _ <-.
  injection E as <- <- <-.
  destruct (isArray (opt_pre options)); injection Ej as _ <-; simpl;
    (repeat split; try reflexivity; [exists cfg; split; [exact Hcfg | exact HLog] | exact Hheap]).
Qed.

(** X8.  Once its host calls have returned, [register] has published the
    server, the validator (the server's own, or else Joi), the default
    configuration object as [exported.config] and the logger labelled
    ['api']; [internals.pre] is [options.pre] when that is an array and is
    left as it was otherwise; the flag is untouched.  Whatever the later
    stages do, and however they end, these stay. *)
Theorem register_publishes (C : Collaborators) (server : Server) (options : Options)
    (w w1 : World) (Log : Logger) (config : loc) :
  registerSetup C server options w = (Ok (Log, config), w1) ->
  let w2 := snd (register C server options w) in
  exported_server w2 = Some server
  /\ exported_joi w2 = Some match realmValidator C (trace w) server with
                            | Some validator => validator
                            | None => Joi
                            end
  /\ exported_config w2 = defaultConfig w
  /\ defaultConfig w2 = defaultConfig w
  /\ exported_logger w2 = Some Log
  /\ labels Log = [VStr (chalk_gray C (VStr "api"))]
  /\ pre w2 = (if isArray (opt_pre options) then opt_pre options else pre w)
  /\ modelsGenerated w2 = modelsGenerated w.
Proof.
  intros Hs w2.
  destruct (registerSetup_post C server options w Log config w1 Hs)
    as (-> & P1 & P2 & P3 & P4 & P5 & P6 & _ & P8 & (cfg & _ & HLog) & _).
  assert (S : same_surface w1 w2).
  { unfold w2. rewrite (register_unfold C server options w), Hs.
    apply (keeps_bind same_surface same_surface_trans).
    - apply (keeps_resolveSchemas C same_surface (fun _ => True));
        try exact same_surface_refl; try exact same_surface_trans;
        intros; first [exact I | now repeat split].
    - intros schema.
      apply (keeps_registerRest C same_surface (fun _ => True));
        try exact same_surface_refl; try exact same_surface_trans;
        intros; first [exact I | now repeat split]. }
  destruct S as (S1 & S2 & S3 & S4 & S5 & S6 & S7).
  repeat split; try congruence. now rewrite HLog.
Qed.

Lemma register_publishes_witness :
  exported_server (snd (register Sample.working Sample.server Sample.bare
                          (initial (Sample.config "default")))) = Some Sample.server
  /\ exported_joi (snd (register Sample.working Sample.server Sample.bare
                          (initial (Sample.config "default")))) = Some Joi
  /\ exported_logger (snd (register Sample.working Sample.server Sample.bare
                             (initial (Sample.config "default")))) = Some Sample.api.
Proof.
  assert (Hs : registerSetup Sample.working Sample.server Sample.bare
                 (initial (Sample.config "default"))
               = (Ok (Sample.api, 1%positive),
                  snd (registerSetup Sample.working Sample.server Sample.bare
                         (initial (Sample.config "default")))))
    by (vm_compute; reflexivity).
  destruct (register_publishes Sample.working Sample.server Sample.bare _ _ _ _ Hs)
    as (H1 & H2 & _ & _ & H5 & _).
  split; [exact H1|]. split; [exact H2 | exact H5].
Defined.

(** A property the source defines as an object is merged, key by key, into
    the target's object of the same kind. *)
Lemma getProperty_extend_obj_merge options : forall target k kind o,
  List.NoDup (keys options) ->
  In k (keys options) ->
  getProperty options k = VObj kind o ->
  getProperty (extend_obj target options) k
  = VObj kind (extend_obj (cloneBase kind (getProperty target k)) o).
Proof.
  induction options as [|name copy rest IH]; intros target k kind o Hnd Hin Hv; simpl in *.
  - contradiction.
  - inversion Hnd as [|? ? Hnotin Hnd']; subst.
    destruct (String.eqb name k) eqn:E.
    + apply String.eqb_eq in E. subst name copy.
      rewrite getProperty_extend_obj_other by assumption.
      apply getProperty_setProperty_eq.
    + destruct Hin as [->|Hin]; [rewrite String.eqb_refl in E; discriminate|].
      rewrite (IH _ k kind o Hnd' Hin Hv).
      assert (Hne : name <> k) by (now apply String.eqb_neq).
      destruct copy; try reflexivity; now rewrite getProperty_setProperty_ne.
Qed.

(** X9.  [register] merges the caller's configuration into the default
    configuration object, which is the one it exports, and leaves the
    caller's object as it is.  In the merged configuration a setting the
    caller gives as a primitive value replaces the default, an object is
    merged key by key into the default's, and a setting the caller does not
    mention keeps its default; the logger's level is the merged
    [loglevel]. *)
Theorem register_merges_user_config (C : Collaborators) (server : Server)
    (options : Options) (w w1 : World) (Log : Logger) (config c : loc) :
  registerSetup C server options w = (Ok (Log, config), w1) ->
  opt_config options = Some c ->
  c <> defaultConfig w ->
  exists d u,
    heap w !! defaultConfig w = Some (OData d)
    /\ heap w !! c = Some (OData u)
    /\ exported_config w1 = defaultConfig w
    /\ heap w1 !! defaultConfig w = Some (OData (extend d [VObj Plain u]))
    /\ heap w1 !! c = Some (OData u)
    /\ logLevel Log = getProperty (extend d [VObj Plain u]) "loglevel"
    /\ (forall k v, List.NoDup (keys u) -> In k (keys u) -> getProperty u k = v ->
                    copied v -> getProperty (extend d [VObj Plain u]) k = v)
    /\ (forall k kind o, List.NoDup (keys u) -> In k (keys u) ->
                         getProperty u k = VObj kind o ->
                         getProperty (extend d [VObj Plain u]) k
                         = VObj kind (extend_obj (cloneBase kind (getProperty d k)) o))
    /\ (forall k, ~ In k (keys u) ->
                  getProperty (extend d [VObj Plain u]) k = getProperty d k).
Proof.
  intros Hs Ho Hne.
  destruct (registerSetup_post C server options w Log config w1 Hs)
    as (_ & _ & _ & P3 & _ & _ & _ & _ & _ & (cfg & Hcfg & HLog) & Hheap).
  rewrite Ho in Hheap.
  destruct Hheap as [[? _] | (_ & d & u & Hd & Hu & Hh)]; [contradiction|].
  exists d, u.
  assert (H1 : heap w1 !! defaultConfig w = Some (OData (extend d [VObj Plain u])))
    by (rewrite Hh; apply lookup_insert_eq).
  split; [exact Hd|]. split; [exact Hu|]. split; [exact P3|]. split; [exact H1|].
  split; [rewrite Hh; now rewrite lookup_insert_ne by congruence|].
  split; [rewrite H1 in Hcfg; injection Hcfg as <-; now rewrite HLog|].
  split; [|split].
  - intros k v Hnd Hin Hv Hc. now apply getProperty_extend_obj_set.
  - intros k kind o Hnd Hin Hv. now apply getProperty_extend_obj_merge.
  - intros k Hk. now apply getProperty_extend_obj_other.
Qed.

Lemma register_merges_user_config_witness :
  heap (snd (registerSetup Sample.working Sample.server (Sample.options 2%positive)
               Sample.loaded)) !! 1%positive
  = Some (OData (extend (Sample.config "default") [VObj Plain Sample.userConfig]))
  /\ getProperty (extend (Sample.config "default") [VObj Plain Sample.userConfig]) "mongo"
     = literal [("URI", VStr "mem://test"); ("defaultConnection", VStr "default")]
  /\ getProperty (extend (Sample.config "default") [VObj Plain Sample.userConfig])
       "appTitle"
     = VStr "rest-hapi API".
Proof.
  assert (Hs : registerSetup Sample.working Sample.server (Sample.options 2%positive)
                 Sample.loaded
               = (Ok (Sample.api, 1%positive),
                  snd (registerSetup Sample.working Sample.server
                         (Sample.options 2%positive) Sample.loaded)))
    by (vm_compute; reflexivity).
  assert (Xd : heap Sample.loaded !! defaultConfig Sample.loaded
               = Some (OData (Sample.config "default"))) by (vm_compute; reflexivity).
  assert (Xu : heap Sample.loaded !! (2%positive : loc) = Some (OData Sample.userConfig))
    by (vm_compute; reflexivity).
  destruct (register_merges_user_config Sample.working Sample.server
              (Sample.options 2%positive) Sample.loaded _ Sample.api 1%positive 2%positive
              Hs eq_refl)
    as (d & u & Hd & Hu & _ & H1 & _ & _ & _ & Hm & Hk); [discriminate|].
  rewrite Xd in Hd. injection Hd as <-.
  rewrite Xu in Hu. injection Hu as <-.
  split; [exact H1|]. split.
  - rewrite (Hm "mongo" Plain (obj_of_list [("URI", VStr "mem://test")])).
    + reflexivity.
    + repeat constructor. simpl. tauto.
    + simpl. auto.
    + reflexivity.
  - rewrite (Hk "appTitle"); [reflexivity|].
    simpl. intros [H|[]]. discriminate.
Defined.

(** ** Registration stages and what they call *)

Lemma resolveSchemas_heap (C : Collaborators) options Log config w :
  heap (snd (resolveSchemas C options Log config w)) = heap w.
Proof.
  apply (keeps_resolveSchemas C (fun w w' => heap w' = heap w) (fun _ => True));
    try (intros; exact I); try reflexivity.
  intros a b c H1 H2. congruence.
Qed.

(** X10.  With [disableSwagger] set in the merged configuration,
    [register] never registers the documentation plugins: none of the
    calls it makes, from its first to its last, hands inert, vision or
    hapi-swagger to [server.register]. *)
Theorem register_without_swagger (C : Collaborators) (server : Server)
    (options : Options) (w w1 : World) (Log : Logger) (config : loc) (cfg : JsObj) :
  registerSetup C server options w = (Ok (Log, config), w1) ->
  heap w1 !! config = Some (OData cfg) ->
  truthy (getProperty cfg "disableSwagger") = true ->
  calls undocumented w (snd (register C server options w)).
Proof.
  intros Hs Hc Hd.
  assert (U : forall e, (forall s ps, e <> EvServerRegister s ps) -> undocumented e).
  { intros e He. destruct e; try (now repeat split). now destruct (He server0 plugins). }
  assert (S1 : calls undocumented w w1).
  { pose proof (keeps_registerSetup C (calls undocumented) undocumented
                  (calls_refl _) (calls_trans _)) as K.
    specialize (K (fun w h => calls_silent _ w (set_heap h w) eq_refl)
                  (fun w e => calls_emit _ w e) server options).
    assert (K' : keeps (calls undocumented) (registerSetup C server options)).
    { apply K; try (intros; apply U; intros; discriminate).
      intros a b Ht _. now apply calls_silent. }
    specialize (K' w). now rewrite Hs in K'. }
  rewrite (register_unfold C server options w), Hs.
  apply (calls_trans _ _ _ _ S1).
  pose proof (keeps_resolveSchemas C (calls undocumented) undocumented
                (calls_refl _) (calls_trans _) (fun w e => calls_emit _ w e)
                options Log config) as K2.
  specialize (K2 ltac:(intros; apply U; intros; discriminate)
                 ltac:(intros; apply U; intros; discriminate) w1).
  pose proof (resolveSchemas_heap C options Log config w1) as Hh.
  unfold bindM.
  destruct (resolveSchemas C options Log config w1) as [[schema|err] w2];
    simpl in *; [|exact K2].
  apply (calls_trans _ _ _ _ K2).
  rewrite <- Hh in Hc.
  (* the stages after the schemas are stored *)
  unfold registerRest, bindM at 1, modify. unfold bindM at 1.
  set (w3 := set_globalSchemas schema (set_exported_schema schema w2)).
  rewrite (bindM_ok _ _ w3 cfg w3) by (apply readData_eq; exact Hc).
  rewrite Hd. simpl negb. cbv iota.
  rewrite (bindM_ok _ _ w3 tt w3) by reflexivity.
  apply (calls_trans _ w2 w3); [now apply calls_silent|].
  apply (keeps_bind (calls undocumented) (calls_trans _)).
  - apply (keeps_registerMrHorse C (calls undocumented) undocumented);
      try exact (calls_refl _); try exact (calls_trans _);
      try exact (fun w e => calls_emit _ w e);
      try (intros; apply U; intros; discriminate).
    intros o. now repeat split.
  - intros _.
    apply (keeps_generateRoutes C (calls undocumented) undocumented);
      try exact (calls_refl _); try exact (calls_trans _);
      try exact (fun w e => calls_emit _ w e);
      intros; apply U; intros; discriminate.
Qed.

Lemma register_without_swagger_witness :
  calls undocumented (initial Sample.headless)
    (snd (register Sample.working Sample.server Sample.bare (initial Sample.headless))).
Proof.
  assert (Hs : registerSetup Sample.working Sample.server Sample.bare
                 (initial Sample.headless)
               = (Ok (Sample.api, 1%positive),
                  snd (registerSetup Sample.working Sample.server Sample.bare
                         (initial Sample.headless))))
    by (vm_compute; reflexivity).
  apply (register_without_swagger Sample.working Sample.server Sample.bare
           (initial Sample.headless) _ Sample.api 1%positive Sample.headless Hs).
  - vm_compute. reflexivity.
  - reflexivity.
Defined.

(** ** What [mongooseInit] logs *)




(** ** The documentation plugin's options *)

Lemma getProperty_absent o k : ~ In k (keys o) -> getProperty o k = VUndef.
Proof.
  induction o as [|k' v r IH]; simpl; [reflexivity|]. intros H.
  destruct (String.eqb k' k) eqn:E; [|apply IH; tauto].
  apply String.eqb_eq in E. tauto.
Qed.

Lemma getProperty_assign_obj_other src : forall target k,
  ~ In k (keys src) -> getProperty (assign_obj target src) k = getProperty target k.
Proof.
  induction src as [|k' v r IH]; intros target k H; simpl in *; [reflexivity|].
  rewrite IH by tauto. apply getProperty_setProperty_ne. tauto.
Qed.

Lemma getProperty_assign_obj_set src : forall target k,
  List.NoDup (keys src) -> In k (keys src) ->
  getProperty (assign_obj target src) k = getProperty src k.
Proof.
  induction src as [|k' v r IH]; intros target k Hnd Hin; simpl in *; [contradiction|].
  inversion Hnd as [|? ? Hnotin Hnd']; subst.
  destruct (String.eqb k' k) eqn:E.
  - apply String.eqb_eq in E. subst k'.
    rewrite getProperty_assign_obj_other by assumption.
    apply getProperty_setProperty_eq.
  - destruct Hin as [->|Hin]; [rewrite String.eqb_refl in E; discriminate|].
    now apply IH.
Qed.

(** X12.  Whatever [config.swaggerOptions] says, the options
    [registerHapiSwagger] hands to hapi-swagger have [reuseDefinitions]
    false and an [info] whose [title] and [version] are the configuration's
    [appTitle] and [version]; the plugin is registered together with inert
    and vision in one call, the first the function makes.  When the caller
    supplies [info] as an object, that object is the configuration's own:
    the title and version are written into the configuration too.  An
    [info] that is a truthy primitive makes the function throw before it
    calls anything. *)
Theorem swagger_options_forced (C : Collaborators) (server : Server) (logger : Logger)
    (config : loc) (cfg : JsObj) (w : World) :
  heap w !! config = Some (OData cfg) ->
  List.NoDup (keys (enumerable (getProperty cfg "swaggerOptions"))) ->
  let given := getProperty (enumerable (getProperty cfg "swaggerOptions")) "info" in
  (truthy given = false \/ (exists kind o, given = VObj kind o) ->
   exists so kind info rest,
     trace (snd (registerHapiSwagger C server logger config w))
     = trace w ++ EvServerRegister server
                    [("inert", None); ("vision", None);
                     ("hapi-swagger", Some (VObj Plain so))] :: rest
     /\ getProperty so "reuseDefinitions" = VBool false
     /\ getProperty so "info" = VObj kind info
     /\ getProperty info "title" = getProperty cfg "appTitle"
     /\ getProperty info "version" = getProperty cfg "version"
     /\ (forall k o, given = VObj k o ->
           forall ks user, getProperty cfg "swaggerOptions" = VObj ks user ->
             heap (snd (registerHapiSwagger C server logger config w)) !! config
             = Some (OData (setProperty cfg "swaggerOptions"
                              (VObj ks (setProperty user "info" (VObj kind info)))))))
  /\ (truthy given = true -> (forall kind o, given <> VObj kind o) ->
      exists msg,
        registerHapiSwagger C server logger config w = (Throw (TypeError msg), w)).
Proof.
  intros Hc Hnd given.
  set (defaults := obj_of_list
      [("documentationPath", VStr "/");
       ("host", getProperty cfg "swaggerHost");
       ("expanded", getProperty cfg "docExpansion");
       ("swaggerUI", getProperty cfg "enableSwaggerUI");
       ("documentationPage", getProperty cfg "enableSwaggerUI");
       ("schemes",
        VObj Array (obj_of_list
          [("0", VStr (if truthy (getProperty cfg "enableSwaggerHttps")
                       then "https" else "http"))]))]).
  set (merged := if truthy (getProperty cfg "swaggerOptions")
                 then assign defaults (getProperty cfg "swaggerOptions")
                 else defaults).
  assert (Hinfo : getProperty merged "info" = given).
  { unfold merged, given.
    destruct (truthy (getProperty cfg "swaggerOptions")) eqn:Et.
    - unfold assign.
      destruct (in_dec String.string_dec "info"
                  (keys (enumerable (getProperty cfg "swaggerOptions")))) as [Hin|Hin].
      + now apply getProperty_assign_obj_set.
      + rewrite getProperty_assign_obj_other by assumption.
        now rewrite (getProperty_absent _ _ Hin).
    - destruct (getProperty cfg "swaggerOptions") as [| | [] | n | s |]; try discriminate;
        try reflexivity.
      destruct s; [reflexivity | discriminate]. }
  assert (Hforced : forall X, getProperty (setProperty (setProperty merged "info" X)
                                  "reuseDefinitions" (VBool false)) "info" = X).
  { intros X. rewrite getProperty_setProperty_ne by discriminate.
    apply getProperty_setProperty_eq. }
  unfold registerHapiSwagger.
  rewrite (bindM_ok _ _ w cfg w) by (now apply readData_eq).
  cbv zeta. fold defaults. fold merged. rewrite Hinfo.
  split.
  - intros [Hf | (kind & o & Ho)].
    + rewrite Hf. simpl negb. cbv iota.
      rewrite (bindM_ok _ _ w _ w) by reflexivity.
      eexists _, Plain, _.
      assert (Hrest : forall e ans w0, exists rest,
                 trace (snd ((call e ans ;; emit (EvLog LInfo
                     (bind logger (VStr "register-hapi-swagger"))
                     "hapi-swagger plugin registered")) w0)) = trace w0 ++ e :: rest).
      { intros e ans w0. unfold call, bindM, emit, modify, gets. simpl.
        destruct (ans _); simpl; [now exists []|].
        rewrite <- app_assoc. eauto. }
      destruct (Hrest (EvServerRegister server
                  [("inert", None); ("vision", None);
                   ("hapi-swagger", Some (VObj Plain
                      (setProperty (setProperty merged "info"
                         (literal [("title", getProperty cfg "appTitle");
                                   ("version", getProperty cfg "version")]))
                         "reuseDefinitions" (VBool false))))])
                 (fun t => serverRegister C t server
                  [("inert", None); ("vision", None);
                   ("hapi-swagger", Some (VObj Plain
                      (setProperty (setProperty merged "info"
                         (literal [("title", getProperty cfg "appTitle");
                                   ("version", getProperty cfg "version")]))
                         "reuseDefinitions" (VBool false))))]) w) as [rest Hr].
      exists rest. split; [exact Hr|].
      split; [apply getProperty_setProperty_eq|].
      split; [apply Hforced|]. split; [reflexivity|]. split; [reflexivity|].
      intros k o Hg. rewrite Hg in Hf. discriminate.
    + rewrite Ho. simpl negb. cbv iota.
      set (info' := setProperty (setProperty o "title" (getProperty cfg "appTitle"))
                                "version" (getProperty cfg "version")).
      set (so := setProperty (setProperty merged "info" (VObj kind info'))
                             "reuseDefinitions" (VBool false)).
      assert (Hso : forall w0,
                 exists rest,
                   trace (snd ((callServerRegister C server
                                  [("inert", None); ("vision", None);
                                   ("hapi-swagger", Some (VObj Plain so))] ;;
                                emit (EvLog LInfo
                                        (bind logger (VStr "register-hapi-swagger"))
                                        "hapi-swagger plugin registered")) w0))
                   = trace w0 ++ EvServerRegister server
                                   [("inert", None); ("vision", None);
                                    ("hapi-swagger", Some (VObj Plain so))] :: rest
                   /\ heap (snd ((callServerRegister C server
                                  [("inert", None); ("vision", None);
                                   ("hapi-swagger", Some (VObj Plain so))] ;;
                                emit (EvLog LInfo
                                        (bind logger (VStr "register-hapi-swagger"))
                                        "hapi-swagger plugin registered")) w0))
                      = heap w0).
      { intros w0. unfold callServerRegister, call, bindM, emit, modify, gets. simpl.
        destruct (serverRegister C _ _ _); simpl; [now exists []|].
        rewrite <- app_assoc. eauto. }
      exists so, kind, info'.
      destruct (getProperty cfg "swaggerOptions") as [| | | | | ks user] eqn:Eu.
      1-5: rewrite (bindM_ok _ _ w _ w) by reflexivity;
           destruct (Hso w) as (rest & Hr & _); exists rest;
           (split; [exact Hr|]); (split; [apply getProperty_setProperty_eq|]);
           (split; [apply Hforced|]);
           (split; [unfold info'; rewrite getProperty_setProperty_ne by discriminate;
                    apply getProperty_setProperty_eq|]);
           (split; [apply getProperty_setProperty_eq|]);
           intros; discriminate.
      set (w0 := set_heap (<[config := OData (setProperty cfg "swaggerOptions"
                               (VObj ks (setProperty user "info" (VObj kind info'))))]>
                             (heap w)) w).
      rewrite (bindM_ok _ _ w _ w0) by reflexivity.
      destruct (Hso w0) as (rest & Hr & Hh). exists rest.
      split; [exact Hr|]. split; [apply getProperty_setProperty_eq|].
      split; [apply Hforced|].
      split; [unfold info'; rewrite getProperty_setProperty_ne by discriminate;
              apply getProperty_setProperty_eq|].
      split; [apply getProperty_setProperty_eq|].
      intros k0 o0 _ ks0 user0 [= <- <-].
      etransitivity; [apply (f_equal (fun h => h !! config) Hh)|].
      apply lookup_insert_eq.
  - intros Ht Hno. rewrite Ht. simpl negb. cbv iota.
    destruct given as [| | | | | kind o] eqn:Eg; try (eexists; reflexivity).
    now destruct (Hno kind o).
Qed.

Lemma swagger_options_forced_witness :
  exists so kind info rest,
    trace (snd (registerHapiSwagger Sample.working Sample.server Sample.api 1%positive
                  (initial Sample.documented)))
    = trace (initial Sample.documented)
      ++ EvServerRegister Sample.server
           [("inert", None); ("vision", None); ("hapi-swagger", Some (VObj Plain so))]
         :: rest
    /\ getProperty so "reuseDefinitions" = VBool false
    /\ getProperty so "info" = VObj kind info
    /\ getProperty info "title" = VStr "Shop"
    /\ getProperty info "version" = VStr "2.1.0".
Proof.
  destruct (swagger_options_forced Sample.working Sample.server Sample.api 1%positive
              Sample.documented (initial Sample.documented) eq_refl) as [H _].
  - repeat constructor; simpl; intuition discriminate.
  - destruct H as (so & kind & info & rest & H1 & H2 & H3 & H4 & H5 & _).
    + right. eexists _, _. reflexivity.
    + exists so, kind, info, rest. auto.
Defined.

(** ** The calls of the last two stages *)

Lemma call_eq e answer w :
  call e answer w
  = (match answer (trace w ++ [e]) with None => Ok tt | Some err => Throw err end,
     set_trace (trace w ++ [e]) w).
Proof. unfold call, bindM, emit, modify, gets. simpl. now destruct (answer _). Qed.

Lemma bindM_assoc {A B D} (m : M A) (f : A -> M B) (k : B -> M D) w :
  bindM (bindM m f) k w = bindM m (fun a => bindM (f a) k) w.
Proof. unfold bindM. now destruct (m w) as [[a|e] w1]. Qed.

Lemma performs_call e answer {A} (k : M A) w expected :
  performs k (set_trace (trace w ++ [e]) w) expected ->
  performs (call e answer ;; k) w (e :: expected).
Proof.
  intros Hk.
  assert (E : (call e answer ;; k) w
              = match answer (trace w ++ [e]) with
                | None => k (set_trace (trace w ++ [e]) w)
                | Some err => (Throw err, set_trace (trace w ++ [e]) w)
                end).
  { unfold bindM at 1. rewrite call_eq. now destruct (answer _). }
  unfold performs. rewrite E.
  destruct (answer (trace w ++ [e])) as [err|].
  - exists [e], expected. split; [reflexivity|]. split; [reflexivity|]. discriminate.
  - destruct Hk as (made & later & Ex & S & F).
    exists (e :: made), later. split; [now rewrite Ex|]. split; [|exact F].
    rewrite S. simpl. now rewrite <- app_assoc.
Qed.

Lemma performs_generateRoutesFor (C : Collaborators) server models {A} (k : M A) tail :
  forall ks w,
    (forall t, performs k (set_trace t w) tail) ->
    performs (generateRoutesFor C server ks models ;; k) w
      (map (fun modelKey =>
              EvGenerateRoutes server (getProperty (enumerable models) modelKey) models) ks
       ++ tail).
Proof.
  induction ks as [|key ks IH]; intros w Hk.
  - simpl. specialize (Hk (trace w)).
    replace (set_trace (trace w) w) with w in Hk by (now destruct w). exact Hk.
  - simpl.
    assert (E : (bindM (bindM (call (EvGenerateRoutes server
                                        (getProperty (enumerable models) key) models)
                                     (fun t => restGenerateRoutes C t server
                                                 (getProperty (enumerable models) key)))
                              (fun _ => generateRoutesFor C server ks models))
                       (fun _ => k)) w
                = bindM (call (EvGenerateRoutes server
                                 (getProperty (enumerable models) key) models)
                              (fun t => restGenerateRoutes C t server
                                          (getProperty (enumerable models) key)))
                        (fun _ => bindM (generateRoutesFor C server ks models)
                                        (fun _ => k)) w)
      by apply bindM_assoc.
    unfold performs. rewrite E.
    apply performs_call. apply IH. intros t. apply Hk.
Qed.

Lemma performs_last e answer w : performs (call e answer) w [e].
Proof.
  exists [e], []. rewrite call_eq. split; [reflexivity|]. split; reflexivity.
Qed.

Lemma generateRoutesFor_returns (C : Collaborators) server models :
  (forall t model, restGenerateRoutes C t server model = None) ->
  forall ks w,
    fst (generateRoutesFor C server ks models w) = Ok tt
    /\ heap (snd (generateRoutesFor C server ks models w)) = heap w.
Proof.
  intros Hok. induction ks as [|key ks IH]; intros w; [now split|].
  simpl. unfold bindM. rewrite call_eq, Hok.
  destruct (IH (set_trace (trace w ++
                  [EvGenerateRoutes server (getProperty (enumerable models) key) models])
                  w)) as [H1 H2].
  split; [exact H1 | exact H2].
Qed.

(** X13.  [generateRoutes] makes the helper, asks it for the routes of
    each model in the order the schema registry lists them, handing it the
    model and the whole registry, and then calls the generator of custom
    endpoints; a call that throws ends it there.  A registry that is
    [undefined], as after a swallowed build failure, has no keys: no model
    routes are generated, but the custom endpoints still are.  When the
    collaborators return, so does [generateRoutes]. *)
Theorem generateRoutes_calls (C : Collaborators) (server : Server) (mongoose : Mongoose)
    (models : JsVal) (logger : Logger) (config : loc) (cfg : JsObj) (w : World) :
  heap w !! config = Some (OData cfg) ->
  performs (generateRoutes C server mongoose models logger config) w
           (routeCalls server mongoose models logger cfg)
  /\ routeCalls server mongoose VUndef logger cfg
     = [EvRestHelperFactory logger mongoose server;
        EvApiGenerator server mongoose (bind logger VUndef) (VObj Plain cfg)]
  /\ ((forall t, restHelperFactory C t mongoose server = None) ->
      (forall t model, restGenerateRoutes C t server model = None) ->
      (forall t, apiGenerator C t server mongoose (VObj Plain cfg) = None) ->
      generateRoutes C server mongoose models logger config w
      = (Ok tt, set_trace (trace w ++ routeCalls server mongoose models logger cfg) w)).
Proof.
  intros Hc.
  assert (P : performs (generateRoutes C server mongoose models logger config) w
                       (routeCalls server mongoose models logger cfg)).
  { unfold generateRoutes, routeCalls. cbv zeta.
    apply performs_call. apply performs_generateRoutesFor. intros t.
    unfold performs.
    rewrite (bindM_ok _ _ _ cfg (set_trace t (set_trace
               (trace w ++ [EvRestHelperFactory logger mongoose server]) w)))
      by (apply readData_eq; exact Hc).
    apply performs_last. }
  split; [exact P|]. split; [reflexivity|].
  intros H1 H2 H3.
  assert (R : fst (generateRoutes C server mongoose models logger config w) = Ok tt).
  { unfold generateRoutes. cbv zeta. unfold bindM at 1. rewrite call_eq, H1.
    set (w1 := set_trace _ w).
    destruct (generateRoutesFor_returns C server models H2 (keys (enumerable models)) w1)
      as [F Hh].
    unfold bindM at 1.
    destruct (generateRoutesFor C server (keys (enumerable models)) models w1)
      as [[[]|e] w2]; simpl in F, Hh; [|discriminate].
    rewrite (bindM_ok _ _ w2 cfg w2) by (apply readData_eq; now rewrite Hh).
    rewrite call_eq, H3. reflexivity. }
  destruct P as (made & later & E & S & F).
  rewrite (surjective_pairing (generateRoutes C server mongoose models logger config w)).
  rewrite R, S, E, (F tt R), app_nil_r. reflexivity.
Qed.

Lemma generateRoutes_calls_witness :
  generateRoutes Sample.working Sample.server Sample.mongoose Sample.schemas Sample.api
    1%positive (initial (Sample.config "default"))
  = (Ok tt,
     set_trace
       [EvRestHelperFactory Sample.api Sample.mongoose Sample.server;
        EvGenerateRoutes Sample.server
          (literal [("Schema", literal [("fields", VStr "a")])]) Sample.schemas;
        EvGenerateRoutes Sample.server
          (literal [("Schema", literal [("fields", VStr "b")])]) Sample.schemas;
        EvApiGenerator Sample.server Sample.mongoose (bind Sample.api VUndef)
          (VObj Plain (Sample.config "default"))]
       (initial (Sample.config "default"))).
Proof.
  destruct (generateRoutes_calls Sample.working Sample.server Sample.mongoose
              Sample.schemas Sample.api 1%positive (Sample.config "default")
              (initial (Sample.config "default")) eq_refl) as (_ & _ & H).
  rewrite H; [reflexivity | | |]; intros; reflexivity.
Defined.

(** X14.  [registerMrHorse] registers the policy engine with the directory
    computed from the configuration, then, only when [enablePolicies] is
    set, loads the policies of the module's own directory, whatever
    [policyPath] says, and then logs; a call that throws ends it there, and
    when the host and the engine return, so does [registerMrHorse]. *)
Theorem registerMrHorse_calls (C : Collaborators) (server : Server) (logger : Logger)
    (config : loc) (cfg : JsObj) (w : World) :
  heap w !! config = Some (OData cfg) ->
  performs (registerMrHorse C server logger config) w (policyCalls C server logger cfg)
  /\ ((forall t plugins, serverRegister C t server plugins = None) ->
      (forall t options, loadPolicies C t server options = None) ->
      registerMrHorse C server logger config w
      = (Ok tt, set_trace (trace w ++ policyCalls C server logger cfg) w)).
Proof.
  intros Hc.
  set (e1 := EvServerRegister server
               [("mrhorse", Some (literal [("policyDirectory", policyPath C cfg)]))]).
  set (e2 := EvLoadPolicies server
               (literal [("policyDirectory", VStr (builtinPolicies C))])).
  set (e3 := EvLog LInfo (bind logger (VStr "register-MrHorse"))
               "MrHorse plugin registered").
  assert (E : registerMrHorse C server logger config w
              = match serverRegister C (trace w ++ [e1]) server
                        [("mrhorse", Some (literal [("policyDirectory", policyPath C cfg)]))]
                with
                | Some err => (Throw err, set_trace (trace w ++ [e1]) w)
                | None =>
                    if truthy (getProperty cfg "enablePolicies") then
                      match loadPolicies C (trace w ++ [e1; e2]) server
                              (literal [("policyDirectory", VStr (builtinPolicies C))])
                      with
                      | Some err => (Throw err, set_trace (trace w ++ [e1; e2]) w)
                      | None => (Ok tt, set_trace (trace w ++ [e1; e2; e3]) w)
                      end
                    else (Ok tt, set_trace (trace w ++ [e1; e3]) w)
                end).
  { unfold registerMrHorse. cbv zeta.
    rewrite (bindM_ok _ _ w cfg w) by (now apply readData_eq).
    unfold callServerRegister. unfold bindM at 1. rewrite call_eq. fold e1.
    destruct (serverRegister C _ _ _); [reflexivity|].
    destruct (truthy (getProperty cfg "enablePolicies")).
    - unfold bindM at 1. rewrite call_eq. simpl trace. rewrite <- app_assoc. simpl app.
      fold e2. destruct (loadPolicies C _ _ _); [reflexivity|].
      unfold emit, modify. simpl. rewrite <- app_assoc. reflexivity.
    - unfold bindM, ret, emit, modify. simpl. rewrite <- app_assoc. reflexivity. }
  split.
  - unfold performs, policyCalls. fold e1 e2 e3. rewrite E.
    destruct (serverRegister C _ _ _).
    + exists [e1]. eexists. split; [reflexivity|]. split; [reflexivity | discriminate].
    + destruct (truthy (getProperty cfg "enablePolicies")).
      * destruct (loadPolicies C _ _ _).
        -- exists [e1; e2], [e3]. split; [reflexivity|]. split; [reflexivity | discriminate].
        -- exists [e1; e2; e3], []. split; [reflexivity|]. split; reflexivity.
      * exists [e1; e3], []. split; [reflexivity|]. split; reflexivity.
  - intros H1 H2. rewrite E, H1. unfold policyCalls. fold e1 e2 e3.
    destruct (truthy (getProperty cfg "enablePolicies")); [rewrite H2|]; reflexivity.
Qed.

Lemma registerMrHorse_calls_witness :
  registerMrHorse Sample.working Sample.server Sample.api 1%positive
    (initial Sample.headless)
  = (Ok tt,
     set_trace
       [EvServerRegister Sample.server
          [("mrhorse", Some (literal [("policyDirectory", VStr "/x/y")]))];
        EvLoadPolicies Sample.server
          (literal [("policyDirectory",
                     VStr "/srv/app/node_modules/rest-hapi/policies")]);
        EvLog LInfo (bind Sample.api (VStr "register-MrHorse"))
          "MrHorse plugin registered"]
       (initial Sample.headless)).
Proof.
  destruct (registerMrHorse_calls Sample.working Sample.server Sample.api 1%positive
              Sample.headless (initial Sample.headless) eq_refl) as (_ & H).
  rewrite H; [reflexivity | |]; intros; reflexivity.
Defined.

(** ** The policy directory of an application *)

Lemma length_append a b : String.length (a +:+ b) = String.length a + String.length b.
Proof. induction a as [|c a IH]; simpl; [reflexivity | now rewrite IH]. Qed.

Lemma substring_skip a b n m :
  substring (String.length a + n) m (a +:+ b) = substring n m b.
Proof. induction a as [|c a IH]; simpl; [reflexivity | exact IH]. Qed.

Lemma substring_prefix a b : substring 0 (String.length a) (a +:+ b) = a.
Proof. induction a as [|c a IH]; simpl; [now destruct b | now rewrite IH]. Qed.

Lemma substring_whole b : substring 0 (String.length b) b = b.
Proof. induction b as [|c b IH]; simpl; [reflexivity | now rewrite IH]. Qed.

(** The first occurrence of a pattern, from where it is known to be. *)
Lemma index_first pat root rest :
  pat <> "" ->
  (forall i, i < String.length root ->
             substring i (String.length pat) (root +:+ pat +:+ rest) <> pat) ->
  index 0 pat (root +:+ pat +:+ rest) = Some (String.length root).
Proof.
  intros Hne Hfirst.
  assert (Hat : substring (String.length root) (String.length pat) (root +:+ pat +:+ rest)
                = pat).
  { rewrite <- (Nat.add_0_r (String.length root)), substring_skip.
    apply substring_prefix. }
  destruct (index 0 pat (root +:+ pat +:+ rest)) as [m|] eqn:E.
  - destruct (Nat.lt_trichotomy m (String.length root)) as [Hlt | [-> | Hgt]].
    + destruct (Hfirst m Hlt). now apply (index_correct1 0).
    + reflexivity.
    + destruct (index_correct2 0 m pat _ E (String.length root)); auto with arith.
  - destruct (index_correct3 0 (String.length root) pat _ E Hne); auto with arith.
Qed.

(** X15.  A policy path that is not absolute is put in the place of
    [node_modules/rest-hapi] in the module's directory: with the module
    installed there, the policy directory is the relative path resolved
    against the directory that holds [node_modules].  With the module
    anywhere else the segment does not occur, and the policy directory is
    the module's own directory, whatever [policyPath] says.  (The path is
    taken to have no [$], which [replace] would expand.) *)
Theorem relative_policy_path (C : Collaborators) (cfg : JsObj) :
  truthy (getProperty cfg "enablePolicies") = true ->
  strictEq (getProperty cfg "absolutePolicyPath") (VBool true) = false ->
  index 0 "$" (toStr (getProperty cfg "policyPath")) = None ->
  let segment := path_join C "node_modules" "rest-hapi" in
  (forall root rest,
      dirname C = root +:+ segment +:+ rest ->
      segment <> "" ->
      (forall i, i < String.length root ->
                 substring i (String.length segment) (dirname C) <> segment) ->
      policyPath C cfg = VStr (root +:+ toStr (getProperty cfg "policyPath") +:+ rest))
  /\ ((forall i, substring i (String.length segment) (dirname C) <> segment) ->
      policyPath C cfg = VStr (dirname C)).
Proof.
  intros He Ha _ segment. unfold policyPath. rewrite He, Ha. fold segment.
  unfold replace. split.
  - intros root rest Hd Hne Hfirst. rewrite Hd in *.
    rewrite (index_first segment root rest Hne Hfirst). f_equal.
    rewrite substring_prefix. f_equal. f_equal.
    rewrite !length_append.
    replace (String.length root + (String.length segment + String.length rest)
             - (String.length root + String.length segment))
      with (String.length rest) by lia.
    replace (String.length root + String.length segment)
      with (String.length root + (String.length segment + 0)) by lia.
    rewrite substring_skip, substring_skip. apply substring_whole.
  - intros Hnone.
    destruct (index 0 segment (dirname C)) as [m|] eqn:E; [|reflexivity].
    destruct (Hnone m). now apply (index_correct1 0).
Qed.

Lemma relative_policy_path_witness :
  policyPath Sample.working Sample.guarded = VStr "/srv/app/policies".
Proof.
  destruct (relative_policy_path Sample.working Sample.guarded eq_refl eq_refl eq_refl)
    as [H _].
  apply (H "/srv/app/" "" eq_refl).
  - discriminate.
  - intros i Hi. do 9 (destruct i as [|i]; [discriminate|]). simpl in Hi. lia.
Defined.

(** ** The logger *)

(** X16.  [getLogger] returns a logger labelled with the label in gray
    whose level is the [loglevel] of the configuration as merged at that
    moment.  When [exported.config] is still the default configuration
    object nothing is written; when the caller has put another object
    there, that object is merged into the default configuration, so its
    [loglevel], if it gives one, is the logger's level, and the default's
    otherwise. *)
Theorem getLogger_level (C : Collaborators) (label : JsVal) (w : World) (d x : JsObj) :
  heap w !! defaultConfig w = Some (OData d) ->
  heap w !! exported_config w = Some (OData x) ->
  exists Log w1 merged,
    getLogger C label w = (Ok Log, w1)
    /\ labels Log = [VStr (chalk_gray C label)]
    /\ logLevel Log = getProperty merged "loglevel"
    /\ heap w1 !! defaultConfig w = Some (OData merged)
    /\ (exported_config w = defaultConfig w -> w1 = w /\ merged = d)
    /\ (exported_config w <> defaultConfig w ->
        merged = extend d [VObj Plain x]
        /\ heap w1 !! exported_config w = Some (OData x)
        /\ (forall v, List.NoDup (keys x) -> In "loglevel" (keys x) ->
                      getProperty x "loglevel" = v -> copied v -> logLevel Log = v)
        /\ (~ In "loglevel" (keys x) -> logLevel Log = getProperty d "loglevel")).
Proof.
  intros Hd Hx.
  destruct (decide (exported_config w = defaultConfig w)) as [He | Hne].
  - exists {| labels := [VStr (chalk_gray C label)];
              logLevel := getProperty d "loglevel" |}, w, d.
    split; [now apply getLogger_eq|]. split; [reflexivity|]. split; [reflexivity|].
    split; [exact Hd|]. split; [auto | contradiction].
  - set (merged := extend d [VObj Plain x]).
    set (w1 := set_heap (<[defaultConfig w := OData merged]> (heap w)) w).
    exists {| labels := [VStr (chalk_gray C label)];
              logLevel := getProperty merged "loglevel" |}, w1, merged.
    split.
    { unfold getLogger, bindM at 1, gets. unfold bindM at 1.
      assert (E : extendConfig (defaultConfig w) (exported_config w) w = (Ok tt, w1)).
      { unfold extendConfig. rewrite bool_decide_eq_false_2 by congruence.
        rewrite (bindM_ok _ _ w d w) by (now apply readData_eq).
        rewrite (bindM_ok _ _ w x w) by (now apply readData_eq).
        reflexivity. }
      rewrite (bindM_ok _ _ _ _ _ E).
      rewrite (bindM_ok _ _ w1 merged w1); [reflexivity|].
      apply readData_eq. unfold w1. simpl. apply lookup_insert_eq. }
    split; [reflexivity|]. split; [reflexivity|].
    split; [unfold w1; simpl; apply lookup_insert_eq|].
    split; [contradiction|]. intros _.
    split; [reflexivity|].
    split; [unfold w1; simpl; now rewrite lookup_insert_ne by congruence|].
    split.
    + intros v Hnd Hin Hv Hc. simpl. now apply getProperty_extend_obj_set.
    + intros Hin. simpl. now apply getProperty_extend_obj_other.
Qed.

Lemma getLogger_level_witness :
  exists w1,
    getLogger Sample.working (VStr "jobs") Sample.reconfigured
    = (Ok {| labels := [VStr "jobs"]; logLevel := VStr "ERROR" |}, w1).
Proof.
  assert (Hd : heap Sample.reconfigured !! defaultConfig Sample.reconfigured
               = Some (OData (Sample.config "default"))) by (vm_compute; reflexivity).
  assert (Hx : heap Sample.reconfigured !! exported_config Sample.reconfigured
               = Some (OData (obj_of_list [("loglevel", VStr "ERROR")])))
    by (vm_compute; reflexivity).
  destruct (getLogger_level Sample.working (VStr "jobs") Sample.reconfigured _ _ Hd Hx)
    as ([ls lv] & w1 & merged & E & Hl & Hv & _ & _ & Hm).
  destruct Hm as (_ & _ & Hset & _); [discriminate|].
  simpl in Hl, Hset. subst ls.
  rewrite (Hset (VStr "ERROR")) in E.
  - now exists w1.
  - repeat constructor. simpl. tauto.
  - simpl. auto.
  - reflexivity.
  - exact I.
Defined.

(** ** What the driver is asked *)

(** X17.  For a name without a live connection, [mongooseInit] asks the
    driver for a connection to [config.URI] right after the announcement,
    with options that carry every property of [config.options] and, for
    the two it does not mention, [useNewUrlParser] and [useUnifiedTopology]
    set to [true]: the caller's options override these defaults. *)
Theorem connect_driver_options (C : Collaborators) (mongoose : Mongoose)
    (logger : Logger) (config : JsVal) (request : loc) (w : World)
    conns env lg opts name uri :
  heap w !! request = Some (ORequest conns env lg) ->
  member config "options" = Ok opts ->
  member config "name" = Ok name ->
  member config "URI" = Ok uri ->
  liveIn (heap w) (conns !! toStr name) = None ->
  List.NoDup (keys (enumerable opts)) ->
  exists options rest,
    trace (snd (mongooseInit C mongoose logger config request w))
    = trace w ++ connecting logger config
                 :: EvCreateConnection mongoose uri options :: rest
    /\ (forall k, In k (keys (enumerable opts)) ->
                  member options k = Ok (getProperty (enumerable opts) k))
    /\ (~ In "useNewUrlParser" (keys (enumerable opts)) ->
        member options "useNewUrlParser" = Ok (VBool true))
    /\ (~ In "useUnifiedTopology" (keys (enumerable opts)) ->
        member options "useUnifiedTopology" = Ok (VBool true))
    /\ (forall k, ~ In k (keys (enumerable opts)) ->
                  k <> "useNewUrlParser" -> k <> "useUnifiedTopology" ->
                  member options k = Ok VUndef).
Proof.
  intros Hr Ho Hn Hu Hl Hnd.
  exists (driverOptions opts).
  assert (T : exists rest,
             trace (snd (mongooseInit C mongoose logger config request w))
             = trace w ++ connecting logger config
                 :: EvCreateConnection mongoose uri (driverOptions opts) :: rest).
  { destruct (createConnection C
                (trace w ++ [connecting logger config;
                             EvCreateConnection mongoose uri (driverOptions opts)])
                mongoose uri (driverOptions opts)) as [err|] eqn:Ec.
    - rewrite (mongooseInit_refused C mongoose logger config request w conns env lg
                 opts name uri err Hr Ho Hn Hu Hl Ec).
      now exists [].
    - rewrite (mongooseInit_new C mongoose logger config request w conns env lg
                 opts name uri Hr Ho Hn Hu Hl Ec).
      simpl. rewrite <- app_assoc. simpl. eauto. }
  destruct T as [rest T]. exists rest. split; [exact T|].
  unfold driverOptions, member, assign. simpl enumerable.
  split; [|split; [|split]].
  - intros k Hk. f_equal. now apply getProperty_assign_obj_set.
  - intros Hk. f_equal. now rewrite getProperty_assign_obj_other.
  - intros Hk. f_equal. now rewrite getProperty_assign_obj_other.
  - intros k Hk H1 H2. f_equal. rewrite getProperty_assign_obj_other by assumption.
    cbn [getProperty obj_of_list].
    destruct (String.eqb "useNewUrlParser" k) eqn:E1;
      [apply String.eqb_eq in E1; congruence|].
    destruct (String.eqb "useUnifiedTopology" k) eqn:E2;
      [apply String.eqb_eq in E2; congruence|].
    reflexivity.
Qed.

Lemma connect_driver_options_witness :
  exists options rest,
    trace (snd (mongooseInit Sample.working Sample.mongoose Sample.api Sample.tuned
                  3%positive (Sample.idle "default")))
    = trace (Sample.idle "default")
      ++ connecting Sample.api Sample.tuned
         :: EvCreateConnection Sample.mongoose (VStr "mem://test") options :: rest
    /\ member options "poolSize" = Ok (VNum 5)
    /\ member options "useUnifiedTopology" = Ok (VBool false)
    /\ member options "useNewUrlParser" = Ok (VBool true).
Proof.
  destruct (connect_driver_options Sample.working Sample.mongoose Sample.api Sample.tuned
              3%positive (Sample.idle "default")
              ∅ (Sample.options 2%positive) Sample.api
              (literal [("poolSize", VNum 5); ("useUnifiedTopology", VBool false)])
              (VStr "default") (VStr "mem://test"))
    as (options & rest & T & Hin & Hnew & _); try (vm_compute; reflexivity).
  - repeat constructor; simpl; intuition discriminate.
  - exists options, rest. split; [exact T|].
    split; [apply (Hin "poolSize"); simpl; auto|].
    split; [apply (Hin "useUnifiedTopology"); simpl; auto|].
    apply Hnew. simpl. intuition discriminate.
Defined.

(** X18.  Without a [mongo] section in [options.config], or without
    [options.config] at all, [request.connect] cannot read the connection
    configuration: it throws a [TypeError] without asking the driver, and
    the request has no more connections than before. *)
Theorem connect_without_mongo_section (C : Collaborators) (options : Options)
    (Log : Logger) (override : JsVal) (request : loc) (w : World) :
  (opt_config options = None
   \/ exists c cfg, opt_config options = Some c
                    /\ heap w !! c = Some (OData cfg)
                    /\ (getProperty cfg "mongo" = VUndef
                        \/ getProperty cfg "mongo" = VNull)) ->
  exists msg w1,
    dbConnect C options Log override request w = (Throw (TypeError msg), w1)
    /\ heap w1 = heap w
    /\ globals_mongoose w1 = globals_mongoose w
    /\ calls (fun e => forall m uri o, e <> EvCreateConnection m uri o) w w1.
Proof.
  intros [Ho | (c & cfg & Ho & Hc & Hm)]; unfold dbConnect; rewrite Ho.
  - eexists _, w. split; [reflexivity|]. split; [reflexivity|]. split; [reflexivity|].
    apply calls_refl.
  - rewrite (bindM_ok _ _ w cfg w) by (now apply readData_eq).
    destruct Hm as [-> | ->]; unfold mongooseInit, bindM, emit, modify, liftRes; simpl;
      (eexists _, _; split; [reflexivity|]; split; [reflexivity|];
       split; [reflexivity|]; apply calls_emit; discriminate).
Qed.

Lemma connect_without_mongo_section_witness :
  exists msg w1,
    dbConnect Sample.working Sample.bare Sample.api VUndef 3%positive
      (Sample.idle "default") = (Throw (TypeError msg), w1)
    /\ heap w1 = heap (Sample.idle "default").
Proof.
  destruct (connect_without_mongo_section Sample.working Sample.bare Sample.api VUndef
              3%positive (Sample.idle "default") (or_introl eq_refl))
    as (msg & w1 & E & H & _).
  exists msg, w1. auto.
Defined.

(** ** Pre-generated schemas *)

(** X19.  When the build that [generateModels] starts succeeds, its
    schemas are what [generateModels] returns and stores, both as the
    registry and as [exported.schema], with the flag set; a [register]
    after it builds nothing, keeps that registry, and runs its stages on
    those schemas. *)
Theorem pregenerated_schemas_are_served (C : Collaborators) (mongoose : Mongoose)
    (server : Server) (options : Options) (w w1 : World) (schema : JsVal) :
  is_data (defaultConfig w) w ->
  is_data (exported_config w) w ->
  generateModelsStart C mongoose w = (Ok (Ok schema), w1) ->
  let w2 := set_exported_schema schema (set_globalSchemas schema w1) in
  generateModels C mongoose w = (Ok schema, w2)
  /\ modelsGenerated w2 = true
  /\ globalSchemas w2 = schema
  /\ exported_schema w2 = schema
  /\ builds (trace w2) = S (builds (trace w))
  /\ builds (trace (snd (register C server options w2))) = builds (trace w2)
  /\ globalSchemas (snd (register C server options w2)) = schema
  /\ (forall Log config w3,
         registerSetup C server options w2 = (Ok (Log, config), w3) ->
         register C server options w2 = registerRest C server options Log config schema w3).
Proof.
  intros Hd Hx Hs w2.
  destruct (generateModelsStart_ok C mongoose w Hd Hx)
    as (Log & d & w0 & E & H1 & H2 & H3 & H4 & H5).
  rewrite Hs in E. injection E as Ep Ew.
  assert (Hf : modelsGenerated w2 = true) by (unfold w2; simpl; now rewrite Ew).
  assert (Hb : builds (trace w2) = S (builds (trace w))).
  { unfold w2. simpl. rewrite Ew. unfold called, builds in *. simpl.
    rewrite List.filter_app, length_app. simpl. lia. }
  destruct (register_generated C server options w2 Hf) as (R1 & R2 & R3).
  split.
  { unfold generateModels. rewrite (bindM_ok _ _ _ _ _ Hs). reflexivity. }
  split; [exact Hf|]. split; [reflexivity|]. split; [reflexivity|].
  split; [exact Hb|]. split; [exact R1|]. split; [exact R2|].
  intros Log' config w3 Hsetup.
  pose proof (preserves_registerSetup C _ (stable_modelsGenerated true) server options
                w2 Hf) as F.
  pose proof (preserves_registerSetup C _ (stable_globalSchemas schema) server options
                w2 eq_refl) as G.
  rewrite Hsetup in F, G. simpl in F, G.
  rewrite (register_unfold C server options w2), Hsetup.
  rewrite (bindM_ok _ _ _ _ _ (resolveSchemas_generated C options Log' config w3 F)).
  now rewrite G.
Qed.

Lemma pregenerated_schemas_are_served_witness :
  fst (generateModels Sample.working Sample.mongoose (initial (Sample.config "default")))
  = Ok Sample.schemas
  /\ globalSchemas
       (snd (register Sample.working Sample.server Sample.bare
               (snd (generateModels Sample.working Sample.mongoose
                       (initial (Sample.config "default")))))) = Sample.schemas.
Proof.
  set (w := initial (Sample.config "default")).
  assert (Hd : is_data (defaultConfig w) w) by (eexists; reflexivity).
  assert (Hs : generateModelsStart Sample.working Sample.mongoose w
               = (Ok (Ok Sample.schemas),
                  snd (generateModelsStart Sample.working Sample.mongoose w)))
    by (vm_compute; reflexivity).
  destruct (pregenerated_schemas_are_served Sample.working Sample.mongoose Sample.server
              Sample.bare w _ Sample.schemas Hd Hd Hs)
    as (E & _ & _ & _ & _ & _ & G & _).
  rewrite E. split; [reflexivity | exact G].
Defined.

(** ** The default connection, named or not *)

(** [spawnModel] leaves the exported configuration as it is. *)
Lemma spawnModel_config (C : Collaborators) name cn request w cfg :
  heap w !! exported_config w = Some (OData cfg) ->
  exported_config (snd (spawnModel C name cn request w)) = exported_config w
  /\ heap (snd (spawnModel C name cn request w)) !! exported_config w = Some (OData cfg).
Proof.
  intros Hc.
  destruct (spawnModel C name cn request w) as [r w1] eqn:E. simpl.
  unfold spawnModel in E.
  pose proof (readonly_getConnection cn request w) as Hro.
  unfold bindM at 1 in E.
  destruct (getConnection cn request w) as [[c|e] w0]; simpl in Hro; subst w0;
    [|injection E as <- <-; auto].
  unfold bindM at 1, readConnection in E.
  destruct (heap w !! c) as [[| | | n ms h |]|] eqn:Ec;
    try (injection E as <- <-; auto).
  destruct (ms !! name); [injection E as <- <-; auto|].
  unfold bindM at 1, gets in E.
  destruct (inherits (trace w) name); [injection E as <- <-; auto|].
  destruct h as [h|]; [|injection E as <- <-; auto].
  assert (Hne : exported_config w <> c) by congruence.
  unfold bindM at 1 in E. unfold bindM at 1, liftRes in E.
  destruct (member (globalSchemas w) name) as [entry|e]; [|injection E as <- <-; auto].
  unfold bindM at 1 in E.
  destruct (member entry "Schema") as [schema|e]; [|injection E as <- <-; auto].
  unfold callModel, bindM, emit, modify, gets, alloc, store, throw, ret in E.
  simpl in E.
  destruct (connectionModel C _ h name schema name); simpl in E;
    injection E as <- <-; [auto|].
  split; [reflexivity|]. simpl.
  rewrite lookup_insert_ne by congruence.
  rewrite lookup_insert_ne; [exact Hc|].
  intros X. pose proof (fresh_unused (heap w)) as F. rewrite X in F. congruence.
Qed.

Lemma bindM_congr {A B} (m : M A) (f g : A -> M B) w :
  (forall a w1, m w = (Ok a, w1) -> f a w1 = g a w1) -> bindM m f w = bindM m g w.
Proof.
  intros H. unfold bindM. destruct (m w) as [[a|e] w1]; [now apply H | reflexivity].
Qed.

(** X20.  Omitting the connection name and naming the configured default
    connection are the same call: [getModel(name, undefined, request)] and
    [getModel(name, d, request)], for [d] the configured default, give the
    same result and leave the same state, whatever that result is.  (In
    [getConnection] an omitted name stands for ['default'] instead.) *)
Theorem default_connection_by_name (C : Collaborators) (name : string) (request : loc)
    (w : World) (cfg : JsObj) (dflt : JsVal) :
  heap w !! exported_config w = Some (OData cfg) ->
  member (getProperty cfg "mongo") "defaultConnection" = Ok dflt ->
  strictEq dflt dflt = true ->
  getModel C name dflt request w = getModel C name VUndef request w.
Proof.
  intros Hc Hd Hs.
  assert (Hcase : dflt = VUndef
                  \/ (match dflt with VUndef => dflt | _ => dflt end = dflt
                      /\ forall current,
                          match dflt with
                          | VUndef => true
                          | _ => strictEq dflt current
                          end = strictEq dflt current))
    by (destruct dflt; auto).
  destruct Hcase as [-> | [H1 H2]]; [reflexivity|].
  rewrite (getModel_unfold C name dflt request w dflt cfg Hc Hd).
  rewrite (getModel_unfold C name VUndef request w dflt cfg Hc Hd).
  rewrite H1.
  apply bindM_congr. intros model w1 E.
  destruct (spawnModel_config C name dflt request w cfg Hc) as [Hx Hh].
  rewrite E in Hx, Hh. simpl in Hx, Hh. rewrite <- Hx in Hh.
  apply bindM_congr. intros current w2 E2.
  rewrite (defaultConnection_eq _ _ Hh), Hd in E2. injection E2 as <- <-.
  now rewrite H2, Hs.
Qed.

Lemma default_connection_by_name_witness :
  getModel Sample.working "A" (VStr "default") 3%positive (Sample.busy "default" "default")
  = getModel Sample.working "A" VUndef 3%positive (Sample.busy "default" "default").
Proof.
  apply (default_connection_by_name Sample.working "A" 3%positive
           (Sample.busy "default" "default")
           (extend (Sample.config "default") [VObj Plain Sample.userConfig])
           (VStr "default")).
  - vm_compute. reflexivity.
  - reflexivity.
  - reflexivity.
Defined.
